(** * GP_AI_Full: a shallow embedding of the decision logic of the repository

    The development follows the source tree.  Each module embeds one
    Python file (or the part of it that carries decisions); the properties
    proved of them follow in the second part.

    - [Utils], [Services]: [EEG-YCombinator/utils.py], [models.py], [services.py]
    - [MLOps]: [mlops-checker-agent/agents/mlops_checker.py]
    - [MNIST]: [toyota_interview/src/data/data_loader.py]
    - [MCP]: [mcp-ai-agent/mcp_base.py]
    - [PyStr], [Workflow]: [langraph_workflow_engine/workflow_engine.py]
    - [Json], [VectorStore]: [multimodal-rag/agents/vector_store.py]
    - [Mask], [ServicesMore], [MLOpsMore], [MNISTMore], [VectorStoreMore]:
      further functions of the files above
    - [Api]: the endpoints of [EEG-YCombinator/main.py]
    - [Agent]: [mcp-ai-agent/ai_agent.py]
    - [Rag]: [multimodal-rag/agents/multimodal_rag.py]

    Conventions.  A Python function that may raise returns an [outcome]:
    [Returned v] or [Raised e].  A method that mutates [self] takes the
    object state and returns the new one next to its outcome.  A dict with
    a fixed set of possible keys is a record whose fields are [option]s
    ([None]: the key is absent); a dict used as a map is a [gmap], or an
    association list where the order of insertion matters.  What the code
    takes from outside (numpy, the clock, the file system, the chat model)
    is a type class, so that the embedded functions can be run on sample
    instances.  Quantities that Python holds in doubles and that are only
    added, subtracted or compared here are modelled by exact integers or
    rationals; every such place says why the two agree. *)

From Stdlib Require Import ZArith QArith Lia DecimalFacts DecimalPos DecimalZ.
From stdpp Require Import gmap strings list fin_maps pretty sorting.

Open Scope string_scope.
Open Scope list_scope.

(** ** Exceptions and outcomes *)

(** Instances of Python's [Exception] that the embedded code raises or
    catches, with the text [str(e)]. *)
Inductive exn : Type :=
  | ValueError (msg : string)
  | ValidationError (msg : string)
  | DataLoadingError (msg : string)
  | OtherException (msg : string).

Definition exn_str (e : exn) : string :=
  match e with
  | ValueError m | ValidationError m | DataLoadingError m
  | OtherException m => m
  end.

Inductive outcome (A : Type) : Type :=
  | Returned (v : A)
  | Raised (e : exn).
Arguments Returned {A} v.
Arguments Raised {A} e.

Global Instance outcome_ret : MRet outcome := fun A v => Returned v.
Global Instance outcome_bind : MBind outcome := fun A B k m =>
  match m with
  | Returned v => k v
  | Raised e => Raised e
  end.

(** ** EEG-YCombinator/utils.py *)

Module Utils.

(** [np.arange(lo, hi)] on integers: empty when [hi <= lo]. *)
Definition arange (lo hi : Z) : list Z :=
  (fun i : nat => lo + Z.of_nat i)%Z <$> seq 0 (Z.to_nat (hi - lo)).

Definition min_run_length : Z := 10.

(** [int(prevalence * n_times)] with [prevalence = 0.05].  The double
    nearest to 0.05 lies above 1/20 by less than 3e-18, so for a sample
    count below 2^50 the rounded product truncates to the integer
    quotient of [5 * n_times] by 100. *)
Definition total_ones (n_times : Z) : Z := (5 * n_times) `quot` 100.

(** The number of runs asked from the random generator:
    [max(1, total_ones // min_run_length)], capped by
    [len(possible_starts)]. *)
Definition possible_starts (n_times : Z) : list Z :=
  arange 0 (n_times - min_run_length + 1).

Definition n_runs (n_times : Z) : nat :=
  let wanted := Z.to_nat (Z.max 1 (total_ones n_times `div` min_run_length)) in
  let avail := length (possible_starts n_times) in
  if decide (avail < wanted)%nat then avail else wanted.

(** What [np.random.choice(possible_starts, size=n_runs, replace=False)]
    may return: [n_runs] pairwise different elements of
    [possible_starts], in any order. *)
Definition choice_ok (n_times : Z) (starts : list Z) : Prop :=
  length starts = n_runs n_times /\
  NoDup starts /\
  Forall (fun s => s ∈ possible_starts n_times) starts.

Global Instance choice_ok_dec n_times starts : Decision (choice_ok n_times starts).
Proof. unfold choice_ok. apply _. Defined.

(** [row[a:b] = 1.0] for [0 <= a]: cells with index in [[a, b)] are set,
    indices past the end are ignored as numpy slices do. *)
Definition set_slice (a b : Z) (row : list bool) : list bool :=
  imap (fun i x => if decide (a <= Z.of_nat i < b)%Z then true else x) row.

(** A mask is a list of channel rows; [true] is the cell value 1.0. *)
Definition zeros (n_channels n_times : nat) : list (list bool) :=
  replicate n_channels (replicate n_times false).

(** [mask[:, start:start + run_length] = 1.0] *)
Definition set_run (start : Z) (mask : list (list bool)) : list (list bool) :=
  set_slice start (start + min_run_length) <$> mask.

(** [model_binary_example] on an array of shape [(n_channels, n_times)];
    [starts] is the outcome of the random choice. *)
Definition model_binary_example (n_channels n_times : nat) (starts : list Z)
  : list (list bool) :=
  foldl (fun mask start => set_run start mask) (zeros n_channels n_times) starts.

(** Maximal runs of 1-cells of a row, as (first index, length). *)
Fixpoint runs_from (i : nat) (cur : option (nat * nat)) (row : list bool)
  : list (nat * nat) :=
  match row, cur with
  | [], None => []
  | [], Some r => [r]
  | true :: row', None => runs_from (S i) (Some (i, 1%nat)) row'
  | true :: row', Some (s, n) => runs_from (S i) (Some (s, S n)) row'
  | false :: row', None => runs_from (S i) None row'
  | false :: row', Some r => r :: runs_from (S i) None row'
  end.

Definition runs (row : list bool) : list (nat * nat) := runs_from 0 None row.

Definition count_ones (mask : list (list bool)) : nat :=
  sum_list ((fun row => length (filter (fun b => b = true) row)) <$> mask).

End Utils.

(** ** EEG-YCombinator/models.py and services.py *)

Module Services.

(** A [datetime] is a count of microseconds, the resolution of Python's
    [datetime]; [timedelta(hours=h)] is [hours h]. *)
Definition datetime : Type := Z.
Definition hours (h : Z) : Z := (h * 3600 * 1000000)%Z.

(** [timedelta.total_seconds() / 3600] *)
Definition total_hours (delta : Z) : Q :=
  (inject_Z delta / inject_Z (3600 * 1000000))%Q.

(** Rows of the two tables ([JSON] columns and the audit timestamps of
    [Patient] take no part in the services and are left out). *)
Record Patient : Type := mkPatient {
  patient_id : string;
  name : string;
  age : Z;
  stasis_pod_id : string;
  mission_id : string;
  stasis_start_time : datetime;
  is_active : bool;
  last_data_received : option datetime
}.

Record DataIngestion : Type := mkDataIngestion {
  di_patient_id : string;
  di_timestamp : datetime;
  di_channels : Z;
  di_samples : Z;
  di_anomaly_count : Z;
  di_adr_mean : option Q
}.

(** The database session: the rows of each table in insertion order. *)
Record Session : Type := mkSession {
  patients : list Patient;
  data_ingestions : list DataIngestion
}.

Record PatientSummary : Type := mkPatientSummary {
  ps_patient_id : string;
  ps_name : string;
  ps_stasis_pod_id : string;
  ps_is_active : bool;
  ps_stasis_duration_hours : Q;
  ps_last_data_received : option datetime;
  ps_recent_adr_mean : option Q;
  ps_recent_anomaly_count : Z;
  ps_health_status : string
}.

(** A numpy array as far as the services look at it: its [shape]. *)
Record ndarray : Type := mkArray {
  shape : list Z;
  cells : list Q
}.

(** What the services take from numpy, scipy and the random generator. *)
Class Externals : Type := {
  (** [float(np.mean(calculate_adr(data)))]; the transform may raise *)
  calculate_adr_mean : ndarray -> outcome Q;
  (** the draw of [np.random.choice] inside [model_binary_example] *)
  random_starts : ndarray -> list Z;
  (** square root, for [np.std] *)
  sqrt : Q -> Q;
  (** [datetime.isoformat()] *)
  isoformat : datetime -> string
}.

(** *** PatientService *)

Section PatientService.

(** [db.query(Patient).filter(Patient.patient_id == patient_id).first()] *)
Definition get_patient (patient_id' : string) (db : Session) : option Patient :=
  head (filter (fun p => patient_id p = patient_id') (patients db)).

Definition set_last_data_received (timestamp : datetime) (p : Patient) : Patient :=
  mkPatient (patient_id p) (name p) (age p) (stasis_pod_id p) (mission_id p)
            (stasis_start_time p) (is_active p) (Some timestamp).

(** The row returned by [first()] is the first one that matches. *)
Fixpoint update_first (patient_id' : string) (f : Patient -> Patient)
    (ps : list Patient) : list Patient :=
  match ps with
  | [] => []
  | p :: ps' =>
      if decide (patient_id p = patient_id') then f p :: ps'
      else p :: update_first patient_id' f ps'
  end.

Definition update_last_data_received (patient_id' : string) (timestamp : datetime)
    (db : Session) : Session :=
  match get_patient patient_id' db with
  | Some _ =>
      mkSession (update_first patient_id' (set_last_data_received timestamp) (patients db))
                (data_ingestions db)
  | None => db
  end.

(** The dict returned by [_get_recent_statistics]: a key is absent
    ([None]) or bound; [{}] is [no_stats]. *)
Record Stats : Type := mkStats {
  st_adr_mean : option (option Q);
  st_anomaly_count : option Z;
  st_data_points : option Z
}.

Definition no_stats : Stats := mkStats None None None.

(** Truth value of the dict: an empty dict is false. *)
Definition stats_nonempty (s : Stats) : bool :=
  bool_decide (is_Some (st_adr_mean s)) || bool_decide (is_Some (st_anomaly_count s))
  || bool_decide (is_Some (st_data_points s)).

Definition Qsum (l : list Q) : Q := foldr Qplus 0%Q l.
Definition Zsum (l : list Z) : Z := foldr Z.add 0%Z l.

(** [np.mean] of a non-empty list *)
Definition np_mean (l : list Q) : Q :=
  (Qsum l / inject_Z (Z.of_nat (length l)))%Q.

(** The rows of one patient with [timestamp >= cutoff]. *)
Definition recent_data (cutoff : datetime) (patient_id' : string) (db : Session)
    : list DataIngestion :=
  filter (fun d => di_patient_id d = patient_id' /\ (cutoff <= di_timestamp d)%Z)
         (data_ingestions db).

Definition _get_recent_statistics (utcnow : datetime) (patient_id' : string)
    (db : Session) : Stats :=
  let cutoff_time := (utcnow - hours 24)%Z in
  let recent := recent_data cutoff_time patient_id' db in
  match recent with
  | [] => no_stats
  | _ =>
      let adr_values := omap di_adr_mean recent in
      let anomaly_count := Zsum (di_anomaly_count <$> recent) in
      mkStats (Some (match adr_values with [] => None | _ => Some (np_mean adr_values) end))
              (Some anomaly_count)
              (Some (Z.of_nat (length recent)))
  end.

(** [x > y] on numbers *)
Definition Qgtb (x y : Q) : bool := negb (Qle_bool x y).

(** The thresholds are the doubles nearest to 0.15 and 0.08 and the rate
    is the correctly rounded quotient of two integers.  A quotient
    [a/b] other than 3/20 differs from it by at least [1/(20 b)], which
    for [b] below 2^49 is more than the rounding errors involved; so the
    comparison of the doubles and that of the exact rationals agree. *)
Definition _determine_health_status (stats : Stats) : string :=
  if negb (stats_nonempty stats) then "unknown"
  else
    let anomaly_count := default 0%Z (st_anomaly_count stats) in
    let data_points := default 1%Z (st_data_points stats) in
    let anomaly_rate := (inject_Z anomaly_count / inject_Z (Z.max data_points 1))%Q in
    if Qgtb anomaly_rate (15 # 100)%Q then "critical"
    else if Qgtb anomaly_rate (8 # 100)%Q then "warning"
    else "normal".

Definition get_patient_summary (utcnow : datetime) (patient_id' : string)
    (db : Session) : option PatientSummary :=
  match get_patient patient_id' db with
  | None => None
  | Some patient =>
      let stasis_duration := (utcnow - stasis_start_time patient)%Z in
      let stasis_duration_hours := total_hours stasis_duration in
      let recent_stats := _get_recent_statistics utcnow patient_id' db in
      let health_status := _determine_health_status recent_stats in
      Some (mkPatientSummary
              (patient_id patient) (name patient) (stasis_pod_id patient)
              (is_active patient) stasis_duration_hours
              (last_data_received patient)
              (default None (st_adr_mean recent_stats))
              (default 0%Z (st_anomaly_count recent_stats))
              health_status)
  end.

(** The anomaly rate of a non-empty window: total anomaly count divided
    by the number of rows. *)
Definition window_rate (recent : list DataIngestion) : Q :=
  (inject_Z (Zsum (di_anomaly_count <$> recent)) / inject_Z (Z.of_nat (length recent)))%Q.

End PatientService.

(** *** DataIngestionService *)

(** The dict built by [_process_eeg_data] ([adr_values] is only averaged). *)
Record ProcessingResults : Type := mkProcessingResults {
  pr_adr_mean : Q;
  pr_anomaly_count : Z;
  pr_anomaly_mask : list (list bool);
  pr_total_samples : Z
}.

Record Notification : Type := mkNotification {
  nt_timestamp : datetime;
  nt_anomaly_count : Z;
  nt_adr_mean : Q;
  nt_total_samples : Z
}.

Record StreamInfo : Type := mkStreamInfo {
  stream_id : string;
  active : bool;
  start_time : datetime
}.

(** The service object: the session and the two in-memory dicts.
    [threads] lists the patients for which a generator thread was started;
    what the threads do afterwards is not part of this model. *)
Record DataIngestionService : Type := mkService {
  db : Session;
  active_streams : gmap string StreamInfo;
  notification_accumulator : gmap string (list Notification);
  threads : list string
}.

(** The dict returned by a successful [ingest_data]. *)
Record IngestResult : Type := mkIngestResult {
  ir_status : string;
  ir_anomaly_count : Z;
  ir_adr_mean : Q;
  ir_samples_processed : Z
}.

Section DataIngestionService.
Context `{Externals}.

Definition _process_eeg_data (data : ndarray) : outcome ProcessingResults :=
  adr_mean ← calculate_adr_mean data;
  match shape data with
  | [n_channels; n_times] =>
      let anomaly_mask :=
        Utils.model_binary_example (Z.to_nat n_channels) (Z.to_nat n_times)
                                   (random_starts data) in
      let anomaly_count := Z.of_nat (Utils.count_ones anomaly_mask) in
      Returned (mkProcessingResults adr_mean anomaly_count anomaly_mask n_times)
  | _ => Raised (ValueError "not enough values to unpack")
  end.

Definition _add_to_notification_buffer (utcnow : datetime) (patient_id' : string)
    (results : ProcessingResults) (self : DataIngestionService) : DataIngestionService :=
  let acc := notification_accumulator self in
  let acc1 := if decide (is_Some (acc !! patient_id')) then acc
              else <[patient_id' := []]> acc in
  let entry := mkNotification utcnow (pr_anomaly_count results) (pr_adr_mean results)
                              (pr_total_samples results) in
  let acc2 := alter (fun l => l ++ [entry]) patient_id' acc1 in
  mkService (db self) (active_streams self) acc2 (threads self).

(** [self.db.add(ingestion); self.db.commit()] *)
Definition db_add (ingestion : DataIngestion) (s : Session) : Session :=
  mkSession (patients s) (data_ingestions s ++ [ingestion]).

Definition set_db (s : Session) (self : DataIngestionService) : DataIngestionService :=
  mkService s (active_streams self) (notification_accumulator self) (threads self).

(** [ingest_data]: the [except] clause logs and re-raises, so a raised
    exception leaves with the state reached so far. *)
Definition ingest_data (utcnow : datetime) (patient_id' : string) (timestamp : datetime)
    (data : ndarray) (self : DataIngestionService)
    : outcome IngestResult * DataIngestionService :=
  match get_patient patient_id' (db self) with
  | None => (Raised (ValueError ("Patient " +:+ patient_id' +:+ " not found")), self)
  | Some patient =>
      if decide (length (shape data) ≠ 2%nat) then
        (Raised (ValueError "Data must be 2D array [channels x samples]"), self)
      else if decide (shape data !! 0%nat ≠ Some 21%Z) then
        (Raised (ValueError "Expected 21 EEG channels"), self)
      else
        match _process_eeg_data data with
        | Raised e => (Raised e, self)
        | Returned processing_results =>
            let ingestion :=
              mkDataIngestion patient_id' timestamp
                (default 0%Z (shape data !! 0%nat)) (default 0%Z (shape data !! 1%nat))
                (pr_anomaly_count processing_results)
                (Some (pr_adr_mean processing_results)) in
            let self1 := set_db (db_add ingestion (db self)) self in
            let self2 :=
              set_db (update_last_data_received patient_id' timestamp (db self1)) self1 in
            let self3 :=
              _add_to_notification_buffer utcnow patient_id' processing_results self2 in
            (Returned (mkIngestResult "success"
                         (pr_anomaly_count processing_results)
                         (pr_adr_mean processing_results)
                         (default 0%Z (shape data !! 1%nat))),
             self3)
        end
  end.

Definition set_active_streams (m : gmap string StreamInfo) (self : DataIngestionService)
    : DataIngestionService :=
  mkService (db self) m (notification_accumulator self) (threads self).

(** [start_mock_stream]; [time_s] is [int(time.time())]. *)
Definition start_mock_stream (utcnow : datetime) (time_s : Z) (patient_id' : string)
    (self : DataIngestionService) : outcome string * DataIngestionService :=
  if decide (is_Some (active_streams self !! patient_id')) then
    (Raised (ValueError ("Stream already active for patient " +:+ patient_id')), self)
  else
    let stream_id' := "stream_" +:+ patient_id' +:+ "_" +:+ pretty time_s in
    let streams := <[patient_id' := mkStreamInfo stream_id' true utcnow]> (active_streams self) in
    (Returned stream_id',
     mkService (db self) streams (notification_accumulator self)
               (threads self ++ [patient_id'])).

Definition deactivate (s : StreamInfo) : StreamInfo :=
  mkStreamInfo (stream_id s) false (start_time s).

(** [stop_mock_stream]: clear the flag of the entry, then [del] it;
    nothing is done for an id without entry. *)
Definition stop_mock_stream (patient_id' : string) (self : DataIngestionService)
    : outcome () * DataIngestionService :=
  if decide (is_Some (active_streams self !! patient_id')) then
    (Returned (),
     set_active_streams (delete patient_id' (alter deactivate patient_id' (active_streams self)))
                        self)
  else (Returned (), self).

End DataIngestionService.

(** *** StatisticsService *)

Record AdrStats : Type := mkAdrStats {
  adr_mean : Q; adr_std : Q; adr_min : Q; adr_max : Q; adr_count : nat
}.

Record AnomalyStats : Type := mkAnomalyStats {
  total_anomalies : Z; total_samples : Z; anomaly_rate : Q; data_points : nat
}.

Record TimeRange : Type := mkTimeRange {
  tr_start : string; tr_end : string; duration_hours : Q
}.

(** The dict returned by [compute_statistics]: each key is absent or bound. *)
Record Statistics : Type := mkStatistics {
  message : option string;
  adr : option AdrStats;
  anomalies : option AnomalyStats;
  time_range : option TimeRange
}.

Section StatisticsService.
Context `{Externals}.

Definition Qleast (x y : Q) : Q := if Qle_bool x y then x else y.
Definition Qmost (x y : Q) : Q := if Qle_bool x y then y else x.

Definition np_min (l : list Q) : Q :=
  match l with [] => 0%Q | x :: l' => foldl Qleast x l' end.
Definition np_max (l : list Q) : Q :=
  match l with [] => 0%Q | x :: l' => foldl Qmost x l' end.
Definition np_std (l : list Q) : Q :=
  let m := np_mean l in
  sqrt (np_mean ((fun x => ((x - m) * (x - m))%Q) <$> l)).

(** [order_by(DataIngestion.timestamp)] *)
Definition timestamp_le (a b : DataIngestion) : Prop :=
  (di_timestamp a <= di_timestamp b)%Z.

Global Instance timestamp_le_dec a b : Decision (timestamp_le a b).
Proof. unfold timestamp_le. apply _. Defined.

(** The query of [compute_statistics]: the rows of the patient inside
    the closed range, ordered by timestamp. *)
Definition data_records (patient_id' : string) (start_time' end_time : datetime)
    (s : Session) : list DataIngestion :=
  merge_sort timestamp_le
    (filter (fun d => di_patient_id d = patient_id' /\
                      (start_time' <= di_timestamp d)%Z /\ (di_timestamp d <= end_time)%Z)
            (data_ingestions s)).

Definition compute_statistics (patient_id' : string) (start_time' end_time : datetime)
    (metrics : list string) (s : Session) : Statistics :=
  let records := data_records patient_id' start_time' end_time s in
  match records with
  | [] => mkStatistics (Some "No data available for the specified time range")
                       None None None
  | _ =>
      let adr_part :=
        if decide ("adr" ∈ metrics) then
          match omap di_adr_mean records with
          | [] => None
          | adr_values =>
              Some (mkAdrStats (np_mean adr_values) (np_std adr_values)
                               (np_min adr_values) (np_max adr_values)
                               (length adr_values))
          end
        else None in
      let anomalies_part :=
        if decide ("anomalies" ∈ metrics) then
          let total_anomalies' := Zsum (di_anomaly_count <$> records) in
          let total_samples' := Zsum (di_samples <$> records) in
          Some (mkAnomalyStats total_anomalies' total_samples'
                  (if decide (0 < total_samples')%Z
                   then (inject_Z total_anomalies' / inject_Z total_samples')%Q
                   else 0%Q)
                  (length records))
        else None in
      mkStatistics None adr_part anomalies_part
        (Some (mkTimeRange (isoformat start_time') (isoformat end_time)
                           (total_hours (end_time - start_time'))))
  end.

(** [get_recent_trends] *)
Definition get_recent_trends (utcnow : datetime) (patient_id' : string) (hours' : Z)
    (s : Session) : Statistics :=
  let end_time := utcnow in
  let start_time' := (end_time - hours hours')%Z in
  compute_statistics patient_id' start_time' end_time ["adr"; "anomalies"] s.

End StatisticsService.

End Services.

(** ** mlops-checker-agent/agents/mlops_checker.py *)

Module MLOps.

Record Issue : Type := mkIssue {
  severity : string;
  category : string;
  message : string;
  file_path : option string;
  line_number : option Z
}.

(** What one run finds in the directory under inspection.  The four
    checks read the file system; each is given by the issues and the
    recommendations it appends, or by the exception it leaves with.  The
    two AI steps catch their own exceptions and write only [ai_insights]
    and [fix_plan]. *)
Class Project : Type := {
  _check_dependencies : outcome (list Issue * list string);
  _check_security : outcome (list Issue * list string);
  _check_structure : outcome (list Issue * list string);
  _check_deployment : outcome (list Issue * list string);
  _run_ai_analysis : list Issue -> list string;
  _generate_intelligent_fix_plan : list Issue -> list string -> list string
}.

Record MLOpsChecker : Type := mkChecker {
  directory_path : string;
  issues : list Issue;
  recommendations : list string;
  use_ai : bool;
  ai_insights : list string;
  fix_plan : list string
}.

(** The dict returned by [run_checks]; the two AI keys are present only
    when AI is enabled. *)
Record RunResult : Type := mkRunResult {
  status : string;
  directory : string;
  result_issues : list Issue;
  result_recommendations : list string;
  deployment_readiness : Z;
  result_ai_insights : option (list string);
  result_fix_plan : option (list string)
}.

(** One turn of the loop of [_calculate_readiness_score]. *)
Definition deduct (base_score : Z) (issue : Issue) : Z :=
  if decide (severity issue = "critical") then (base_score - 20)%Z
  else if decide (severity issue = "warning") then (base_score - 10)%Z
  else if decide (severity issue = "info") then (base_score - 5)%Z
  else base_score.

(** [_calculate_readiness_score].  The score is a double that starts at
    100.0 and only loses 20, 10 or 5: every value it takes is an integer
    far below 2^53 in magnitude, which doubles hold exactly. *)
Definition _calculate_readiness_score (issues' : list Issue) : Z :=
  Z.max 0 (foldl deduct 100%Z issues').

Section Run.
Context `{Project}.

Definition run_check (check_type : string) (self : MLOpsChecker)
    : outcome MLOpsChecker :=
  let append (found : outcome (list Issue * list string)) :=
    '(new_issues, new_recs) ← found;
    mret (mkChecker (directory_path self) (issues self ++ new_issues)
                    (recommendations self ++ new_recs)
                    (use_ai self) (ai_insights self) (fix_plan self)) in
  if decide (check_type = "dependencies") then append _check_dependencies
  else if decide (check_type = "security") then append _check_security
  else if decide (check_type = "structure") then append _check_structure
  else if decide (check_type = "deployment") then append _check_deployment
  else mret self.

Fixpoint run_each (check_types : list string) (self : MLOpsChecker)
    : outcome MLOpsChecker :=
  match check_types with
  | [] => mret self
  | check_type :: rest => self' ← run_check check_type self; run_each rest self'
  end.

Definition run_checks (check_types : list string) (self : MLOpsChecker)
    : outcome (RunResult * MLOpsChecker) :=
  let self0 := mkChecker (directory_path self) [] [] (use_ai self)
                         (ai_insights self) (fix_plan self) in
  let check_types' :=
    if decide ("all" ∈ check_types)
    then ["dependencies"; "security"; "structure"; "deployment"]
    else check_types in
  self1 ← run_each check_types' self0;
  let self2 :=
    if use_ai self1 then
      let insights := ai_insights self1 ++ _run_ai_analysis (issues self1) in
      mkChecker (directory_path self1) (issues self1) (recommendations self1)
                (use_ai self1) insights
                (_generate_intelligent_fix_plan (issues self1) (fix_plan self1))
    else self1 in
  let readiness_score := _calculate_readiness_score (issues self2) in
  mret (mkRunResult "completed" (directory_path self2) (issues self2)
                    (recommendations self2) readiness_score
                    (if use_ai self2 then Some (ai_insights self2) else None)
                    (if use_ai self2 then Some (fix_plan self2) else None),
        self2).

End Run.

(** The number of issues of one severity. *)
Definition count_severity (sev : string) (issues' : list Issue) : Z :=
  Z.of_nat (length (filter (fun i => severity i = sev) issues')).

End MLOps.

(** ** toyota_interview/src/data/data_loader.py *)

Module MNIST.

(** A Python float: a finite value, an infinity or NaN. *)
Inductive pyfloat : Type :=
  | Finite (q : Q)
  | Infinity (negative : bool)
  | NaN.

(** [x <= y] on floats; every comparison with NaN is false. *)
Definition float_le (x y : pyfloat) : bool :=
  match x, y with
  | NaN, _ | _, NaN => false
  | Finite a, Finite b => Qle_bool a b
  | Infinity true, _ => true
  | _, Infinity false => true
  | _, _ => false
  end.

(** The transforms of torchvision that the loader composes. *)
Inductive Transform : Type :=
  | ToTensor
  | Normalize (mean std : list Q)
  | RandomRotation (degrees : Q)
  | RandomAffine (degrees : Q) (translate : option (Q * Q)).

(** The configuration dicts: a key is absent or bound. *)
Record NormalizeConfig : Type := mkNormalizeConfig {
  nc_mean : option (list Q);
  nc_std : option (list Q)
}.

Record AffineConfig : Type := mkAffineConfig {
  ac_degrees : option Q;
  ac_translate : option (Q * Q)
}.

Record TransformSpec : Type := mkTransformSpec {
  ts_normalize : option NormalizeConfig;
  ts_rotation : option Q;
  ts_affine : option AffineConfig
}.

Record TransformConfig : Type := mkTransformConfig {
  tc_train : option TransformSpec;
  tc_test : option TransformSpec
}.

Record MNISTDataLoader : Type := mkLoader {
  data_dir : string;
  batch_size : Z;
  validation_split : pyfloat;
  num_workers : Z;
  pin_memory : bool;
  download : bool;
  train_transform : list Transform;
  test_transform : list Transform
}.

(** What the constructor does to the outside world. *)
Inductive effect : Type :=
  | MkDir (path : string).

(** The file system: [mkdir dir] is [None] when
    [Path(dir).mkdir(parents=True, exist_ok=True)] succeeds and the text of
    the [OSError] otherwise. *)
Class FileSystem : Type := {
  mkdir : string -> option string
}.

Definition _validate_parameters (batch_size' : Z) (validation_split' : pyfloat)
    (num_workers' : Z) : outcome () :=
  if decide (batch_size' <= 0)%Z then
    Raised (ValidationError "Batch size must be positive")
  else if negb (float_le (Finite 0) validation_split' && float_le validation_split' (Finite 1)) then
    Raised (ValidationError "Validation split must be between 0 and 1")
  else if decide (num_workers' < 0)%Z then
    Raised (ValidationError "Number of workers cannot be negative")
  else Returned ().

Definition _setup_data_directory `{FileSystem} (data_dir' : string)
    : outcome () * list effect :=
  match mkdir data_dir' with
  | None => (Returned (), [MkDir data_dir'])
  | Some e =>
      (Raised (DataLoadingError
                 ("Failed to create data directory " +:+ data_dir' +:+ ": " +:+ e)),
       [MkDir data_dir'])
  end.

(** [config[key]] on a dict: [KeyError] for an absent key. *)
Definition subscript {A} (key : string) (v : option A) : outcome A :=
  match v with
  | Some a => Returned a
  | None => Raised (OtherException ("'" +:+ key +:+ "'"))
  end.

Definition _build_transform (config : TransformSpec) : outcome (list Transform) :=
  let transform_list := [ToTensor] in
  transform_list ←
    match ts_normalize config with
    | Some norm_config =>
        m ← subscript "mean" (nc_mean norm_config);
        s ← subscript "std" (nc_std norm_config);
        mret (transform_list ++ [Normalize m s])
    | None => mret transform_list
    end;
  let transform_list :=
    match ts_rotation config with
    | Some r => transform_list ++ [RandomRotation r]
    | None => transform_list
    end in
  let transform_list :=
    match ts_affine config with
    | Some affine_config =>
        transform_list ++
          [RandomAffine (default 0%Q (ac_degrees affine_config)) (ac_translate affine_config)]
    | None => transform_list
    end in
  mret transform_list.

Definition empty_spec : TransformSpec := mkTransformSpec None None None.

Definition mnist_normalize : Transform := Normalize [(1307 # 10000)%Q] [(3081 # 10000)%Q].

(** [_setup_transforms]: any exception becomes a [DataLoadingError]. *)
Definition _setup_transforms (transform_config : option TransformConfig)
    : outcome (list Transform * list Transform) :=
  let body :=
    match transform_config with
    | None =>
        mret ([ToTensor; mnist_normalize; RandomRotation 10%Q;
               RandomAffine 0%Q (Some ((1 # 10)%Q, (1 # 10)%Q))],
              [ToTensor; mnist_normalize])
    | Some cfg =>
        train ← _build_transform (default empty_spec (tc_train cfg));
        test ← _build_transform (default empty_spec (tc_test cfg));
        mret (train, test)
    end in
  match body with
  | Returned v => Returned v
  | Raised e => Raised (DataLoadingError ("Failed to setup transforms: " +:+ exn_str e))
  end.

(** The constructor: the attributes are stored, then the three set-up
    steps run in order; the effects performed so far are returned next to
    the outcome. *)
Definition __init__ `{FileSystem} (data_dir' : string) (batch_size' : Z)
    (validation_split' : pyfloat) (num_workers' : Z) (pin_memory' download' : bool)
    (transform_config : option TransformConfig)
    : outcome MNISTDataLoader * list effect :=
  match _validate_parameters batch_size' validation_split' num_workers' with
  | Raised e => (Raised e, [])
  | Returned _ =>
      match _setup_data_directory data_dir' with
      | (Raised e, effects) => (Raised e, effects)
      | (Returned _, effects) =>
          match _setup_transforms transform_config with
          | Raised e => (Raised e, effects)
          | Returned (train, test) =>
              (Returned (mkLoader data_dir' batch_size' validation_split' num_workers'
                                  pin_memory' download' train test),
               effects)
          end
      end
  end.

(** A split inside the closed interval from 0 to 1. *)
Definition in_unit_interval (x : pyfloat) : Prop :=
  match x with
  | Finite q => (0 <= q)%Q /\ (q <= 1)%Q
  | _ => False
  end.

End MNIST.

(** ** mcp-ai-agent/mcp_base.py *)

Module MCP.

(** A registered tool (its parameter schema is left out).  The handler is
    called with the keyword arguments and returns a value or raises an
    [Exception]; [Kwargs] and [Value] are whatever the servers exchange. *)
Record Tool (Kwargs Value : Type) : Type := mkTool {
  tool_name : string;
  tool_description : string;
  handler : Kwargs -> outcome Value
}.
Arguments mkTool {Kwargs Value}.
Arguments tool_name {Kwargs Value}.
Arguments tool_description {Kwargs Value}.
Arguments handler {Kwargs Value}.

Record Server (Kwargs Value : Type) : Type := mkServer {
  name : string;
  description : string;
  tools : gmap string (Tool Kwargs Value)
}.
Arguments mkServer {Kwargs Value}.
Arguments name {Kwargs Value}.
Arguments description {Kwargs Value}.
Arguments tools {Kwargs Value}.

(** The dict returned by [execute_tool]: ["success"] is always bound, the
    other keys are absent or bound. *)
Record ToolResult (Value : Type) : Type := mkToolResult {
  success : bool;
  result : option Value;
  error : option string;
  tool : option string;
  server : option string
}.
Arguments mkToolResult {Value}.
Arguments success {Value}.
Arguments result {Value}.
Arguments error {Value}.
Arguments tool {Value}.
Arguments server {Value}.

(** The registry: the dict [servers], server name to server, in insertion
    order. *)
Record Registry (Kwargs Value : Type) : Type := mkRegistry {
  servers : list (string * Server Kwargs Value)
}.
Arguments mkRegistry {Kwargs Value}.
Arguments servers {Kwargs Value}.

(** [d[key] = v] on an insertion-ordered dict. *)
Fixpoint dict_set {V : Type} (key : string) (v : V) (d : list (string * V))
    : list (string * V) :=
  match d with
  | [] => [(key, v)]
  | (k, w) :: d' =>
      if decide (k = key) then (k, v) :: d' else (k, w) :: dict_set key v d'
  end.

Module MCPServer.

Definition add_tool {Kwargs Value} (name' description' : string)
    (handler' : Kwargs -> outcome Value) (self : Server Kwargs Value)
    : Server Kwargs Value :=
  mkServer (name self) (description self)
           (<[name' := mkTool name' description' handler']> (tools self)).

(** [execute_tool]: the handler runs inside [try]; [except Exception]
    turns whatever it raises into a failure dict. *)
Definition execute_tool {Kwargs Value} (self : Server Kwargs Value)
    (tool_name' : string) (kwargs : Kwargs) : outcome (ToolResult Value) :=
  match tools self !! tool_name' with
  | None =>
      Returned (mkToolResult false None
                  (Some ("Tool '" +:+ tool_name' +:+ "' not found in server '"
                         +:+ name self +:+ "'"))
                  None None)
  | Some t =>
      match handler t kwargs with
      | Returned r =>
          Returned (mkToolResult true (Some r) None (Some tool_name') (Some (name self)))
      | Raised e =>
          Returned (mkToolResult false None
                      (Some ("Error executing " +:+ tool_name' +:+ ": " +:+ exn_str e))
                      (Some tool_name') (Some (name self)))
      end
  end.

End MCPServer.

Module MCPRegistry.

Definition register_server {Kwargs Value} (server' : Server Kwargs Value)
    (self : Registry Kwargs Value) : Registry Kwargs Value :=
  mkRegistry (dict_set (name server') server' (servers self)).

(** The loop of [execute_tool] over [self.servers.values()]: the first
    server that has the tool runs it. *)
Fixpoint execute_in {Kwargs Value} (values : list (Server Kwargs Value))
    (tool_name' : string) (kwargs : Kwargs) : outcome (ToolResult Value) :=
  match values with
  | [] =>
      Returned (mkToolResult false None
                  (Some ("Tool '" +:+ tool_name' +:+ "' not found in any registered server"))
                  None None)
  | server' :: rest =>
      if decide (is_Some (tools server' !! tool_name')) then
        MCPServer.execute_tool server' tool_name' kwargs
      else execute_in rest tool_name' kwargs
  end.

Definition execute_tool {Kwargs Value} (self : Registry Kwargs Value)
    (tool_name' : string) (kwargs : Kwargs) : outcome (ToolResult Value) :=
  execute_in (snd <$> servers self) tool_name' kwargs.

End MCPRegistry.

End MCP.

(** ** Python strings *)

Module PyStr.

(** A [string] holds the UTF-8 bytes of a Python [str].  [lower] maps the
    ASCII capitals and leaves every other byte as it is.  The code only
    searches lower-cased text for ASCII keywords without the letter k and
    not ending in i; no character outside ASCII lower-cases to text that
    could take part in such a match, so the searches below answer as
    Python's do. *)
Definition lower_ascii (c : Ascii.ascii) : Ascii.ascii :=
  let n := Ascii.nat_of_ascii c in
  if decide (65 <= n <= 90)%nat then Ascii.ascii_of_nat (n + 32) else c.

Fixpoint lower (s : string) : string :=
  match s with
  | EmptyString => EmptyString
  | String c s' => String (lower_ascii c) (lower s')
  end.

(** [needle in text] *)
Fixpoint contains (needle text : string) : bool :=
  String.prefix needle text ||
  match text with
  | EmptyString => false
  | String _ text' => contains needle text'
  end.

End PyStr.

(** ** langraph_workflow_engine/workflow_engine.py *)

Module Workflow.
Import PyStr.

Record WorkflowState : Type := mkState {
  ticket_content : string;
  customer_tier : string;
  urgency : string;
  category : string;
  assigned_team : string;
  escalated : bool;
  resolution_steps : list string;
  final_response : string;
  processing_log : list string
}.

(** The chat model and the interpreter's string hash. *)
Class Runtime : Type := {
  (** [(await self.llm.ainvoke([SystemMessage(s), HumanMessage(h)])).content] *)
  llm_ainvoke : string -> string -> string;
  (** [hash(s)] *)
  py_hash : string -> Z
}.

Definition set_customer_tier (v : string) (s : WorkflowState) : WorkflowState :=
  mkState (ticket_content s) v (urgency s) (category s) (assigned_team s) (escalated s)
          (resolution_steps s) (final_response s) (processing_log s).

Definition set_urgency (v : string) (s : WorkflowState) : WorkflowState :=
  mkState (ticket_content s) (customer_tier s) v (category s) (assigned_team s) (escalated s)
          (resolution_steps s) (final_response s) (processing_log s).

Definition set_category (v : string) (s : WorkflowState) : WorkflowState :=
  mkState (ticket_content s) (customer_tier s) (urgency s) v (assigned_team s) (escalated s)
          (resolution_steps s) (final_response s) (processing_log s).

Definition set_assigned_team (v : string) (s : WorkflowState) : WorkflowState :=
  mkState (ticket_content s) (customer_tier s) (urgency s) (category s) v (escalated s)
          (resolution_steps s) (final_response s) (processing_log s).

Definition set_escalated (v : bool) (s : WorkflowState) : WorkflowState :=
  mkState (ticket_content s) (customer_tier s) (urgency s) (category s) (assigned_team s) v
          (resolution_steps s) (final_response s) (processing_log s).

Definition set_final_response (v : string) (s : WorkflowState) : WorkflowState :=
  mkState (ticket_content s) (customer_tier s) (urgency s) (category s) (assigned_team s)
          (escalated s) (resolution_steps s) v (processing_log s).

(** [state["processing_log"].append(line)] *)
Definition log (line : string) (s : WorkflowState) : WorkflowState :=
  mkState (ticket_content s) (customer_tier s) (urgency s) (category s) (assigned_team s)
          (escalated s) (resolution_steps s) (final_response s) (processing_log s ++ [line]).

(** [str(b)] for a bool inside an f-string *)
Definition str_bool (b : bool) : string := if b then "True" else "False".

Section Nodes.
Context `{Runtime}.

Definition analysis_prompt : string :=
  "You are a customer service AI analyzing support tickets.
        Analyze the ticket and return urgency (low/medium/high/critical),
        category (technical/billing/feature_request/complaint),
        sentiment (positive/neutral/negative/angry), and if it requires human intervention.".

Definition analyze_ticket (state : WorkflowState) : WorkflowState :=
  let response := llm_ainvoke analysis_prompt ("Ticket: " +:+ ticket_content state) in
  let analysis_text := lower response in
  let urgency' :=
    if contains "critical" analysis_text then "critical"
    else if contains "high" analysis_text then "high"
    else if contains "medium" analysis_text then "medium"
    else "low" in
  let category' :=
    if contains "billing" analysis_text then "billing"
    else if contains "technical" analysis_text || contains "bug" analysis_text then "technical"
    else if contains "feature" analysis_text then "feature_request"
    else "complaint" in
  log ("Analyzed ticket: " +:+ urgency' +:+ " urgency, " +:+ category' +:+ " category")
      (set_category category' (set_urgency urgency' state)).

Definition tier_keywords : list (string * list string) :=
  [("enterprise", ["enterprise"; "business"; "company"; "organization"]);
   ("pro", ["pro"; "professional"; "premium"]);
   ("basic", ["basic"; "free"; "trial"])].

(** The [for ... else] over [tier_keywords.items()]. *)
Fixpoint find_tier (content_lower : string) (items : list (string * list string))
    : string :=
  match items with
  | [] => "basic"
  | (tier, keywords) :: rest =>
      if existsb (fun keyword => contains keyword content_lower) keywords then tier
      else find_tier content_lower rest
  end.

Definition determine_customer_tier (state : WorkflowState) : WorkflowState :=
  let content_lower := lower (ticket_content state) in
  let state := set_customer_tier (find_tier content_lower tier_keywords) state in
  log ("Customer tier: " +:+ customer_tier state) state.

Definition route_by_urgency (state : WorkflowState) : WorkflowState :=
  log ("Routing by urgency: " +:+ urgency state) state.

Definition route_urgency_condition (state : WorkflowState) : string := urgency state.

Definition assign_team (state : WorkflowState) : WorkflowState :=
  let category' := category state in
  let tier := customer_tier state in
  let urgency' := urgency state in
  let team :=
    if decide (category' = "billing") then "billing"
    else if decide (category' = "technical" /\ urgency' = "high") then "support_l2"
    else if decide (category' = "technical") then "support_l1"
    else if decide (category' = "feature_request" /\ tier = "enterprise") then "engineering"
    else "support_l1" in
  let team :=
    if decide (tier = "enterprise" /\ team = "support_l1") then "support_l2" else team in
  log ("Assigned to team: " +:+ team) (set_assigned_team team state).

Definition check_escalation (state : WorkflowState) : WorkflowState :=
  let escalate := false in
  let escalate :=
    if decide (urgency state = "high" /\ customer_tier state = "enterprise")
    then true else escalate in
  let escalate :=
    if bool_decide (category state = "complaint")
       && contains "angry" (lower (ticket_content state))
    then true else escalate in
  log ("Escalation check: " +:+ str_bool escalate) (set_escalated escalate state).

Definition escalation_condition (state : WorkflowState) : string :=
  if escalated state then "escalate" else "continue".

Definition generate_response (state : WorkflowState) : WorkflowState :=
  let system_prompt :=
    "Generate a professional customer service response.
        Customer tier: " +:+ customer_tier state +:+ "
        Urgency: " +:+ urgency state +:+ "
        Category: " +:+ category state +:+ "
        Assigned team: " +:+ assigned_team state +:+ "

        Keep it helpful and professional." in
  let response :=
    llm_ainvoke system_prompt ("Original ticket: " +:+ ticket_content state) in
  log "Generated automated response" (set_final_response response state).

Definition escalate_to_human (state : WorkflowState) : WorkflowState :=
  let text :=
    "This ticket has been escalated to our " +:+ assigned_team state
    +:+ " team due to its " +:+ urgency state +:+ " priority level.

A human agent will contact you within 2 hours for " +:+ customer_tier state
    +:+ " customers.

Reference ID: ESCALATED-" +:+ pretty (py_hash (ticket_content state) `mod` 10000)%Z in
  log "Escalated to human agent" (set_final_response text state).

Definition auto_responses (category' : string) : string :=
  if decide (category' = "billing") then
    "Please check your account dashboard for billing details. Contact us if you need further assistance."
  else if decide (category' = "feature_request") then
    "Thank you for your suggestion! We've added it to our product roadmap for review."
  else if decide (category' = "technical") then
    "Please try clearing your browser cache and refreshing. If the issue persists, contact our technical team."
  else "Thank you for contacting us. Your request has been processed.".

Definition auto_resolve (state : WorkflowState) : WorkflowState :=
  log "Auto-resolved ticket"
      (set_assigned_team "auto_resolved"
         (set_final_response (auto_responses (category state)) state)).

End Nodes.

(** *** The graph of [_build_workflow] *)

Inductive Node : Type :=
  | N_analyze_ticket
  | N_determine_customer_tier
  | N_route_by_urgency
  | N_assign_team
  | N_check_escalation
  | N_generate_response
  | N_escalate_to_human
  | N_auto_resolve
  | END.

Section Graph.
Context `{Runtime}.

Definition node_action (n : Node) : WorkflowState -> WorkflowState :=
  match n with
  | N_analyze_ticket => analyze_ticket
  | N_determine_customer_tier => determine_customer_tier
  | N_route_by_urgency => route_by_urgency
  | N_assign_team => assign_team
  | N_check_escalation => check_escalation
  | N_generate_response => generate_response
  | N_escalate_to_human => escalate_to_human
  | N_auto_resolve => auto_resolve
  | END => fun state => state
  end.

(** The two mappings given to [add_conditional_edges]; a key outside the
    mapping is an error of the graph library. *)
Definition urgency_targets (key : string) : outcome Node :=
  if decide (key = "critical") then Returned N_escalate_to_human
  else if decide (key = "high") then Returned N_assign_team
  else if decide (key = "medium") then Returned N_assign_team
  else if decide (key = "low") then Returned N_auto_resolve
  else Raised (OtherException ("unknown route " +:+ key)).

Definition escalation_targets (key : string) : outcome Node :=
  if decide (key = "escalate") then Returned N_escalate_to_human
  else if decide (key = "continue") then Returned N_generate_response
  else Raised (OtherException ("unknown route " +:+ key)).

(** The edge leaving a node, taken after the node has run. *)
Definition successor (n : Node) (state : WorkflowState) : outcome Node :=
  match n with
  | N_analyze_ticket => Returned N_determine_customer_tier
  | N_determine_customer_tier => Returned N_route_by_urgency
  | N_route_by_urgency => urgency_targets (route_urgency_condition state)
  | N_assign_team => Returned N_check_escalation
  | N_check_escalation => escalation_targets (escalation_condition state)
  | N_generate_response => Returned END
  | N_escalate_to_human => Returned END
  | N_auto_resolve => Returned END
  | END => Returned END
  end.

(** Running the compiled graph from a node: the state at [END] and the
    nodes run on the way.  [steps] bounds the number of nodes run, as the
    recursion limit of the graph library does. *)
Fixpoint run_from (steps : nat) (n : Node) (state : WorkflowState)
    : outcome (WorkflowState * list Node) :=
  match n with
  | END => Returned (state, [])
  | _ =>
      match steps with
      | O => Raised (OtherException "Recursion limit reached")
      | S steps' =>
          let state' := node_action n state in
          next ← successor n state';
          '(final, path) ← run_from steps' next state';
          mret (final, n :: path)
      end
  end.

Definition recursion_limit : nat := 25.

Definition initial_state (ticket_content' : string) : WorkflowState :=
  mkState ticket_content' EmptyString EmptyString EmptyString EmptyString false []
          EmptyString [].

(** [self.workflow.ainvoke(initial_state)] *)
Definition workflow_ainvoke (state : WorkflowState) : outcome (WorkflowState * list Node) :=
  run_from recursion_limit N_analyze_ticket state.

(** The dict returned by [process_ticket]. *)
Record TicketResult : Type := mkTicketResult {
  r_ticket : string;
  r_urgency : string;
  r_category : string;
  r_customer_tier : string;
  r_assigned_team : string;
  r_escalated : bool;
  r_response : string;
  r_processing_log : list string
}.

Definition process_ticket (ticket_content' : string) : outcome TicketResult :=
  '(result, _) ← workflow_ainvoke (initial_state ticket_content');
  mret (mkTicketResult ticket_content' (urgency result) (category result)
                       (customer_tier result) (assigned_team result) (escalated result)
                       (final_response result) (processing_log result)).

End Graph.

End Workflow.

(** ** Python values and the [json] module *)

Module Json.

(** A Python [str]: its code points. *)
Definition pystr : Type := list N.

(** The code points of an ASCII literal. *)
Definition py (s : string) : pystr :=
  (fun c => N.of_nat (Ascii.nat_of_ascii c)) <$> String.list_ascii_of_string s.

(** The Python values that can be given as metadata and that [json]
    produces.  A float is carried as the text of its [repr]; two floats
    carried by different texts may still be the same double, so nothing
    below concludes that two floats differ.  A dict keeps its items in
    insertion order. *)
#[warnings="-register-all"]
Inductive pyvalue : Type :=
  | PNone
  | PBool (b : bool)
  | PInt (z : Z)
  | PFloat (repr : pystr)
  | PStr (s : pystr)
  | PList (items : list pyvalue)
  | PDict (items : list (pystr * pyvalue)).

(** *** Decimal text of integers *)

Fixpoint uint_codes (u : Decimal.uint) : pystr :=
  match u with
  | Decimal.Nil => []
  | Decimal.D0 u' => 48%N :: uint_codes u'
  | Decimal.D1 u' => 49%N :: uint_codes u'
  | Decimal.D2 u' => 50%N :: uint_codes u'
  | Decimal.D3 u' => 51%N :: uint_codes u'
  | Decimal.D4 u' => 52%N :: uint_codes u'
  | Decimal.D5 u' => 53%N :: uint_codes u'
  | Decimal.D6 u' => 54%N :: uint_codes u'
  | Decimal.D7 u' => 55%N :: uint_codes u'
  | Decimal.D8 u' => 56%N :: uint_codes u'
  | Decimal.D9 u' => 57%N :: uint_codes u'
  end.

(** [str(z)] for an [int] *)
Definition int_codes (z : Z) : pystr :=
  match Z.to_int z with
  | Decimal.Pos u => uint_codes u
  | Decimal.Neg u => 45%N :: uint_codes u
  end.

Definition is_digit (c : N) : bool := (48 <=? c)%N && (c <=? 57)%N.

(** The digits of a run of digit characters, most significant first. *)
Fixpoint codes_uint (ds : pystr) : Decimal.uint :=
  match ds with
  | [] => Decimal.Nil
  | c :: ds' =>
      let u := codes_uint ds' in
      if (c =? 48)%N then Decimal.D0 u else if (c =? 49)%N then Decimal.D1 u
      else if (c =? 50)%N then Decimal.D2 u else if (c =? 51)%N then Decimal.D3 u
      else if (c =? 52)%N then Decimal.D4 u else if (c =? 53)%N then Decimal.D5 u
      else if (c =? 54)%N then Decimal.D6 u else if (c =? 55)%N then Decimal.D7 u
      else if (c =? 56)%N then Decimal.D8 u else Decimal.D9 u
  end.

(** A decimal numeral that is not empty and does not start with 0. *)
Definition leading_nonzero (u : Decimal.uint) : Prop :=
  match u with
  | Decimal.Nil | Decimal.D0 _ => False
  | _ => True
  end.

(** *** [str] and [json.dumps] *)

(** [str(v)] for the values [add_document] passes to it. *)
Definition py_str (v : pyvalue) : pystr :=
  match v with
  | PStr s => s
  | PInt z => int_codes z
  | PFloat r => r
  | PBool true => py "True"
  | PBool false => py "False"
  | PNone => py "None"
  | PList _ | PDict _ => []
  end.

Definition hex_digit (n : N) : N := if (n <? 10)%N then (48 + n)%N else (87 + n)%N.

(** [\uXXXX] with four lower-case hex digits *)
Definition u_escape (n : N) : pystr :=
  [92; 117; hex_digit (n / 4096 mod 16); hex_digit (n / 256 mod 16);
   hex_digit (n / 16 mod 16); hex_digit (n mod 16)]%N.

(** One character inside a JSON string, with [ensure_ascii=True]. *)
Definition escape_char (c : N) : pystr :=
  if (c =? 34)%N then [92; 34]%N
  else if (c =? 92)%N then [92; 92]%N
  else if (c =? 10)%N then [92; 110]%N
  else if (c =? 13)%N then [92; 114]%N
  else if (c =? 9)%N then [92; 116]%N
  else if (c =? 8)%N then [92; 98]%N
  else if (c =? 12)%N then [92; 102]%N
  else if (32 <=? c)%N && (c <=? 126)%N then [c]
  else if (c <? 65536)%N then u_escape c
  else
    let n := (c - 65536)%N in
    u_escape (55296 + n / 1024 mod 1024)%N ++ u_escape (56320 + n mod 1024)%N.

Definition dumps_str (s : pystr) : pystr :=
  [34%N] ++ concat (escape_char <$> s) ++ [34%N].

Definition dumps_float (r : pystr) : pystr :=
  if decide (r = py "nan") then py "NaN"
  else if decide (r = py "inf") then py "Infinity"
  else if decide (r = py "-inf") then py "-Infinity"
  else r.

(** [json.dumps(v)] with the default separators. *)
Fixpoint json_dumps (v : pyvalue) : pystr :=
  match v with
  | PNone => py "null"
  | PBool true => py "true"
  | PBool false => py "false"
  | PInt z => int_codes z
  | PFloat r => dumps_float r
  | PStr s => dumps_str s
  | PList items =>
      [91%N] ++
      (fix elements (l : list pyvalue) : pystr :=
         match l with
         | [] => []
         | x :: l' =>
             match l' with
             | [] => json_dumps x
             | _ :: _ => json_dumps x ++ py ", " ++ elements l'
             end
         end) items
      ++ [93%N]
  | PDict items =>
      [123%N] ++
      (fix members (l : list (pystr * pyvalue)) : pystr :=
         match l with
         | [] => []
         | (k, x) :: l' =>
             match l' with
             | [] => dumps_str k ++ py ": " ++ json_dumps x
             | _ :: _ => dumps_str k ++ py ": " ++ json_dumps x ++ py ", " ++ members l'
             end
         end) items
      ++ [125%N]
  end.

(** *** [json.loads] *)

Definition is_ws (c : N) : bool :=
  (c =? 32)%N || (c =? 9)%N || (c =? 10)%N || (c =? 13)%N.

Fixpoint skip_ws (l : pystr) : pystr :=
  match l with
  | c :: l' => if is_ws c then skip_ws l' else l
  | [] => []
  end.

(** [l] without the prefix [p], when it starts with [p]. *)
Fixpoint strip_prefix (p l : pystr) : option pystr :=
  match p, l with
  | [], _ => Some l
  | a :: p', b :: l' => if (a =? b)%N then strip_prefix p' l' else None
  | _ :: _, [] => None
  end.

Definition hex_value (c : N) : option N :=
  if (48 <=? c)%N && (c <=? 57)%N then Some (c - 48)%N
  else if (97 <=? c)%N && (c <=? 102)%N then Some (c - 87)%N
  else if (65 <=? c)%N && (c <=? 70)%N then Some (c - 55)%N
  else None.

Definition hex4 (a b c d : N) : option N :=
  a' ← hex_value a; b' ← hex_value b; c' ← hex_value c; d' ← hex_value d;
  Some (a' * 4096 + b' * 256 + c' * 16 + d')%N.

(** The character named by a two-character escape. *)
Definition simple_escape (c : N) : option N :=
  if (c =? 34)%N then Some 34%N
  else if (c =? 92)%N then Some 92%N
  else if (c =? 47)%N then Some 47%N
  else if (c =? 98)%N then Some 8%N
  else if (c =? 102)%N then Some 12%N
  else if (c =? 110)%N then Some 10%N
  else if (c =? 114)%N then Some 13%N
  else if (c =? 116)%N then Some 9%N
  else None.

(** The low surrogate of a [\uXXXX] escape at the head of [l]. *)
Definition low_surrogate (l : pystr) : option N :=
  match l with
  | e :: u :: a :: b :: c :: d :: _ =>
      if (e =? 92)%N && (u =? 117)%N then
        n ← hex4 a b c d;
        if (56320 <=? n)%N && (n <=? 57343)%N then Some n else None
      else None
  | _ => None
  end.

(** The body of a string, after its opening quote (strict mode: a raw
    control character is an error). *)
Fixpoint scan_string (l : pystr) (acc : pystr) : option (pystr * pystr) :=
  match l with
  | [] => None
  | c :: rest =>
      if (c =? 34)%N then Some (reverse acc, rest)
      else if (c =? 92)%N then
        match rest with
        | [] => None
        | e :: rest1 =>
            if (e =? 117)%N then
              match rest1 with
              | a :: b :: c' :: d :: rest2 =>
                  match hex4 a b c' d with
                  | None => None
                  | Some hi =>
                      if (55296 <=? hi)%N && (hi <=? 56319)%N then
                        match low_surrogate rest2, rest2 with
                        | Some lo, _ :: _ :: _ :: _ :: _ :: _ :: rest3 =>
                            scan_string rest3
                              ((65536 + (hi - 55296) * 1024 + (lo - 56320))%N :: acc)
                        | _, _ => scan_string rest2 (hi :: acc)
                        end
                      else scan_string rest2 (hi :: acc)
                  end
              | _ => None
              end
            else
              match simple_escape e with
              | Some ch => scan_string rest1 (ch :: acc)
              | None => None
              end
        end
      else if (c <? 32)%N then None
      else scan_string rest (c :: acc)
  end.

(** The longest run of digits at the head. *)
Fixpoint span_digits (l : pystr) : pystr * pystr :=
  match l with
  | c :: l' =>
      if is_digit c then let '(ds, rest) := span_digits l' in (c :: ds, rest)
      else ([], l)
  | [] => ([], [])
  end.

(** A number: an optional minus sign; a single 0 or a run of digits that
    starts with 1 to 9; an optional fraction (a dot and at least one
    digit); an optional exponent (e or E, an optional sign, at least one
    digit).  With neither fraction nor exponent it is an [int], otherwise
    a float. *)
Definition scan_number (l : pystr) : option (pyvalue * pystr) :=
  let '(sign, l1) :=
    match l with
    | c :: r => if (c =? 45)%N then ([45%N], r) else ([], l)
    | [] => ([], l)
    end in
  match l1 with
  | [] => None
  | c :: r =>
      if negb (is_digit c) then None
      else
        let '(int_part, l2) :=
          if (c =? 48)%N then ([48%N], r) else span_digits l1 in
        let '(frac_part, l3) :=
          match l2 with
          | dot :: r2 =>
              if (dot =? 46)%N then
                match span_digits r2 with
                | ([], _) => ([], l2)
                | (fs, r3) => (dot :: fs, r3)
                end
              else ([], l2)
          | [] => ([], l2)
          end in
        let '(exp_part, l4) :=
          match l3 with
          | e :: r3 =>
              if (e =? 101)%N || (e =? 69)%N then
                let '(esign, r4) :=
                  match r3 with
                  | s :: r4 =>
                      if (s =? 43)%N || (s =? 45)%N then ([s], r4) else ([], r3)
                  | [] => ([], r3)
                  end in
                match span_digits r4 with
                | ([], _) => ([], l3)
                | (es, r5) => (e :: esign ++ es, r5)
                end
              else ([], l3)
          | [] => ([], l3)
          end in
        match frac_part, exp_part with
        | [], [] =>
            let magnitude := Z.of_uint (codes_uint int_part) in
            Some (PInt (match sign with [] => magnitude | _ => - magnitude end)%Z, l4)
        | _, _ => Some (PFloat (sign ++ int_part ++ frac_part ++ exp_part), l4)
        end
  end.

(** [d[key] = v] while a dict is built from the pairs of an object. *)
Fixpoint dict_store (key : pystr) (v : pyvalue) (d : list (pystr * pyvalue))
    : list (pystr * pyvalue) :=
  match d with
  | [] => [(key, v)]
  | (k, w) :: d' =>
      if decide (k = key) then (k, v) :: d' else (k, w) :: dict_store key v d'
  end.

(** The scanner: a value at the head of the text, and what follows it.
    [fuel] bounds the number of nested and consecutive values; each value
    takes at least one character, so twice the length of the text (and
    two more) is never used up. *)
Fixpoint scan_once (fuel : nat) (l : pystr) : option (pyvalue * pystr) :=
  match fuel with
  | O => None
  | S fuel' =>
      match l with
      | [] => None
      | c :: rest =>
          if (c =? 34)%N then
            '(s, rest') ← scan_string rest []; Some (PStr s, rest')
          else if (c =? 123)%N then
            match skip_ws rest with
            | c' :: rest' =>
                if (c' =? 125)%N then Some (PDict [], rest')
                else scan_members fuel' (c' :: rest') []
            | [] => None
            end
          else if (c =? 91)%N then
            match skip_ws rest with
            | c' :: rest' =>
                if (c' =? 93)%N then Some (PList [], rest')
                else scan_elements fuel' (c' :: rest') []
            | [] => None
            end
          else if (c =? 110)%N then
            rest' ← strip_prefix (py "null") l; Some (PNone, rest')
          else if (c =? 116)%N then
            rest' ← strip_prefix (py "true") l; Some (PBool true, rest')
          else if (c =? 102)%N then
            rest' ← strip_prefix (py "false") l; Some (PBool false, rest')
          else if (c =? 78)%N then
            rest' ← strip_prefix (py "NaN") l; Some (PFloat (py "nan"), rest')
          else if (c =? 73)%N then
            rest' ← strip_prefix (py "Infinity") l; Some (PFloat (py "inf"), rest')
          else if (c =? 45)%N then
            match strip_prefix (py "-Infinity") l with
            | Some rest' => Some (PFloat (py "-inf"), rest')
            | None => scan_number l
            end
          else scan_number l
      end
  end

(** The elements of an array, from the head of one element on. *)
with scan_elements (fuel : nat) (l : pystr) (acc : list pyvalue)
    : option (pyvalue * pystr) :=
  match fuel with
  | O => None
  | S fuel' =>
      match scan_once fuel' l with
      | None => None
      | Some (v, rest) =>
          match skip_ws rest with
          | c :: rest' =>
              if (c =? 93)%N then Some (PList (reverse (v :: acc)), rest')
              else if (c =? 44)%N then scan_elements fuel' (skip_ws rest') (v :: acc)
              else None
          | [] => None
          end
      end
  end

(** The members of an object, from the opening quote of one key on. *)
with scan_members (fuel : nat) (l : pystr) (acc : list (pystr * pyvalue))
    : option (pyvalue * pystr) :=
  match fuel with
  | O => None
  | S fuel' =>
      match l with
      | q :: l1 =>
          if negb (q =? 34)%N then None
          else
            match scan_string l1 [] with
            | None => None
            | Some (key, l2) =>
                match skip_ws l2 with
                | colon :: l3 =>
                    if negb (colon =? 58)%N then None
                    else
                      match scan_once fuel' (skip_ws l3) with
                      | None => None
                      | Some (v, l4) =>
                          match skip_ws l4 with
                          | c :: l5 =>
                              if (c =? 125)%N then
                                Some (PDict (dict_store key v acc), l5)
                              else if (c =? 44)%N then
                                scan_members fuel' (skip_ws l5) (dict_store key v acc)
                              else None
                          | [] => None
                          end
                      end
                | [] => None
                end
            end
      | [] => None
      end
  end.

(** [json.loads(text)]: [None] stands for [JSONDecodeError].  (Python
    also gives up on integers of more than 4300 digits and on nesting
    deeper than its recursion limit; texts of that kind are outside this
    model.) *)
Definition json_loads (text : pystr) : option pyvalue :=
  match scan_once (2 * length text + 2) (skip_ws text) with
  | Some (v, rest) =>
      match skip_ws rest with
      | [] => Some v
      | _ :: _ => None
      end
  | None => None
  end.

End Json.

(** ** multimodal-rag/agents/vector_store.py *)

Module VectorStore.
Import Json.

(** One record of the ChromaDB collection: the document text and its
    metadata, whose values are strings. *)
Record Stored : Type := mkStored {
  document : pystr;
  metadata : gmap pystr pystr
}.

(** The collection [multimodal_documents]: records by id, in insertion
    order.  The embedding index is left out. *)
Record Store : Type := mkStore {
  collection : list (pystr * Stored)
}.

Fixpoint collection_get (id : pystr) (c : list (pystr * Stored)) : option Stored :=
  match c with
  | [] => None
  | (k, d) :: c' => if decide (k = id) then Some d else collection_get id c'
  end.

(** [collection.add]: a record under a new id is appended; an id that is
    already present keeps its record. *)
Definition collection_add (id : pystr) (d : Stored) (c : list (pystr * Stored))
    : list (pystr * Stored) :=
  match collection_get id c with
  | Some _ => c
  | None => c ++ [(id, d)]
  end.

(** [collection.delete(ids=[id])] *)
Definition collection_delete (id : pystr) (c : list (pystr * Stored))
    : list (pystr * Stored) :=
  filter (fun p => p.1 ≠ id) c.

(** The dicts returned by [get_document] and [list_documents]. *)
Record DocumentResult : Type := mkDocumentResult {
  r_id : pystr;
  r_content : pystr;
  r_metadata : gmap pystr pyvalue
}.

(** [isinstance(value, (str, int, float, bool))] *)
Definition is_primitive (value : pyvalue) : bool :=
  match value with
  | PStr _ | PInt _ | PFloat _ | PBool _ => true
  | PNone | PList _ | PDict _ => false
  end.

(** The string stored for one metadata value. *)
Definition chroma_value (value : pyvalue) : pystr :=
  if is_primitive value then py_str value else json_dumps value.

(** The value read back from one stored string: [json.loads], or the
    string itself when it is not JSON. *)
Definition parsed_value (value : pystr) : pyvalue :=
  match json_loads value with
  | Some v => v
  | None => PStr value
  end.

(** [add_document]; [uuid4] is the text of the fresh [uuid.uuid4()], used
    when [doc_id] is [None] or empty. *)
Definition add_document (content : pystr) (metadata' : gmap pystr pyvalue)
    (doc_id : option pystr) (uuid4 : pystr) (self : Store) : outcome pystr * Store :=
  let doc_id' :=
    match doc_id with
    | None | Some [] => uuid4
    | Some id => id
    end in
  let chroma_metadata := chroma_value <$> metadata' in
  (Returned doc_id',
   mkStore (collection_add doc_id' (mkStored content chroma_metadata) (collection self))).

Definition delete_document (doc_id : pystr) (self : Store) : bool * Store :=
  (true, mkStore (collection_delete doc_id (collection self))).

Definition get_document (doc_id : pystr) (self : Store) : option DocumentResult :=
  match collection_get doc_id (collection self) with
  | Some d =>
      let parsed_metadata := parsed_value <$> metadata d in
      Some (mkDocumentResult doc_id (document d) parsed_metadata)
  | None => None
  end.

(** [doc_content[:200] + "..." if len(doc_content) > 200 else doc_content] *)
Definition preview (doc_content : pystr) : pystr :=
  if decide (200 < length doc_content)%nat then take 200 doc_content ++ py "..."
  else doc_content.

Definition list_documents (limit : nat) (self : Store) : list DocumentResult :=
  (fun p : pystr * Stored =>
     mkDocumentResult p.1 (preview (document p.2)) (parsed_value <$> metadata p.2))
  <$> take limit (collection self).

(** A metadata value after the write and the read. *)
Definition round_trip (value : pyvalue) : pyvalue := parsed_value (chroma_value value).

End VectorStore.

(** ** Sample inputs

    Concrete libraries, stores and tickets on which the embedded code is run. *)

(** Sample stand-ins for the external libraries, used to run the services
    on concrete inputs. *)
Definition sample_externals : Services.Externals :=
  {| Services.calculate_adr_mean := fun _ => Returned 1%Q;
     Services.random_starts := fun _ => [];
     Services.sqrt := fun q => q;
     Services.isoformat := fun t => pretty t |}.

Definition sample_patient : Services.Patient :=
  Services.mkPatient "P001" "Ada" 40%Z "POD-1" "M-1" 0%Z true None.

Definition sample_row (timestamp anomaly_count : Z) : Services.DataIngestion :=
  Services.mkDataIngestion "P001" timestamp 21%Z 1280%Z anomaly_count (Some 1%Q).

Definition sample_service : Services.DataIngestionService :=
  Services.mkService (Services.mkSession [sample_patient] []) ∅ ∅ [].

(** A sample project: the structure check finds one issue of each
    severity, the other checks find nothing. *)
Definition sample_project : MLOps.Project :=
  {| MLOps._check_dependencies := Returned ([], []);
     MLOps._check_security := Returned ([], []);
     MLOps._check_structure :=
       Returned ([MLOps.mkIssue "critical" "structure" "Missing requirements.txt file" None None;
                  MLOps.mkIssue "warning" "structure" "Missing Dockerfile file" None None;
                  MLOps.mkIssue "info" "structure" "Missing README.md file" None None],
                 []);
     MLOps._check_deployment := Returned ([], []);
     MLOps._run_ai_analysis := fun _ => [];
     MLOps._generate_intelligent_fix_plan := fun _ plan => plan |}.

Definition sample_checker : MLOps.MLOpsChecker :=
  MLOps.mkChecker "./project" [] [] false [] [].

(** A file system on which every [mkdir] succeeds. *)
Definition sample_file_system : MNIST.FileSystem :=
  {| MNIST.mkdir := fun _ => None |}.

(** A sample server over integer arguments: [halve] raises on odd input. *)
Definition sample_server : MCP.Server Z Z :=
  MCP.MCPServer.add_tool "halve" "Halve an even number"
    (fun n => if decide (n `mod` 2 = 0)%Z then Returned (n `div` 2)%Z
              else Raised (ValueError "odd input"))
    (MCP.mkServer "calculator" "Mathematical computation server" ∅).

Definition sample_registry : MCP.Registry Z Z :=
  MCP.MCPRegistry.register_server sample_server (MCP.mkRegistry []).

(** A sample runtime: the model answers every analysis with a low-urgency
    complaint. *)
Definition sample_runtime : Workflow.Runtime :=
  {| Workflow.llm_ainvoke := fun system_prompt _ =>
       if String.prefix "You are a customer service AI" system_prompt
       then "Urgency: low. Category: complaint. Sentiment: angry."
       else "We are sorry for the trouble.";
     Workflow.py_hash := fun _ => 4242%Z |}.

(** A runtime whose model rates every ticket as a medium-urgency complaint. *)
Definition medium_runtime : Workflow.Runtime :=
  {| Workflow.llm_ainvoke := fun system_prompt _ =>
       if String.prefix "You are a customer service AI" system_prompt
       then "Urgency: medium. Category: complaint. Sentiment: angry."
       else "We are sorry for the trouble.";
     Workflow.py_hash := fun _ => 4242%Z |}.

Definition angry_ticket : string :=
  "This app is terrible! Nothing works and I'm very angry about it!".

Definition sample_metadata : gmap Json.pystr Json.pyvalue :=
  {[ Json.py "pages" := Json.PInt 12; Json.py "title" := Json.PStr (Json.py "Annual report") ]}.

(** ** More of EEG-YCombinator/utils.py *)

Module Mask.

(** The number of 1-cells of a row. *)
Definition ones (row : list bool) : nat := length (filter (fun b => b = true) row).

End Mask.

(** ** More of EEG-YCombinator/services.py *)

Module ServicesMore.
Import Services.

(** The request model [PatientCreate], with the columns kept in [Patient]. *)
Record PatientCreate : Type := mkPatientCreate {
  pc_patient_id : string;
  pc_name : string;
  pc_age : Z;
  pc_stasis_pod_id : string;
  pc_mission_id : string;
  pc_stasis_start_time : datetime
}.

(** [create_patient]: the new row takes the column defaults
    ([is_active = True], no [last_data_received]). *)
Definition create_patient (patient_data : PatientCreate) (db : Session)
    : outcome Patient * Session :=
  match get_patient (pc_patient_id patient_data) db with
  | Some existing =>
      (Raised (ValueError ("Patient with ID " +:+ pc_patient_id patient_data
                           +:+ " already exists")), db)
  | None =>
      let patient :=
        mkPatient (pc_patient_id patient_data) (pc_name patient_data) (pc_age patient_data)
                  (pc_stasis_pod_id patient_data) (pc_mission_id patient_data)
                  (pc_stasis_start_time patient_data) true None in
      (Returned patient, mkSession (patients db ++ [patient]) (data_ingestions db))
  end.

Definition list_patients (active_only : bool) (db : Session) : list Patient :=
  if active_only then filter (fun p => is_active p = true) (patients db)
  else patients db.

(** [get_accumulated_notifications]: the list bound to the patient (or a
    fresh empty list); with [clear_buffer] the key, if present, is rebound
    to a new empty list. *)
Definition get_accumulated_notifications (patient_id' : string) (clear_buffer : bool)
    (self : DataIngestionService) : list Notification * DataIngestionService :=
  let notifications := default [] (notification_accumulator self !! patient_id') in
  if clear_buffer && bool_decide (is_Some (notification_accumulator self !! patient_id')) then
    (notifications,
     mkService (db self) (active_streams self)
               (<[patient_id' := []]> (notification_accumulator self)) (threads self))
  else (notifications, self).

(** The rows of [compute_statistics] before [order_by]. *)
Definition rows_in_range (patient_id' : string) (start_time' end_time : datetime)
    (s : Session) : list DataIngestion :=
  filter (fun d => di_patient_id d = patient_id' /\
                   (start_time' <= di_timestamp d)%Z /\ (di_timestamp d <= end_time)%Z)
         (data_ingestions s).

End ServicesMore.

(** ** EEG-YCombinator/main.py *)

Module Api.
Import Services ServicesMore.

(** What an endpoint gives back: a body, or an [HTTPException]. *)
Inductive response (A : Type) : Type :=
  | Ok (body : A)
  | HTTPException (status_code : Z) (detail : string).
Arguments Ok {A} body.
Arguments HTTPException {A} status_code detail.

(** [timedelta.days] of a difference of datetimes: whole days, rounded
    down. *)
Definition days (delta : Z) : Z := (delta `div` (86400 * 1000000))%Z.

(** Eight whole days, in microseconds. *)
Definition eight_days : Z := (8 * 86400 * 1000000)%Z.

(** Python's datetimes span the years 1 to 9999, which are 3652059 days.
    In the endpoints the microseconds of a datetime are counted from
    0001-01-01T00:00:00, so the datetimes are the counts from 0 up to
    [datetime_max]. *)
Definition datetime_max : Z := (3652059 * 86400 * 1000000 - 1)%Z.

Definition representable (t : Z) : Prop := (0 <= t <= datetime_max)%Z.

#[global] Instance representable_dec (t : Z) : Decision (representable t).
Proof. unfold representable. apply _. Defined.

Record StatisticsResponse : Type := mkStatisticsResponse {
  sr_patient_id : string;
  sr_start_time : datetime;
  sr_end_time : datetime;
  sr_statistics : Statistics
}.

Record TrendsResponse : Type := mkTrendsResponse {
  tr_patient_id : string;
  tr_hours : Z;
  tr_timestamp : string;
  tr_trends : Statistics
}.

(** The body of a successful ingestion. *)
Record DataIngestionResponse : Type := mkDataIngestionResponse {
  dr_status : string;
  dr_message : string;
  dr_patient_id : string;
  dr_timestamp : string;
  dr_samples : Z;
  dr_anomaly_count : Z;
  dr_adr_mean : Q
}.

(** [np.array(rows, dtype=np.float32)] on a list of lists of floats: an
    empty list gives a 1-D array of length 0, rows of one length give a
    2-D array, and rows of different lengths are a [ValueError]. *)
Definition np_array (rows : list (list Q)) : outcome ndarray :=
  match rows with
  | [] => Returned (mkArray [0%Z] [])
  | row :: rest =>
      if forallb (fun r => Nat.eqb (length r) (length row)) rest then
        Returned (mkArray [Z.of_nat (length rows); Z.of_nat (length row)] (concat rows))
      else
        Raised (ValueError "setting an array element with a sequence.")
  end.

Section Endpoints.
Context `{Externals}.

(** POST /statistics/compute *)
Definition compute_statistics (patient_id' : string) (start_time' end_time : datetime)
    (metrics : list string) (db : Session) : response StatisticsResponse :=
  if decide (7 < days (end_time - start_time'))%Z then
    HTTPException 400 "Time range cannot exceed 7 days"
  else
    let statistics :=
      Services.compute_statistics patient_id' start_time' end_time metrics db in
    Ok (mkStatisticsResponse patient_id' start_time' end_time statistics).

(** GET /statistics/trends/{patient_id}.  The start of the window,
    [utcnow - timedelta(hours=hours)], is computed inside
    [get_recent_trends]; when it is not a datetime Python raises
    [OverflowError] there, which the endpoint turns into status 500. *)
Definition get_patient_trends (utcnow : datetime) (patient_id' : string) (hours' : Z)
    (db : Session) : response TrendsResponse :=
  if decide (168 < hours')%Z then
    HTTPException 400 "Hours cannot exceed 168 (7 days)"
  else if decide (representable (utcnow - hours hours')) then
    let trends := get_recent_trends utcnow patient_id' hours' db in
    Ok (mkTrendsResponse patient_id' hours' (isoformat utcnow) trends)
  else HTTPException 500 "Failed to get trends".

(** POST /data/ingest: a [ValueError] becomes status 400 with its text,
    any other exception status 500. *)
Definition ingest_eeg_data (utcnow : datetime) (patient_id' : string) (timestamp : datetime)
    (rows : list (list Q)) (service : DataIngestionService)
    : response DataIngestionResponse * DataIngestionService :=
  let handle (e : exn) : response DataIngestionResponse :=
    match e with
    | ValueError msg => HTTPException 400 msg
    | _ => HTTPException 500 "Failed to process EEG data"
    end in
  match np_array rows with
  | Raised e => (handle e, service)
  | Returned eeg_data =>
      match ingest_data utcnow patient_id' timestamp eeg_data service with
      | (Raised e, service') => (handle e, service')
      | (Returned result, service') =>
          (Ok (mkDataIngestionResponse "success" "EEG data processed successfully"
                 patient_id' (isoformat timestamp)
                 (default 0%Z (shape eeg_data !! 1%nat))
                 (ir_anomaly_count result) (ir_adr_mean result)),
           service')
      end
  end.

(** GET /patients/{patient_id}/summary *)
Definition get_patient_summary (utcnow : datetime) (patient_id' : string) (db : Session)
    : response PatientSummary :=
  match Services.get_patient_summary utcnow patient_id' db with
  | None => HTTPException 404 ("Patient " +:+ patient_id' +:+ " not found")
  | Some summary => Ok summary
  end.

End Endpoints.

End Api.

(** ** More sample inputs *)

Definition sample_array : Services.ndarray := Services.mkArray [21; 1280]%Z [].

(** ** The agent's tool call (mcp-ai-agent/ai_agent.py, mcp_base.py) *)

Module Agent.
Import MCP.

(** [MCPRegistry.list_servers]: server name to description, in the order
    of the dict. *)
Definition list_servers {Kwargs Value} (self : Registry Kwargs Value)
    : list (string * string) :=
  (λ entry, (entry.1, description entry.2)) <$> servers self.

(** [MCPAIAgent._execute_function_call].  [arguments] is a dict and is
    passed on as keyword arguments, [execute_tool(function_name,
    **arguments)]: a key that names a parameter of [execute_tool],
    [self] or [tool_name], makes the call itself a [TypeError].  Otherwise
    the result is the value under ["result"] of a successful call, else the
    text ["Error: "] followed by the value under ["error"]; a missing key
    is a [KeyError].  The handlers the servers register return [str], so
    the value is a [string] here. *)
Definition _execute_function_call {Arg : Type}
    (mcp_registry : Registry (gmap string Arg) string)
    (function_name : string) (arguments : gmap string Arg) : outcome string :=
  if decide (is_Some (arguments !! "self")) then
    Raised (OtherException "execute_tool() got multiple values for argument 'self'")
  else if decide (is_Some (arguments !! "tool_name")) then
    Raised (OtherException "execute_tool() got multiple values for argument 'tool_name'")
  else
    result' ← MCPRegistry.execute_tool mcp_registry function_name arguments;
    if success result' then
      match result result' with
      | Some r => Returned r
      | None => Raised (OtherException "KeyError: 'result'")
      end
    else
      match error result' with
      | Some e => Returned ("Error: " +:+ e)
      | None => Raised (OtherException "KeyError: 'error'")
      end.

End Agent.

(** ** More of mlops-checker-agent/agents/mlops_checker.py *)

Module MLOpsMore.

(** The check types that a branch of the loop of [run_checks] acts on. *)
Definition known_check (check_type : string) : Prop :=
  check_type ∈ ["dependencies"; "security"; "structure"; "deployment"].

#[global] Instance known_check_dec (check_type : string) : Decision (known_check check_type).
Proof. unfold known_check. apply _. Defined.

End MLOpsMore.

(** ** More of toyota_interview/src/data/data_loader.py *)

Module MNISTMore.
Import MNIST.

(** A label as a dataset yields it: a Python [int], or a tensor of
    integers. *)
Inductive Label : Type :=
  | IntLabel (n : Z)
  | TensorLabel (values : list Z).

(** [tensor.item()]: the only element of a one-element tensor; an error
    on every other tensor. *)
Definition item (values : list Z) : outcome Z :=
  match values with
  | [n] => Returned n
  | _ => Raised (OtherException "only one element tensors can be converted to Python scalars")
  end.

(** One turn of the loop of [get_class_counts]. *)
Definition count_label (class_counts : gmap Z Z) (label : Label) : outcome (gmap Z Z) :=
  label' ← match label with
           | IntLabel n => mret n
           | TensorLabel values => item values
           end;
  mret (<[label' := (default 0 (class_counts !! label') + 1)%Z]> class_counts).

Fixpoint count_labels {Sample : Type} (class_counts : gmap Z Z)
    (dataset : list (Sample * Label)) : outcome (gmap Z Z) :=
  match dataset with
  | [] => mret class_counts
  | (_, label) :: rest =>
      class_counts' ← count_label class_counts label;
      count_labels class_counts' rest
  end.

(** [get_class_counts]: any exception gives the empty dict. *)
Definition get_class_counts {Sample : Type} (dataset : list (Sample * Label))
    : gmap Z Z :=
  match count_labels ∅ dataset with
  | Returned class_counts => class_counts
  | Raised _ => ∅
  end.

(** A batch of images: the shape of the tensor and its elements. *)
Record Tensor : Type := mkTensor {
  shape : list Z;
  elements : list pyfloat
}.

Definition isnan (x : pyfloat) : bool :=
  match x with NaN => true | _ => false end.

Definition isinf (x : pyfloat) : bool :=
  match x with Infinity _ => true | _ => false end.

(** [next(iter(dataloader))] *)
Definition next {A : Type} (dataloader : list A) : outcome A :=
  match dataloader with
  | batch :: _ => Returned batch
  | [] => Raised (OtherException "StopIteration")
  end.

(** [shape[i]] for an index that is not negative *)
Definition shape_at (t : Tensor) (i : nat) : outcome Z :=
  match shape t !! i with
  | Some n => Returned n
  | None => Raised (OtherException "tuple index out of range")
  end.

(** [labels.min()] and [labels.max()]: an error on an empty tensor. *)
Definition tensor_min (labels : list Z) : outcome Z :=
  match labels with
  | [] => Raised (OtherException "min(): Expected reduction dim to be specified for input.numel() == 0")
  | n :: rest => Returned (foldl Z.min n rest)
  end.

Definition tensor_max (labels : list Z) : outcome Z :=
  match labels with
  | [] => Raised (OtherException "max(): Expected reduction dim to be specified for input.numel() == 0")
  | n :: rest => Returned (foldl Z.max n rest)
  end.

(** [validate_data_integrity]: the checks on the first batch of the
    loader; any exception gives [False]. *)
Definition validate_data_integrity (dataloader : list (Tensor * list Z)) : bool :=
  let body : outcome bool :=
    '(batch_data, batch_labels) ← next dataloader;
    if decide (length (shape batch_data) ≠ 4%nat) then mret false
    else
      channels ← shape_at batch_data 1;
      if decide (channels ≠ 1%Z) then mret false
      else
        height ← shape_at batch_data 2;
        wrong_size ← (if decide (height ≠ 28%Z) then mret true
                      else width ← shape_at batch_data 3; mret (bool_decide (width ≠ 28%Z)));
        if wrong_size : bool then mret false
        else if existsb isnan (elements batch_data) || existsb isinf (elements batch_data)
        then mret false
        else
          lowest ← tensor_min batch_labels;
          if decide (lowest < 0)%Z then mret false
          else
            highest ← tensor_max batch_labels;
            if decide (highest > 9)%Z then mret false
            else mret true in
  match body with
  | Returned ok => ok
  | Raised _ => false
  end.

(** The integer a label stands for, when it has one. *)
Definition label_value (label : Label) : option Z :=
  match label with
  | IntLabel n => Some n
  | TensorLabel [n] => Some n
  | TensorLabel _ => None
  end.

(** The sum of the counts of a class distribution. *)
Definition total_count (class_counts : gmap Z Z) : Z :=
  map_fold (fun _ count total => (count + total)%Z) 0%Z class_counts.

(** A transform description whose ['normalize'] entry, if present, has
    both ['mean'] and ['std']. *)
Definition normalize_complete (config : TransformSpec) : bool :=
  match ts_normalize config with
  | Some norm_config => bool_decide (is_Some (nc_mean norm_config))
                        && bool_decide (is_Some (nc_std norm_config))
  | None => true
  end.

End MNISTMore.

(** ** More of multimodal-rag/agents/vector_store.py *)

Module VectorStoreMore.
Import Json VectorStore.

(** [collection.delete(ids=ids)] *)
Definition collection_delete_all (ids : list pystr) (c : list (pystr * Stored))
    : list (pystr * Stored) :=
  filter (fun p => p.1 ∉ ids) c.

(** [clear_all]: every id the collection reports is deleted, when there is
    one. *)
Definition clear_all (self : Store) : bool * Store :=
  let ids := fst <$> collection self in
  (true,
   match ids with
   | [] => self
   | _ => mkStore (collection_delete_all ids (collection self))
   end).

(** The value under ['total_documents'] of [get_stats]: [collection.count()]. *)
Definition total_documents (self : Store) : nat := length (collection self).

End VectorStoreMore.

(** ** multimodal-rag/agents/multimodal_rag.py *)

Module Rag.

(** One entry of [chat_history]. *)
Record Message : Type := mkMessage {
  role : string;
  content : string
}.

(** The dict that [query] returns; the key ['context_used'] may be
    absent. *)
Record Answer (Source : Type) : Type := mkAnswer {
  answer : string;
  sources : list Source;
  context_used : option Z
}.
Arguments mkAnswer {Source}.
Arguments answer {Source}.
Arguments sources {Source}.
Arguments context_used {Source}.

(** What [ingest_document] returns: the success dict, whose ['filename']
    may be [None] and whose summary is a text of code points, or the
    failure dict. *)
Inductive IngestResult : Type :=
  | Ingested (filename : option string) (document_id : string) (summary : Json.pystr)
  | NotIngested (error : string).

Record Processed : Type := mkProcessed {
  p_filename : option string;
  p_document_id : string;
  p_summary : Json.pystr
}.

Record Failed : Type := mkFailed {
  f_filename : string;
  f_error : string
}.

(** The dict that [bulk_ingest] returns: the lists and the totals are
    absent from the answer for a missing directory. *)
Record BulkResult : Type := mkBulkResult {
  b_success : bool;
  b_error : option string;
  b_processed : option (list Processed);
  b_failed : option (list Failed);
  b_total_processed : option Z;
  b_total_failed : option Z
}.

(** The components around the agent.  [search] is [VectorStore.search],
    which returns a list of chunks and catches its own exceptions, and
    [answer_question] is the method of the language model client, which
    returns a dict with the key ['answer'] or raises; both act on the
    stores as they are when [query] is called.  [ingest_document] is the
    method of that name, which catches its own exceptions, with the state
    of the stores as [Stores]; [glob] lists the paths of a directory with
    one extension and [path_name] is [Path.name]. *)
Class Components (Stores Chunk Source : Type) : Type := {
  search : string -> Z -> list Chunk;
  answer_question : string -> list Chunk -> outcome (Answer Source);
  ingest_document : string -> Stores -> IngestResult * Stores;
  directory_exists : string -> bool;
  glob : string -> string -> list string;
  path_name : string -> string;
  supported_formats : list string
}.

Section Agent.
Context {Stores Chunk Source : Type} `{Components Stores Chunk Source}.

(** [lst[-n:]] for a positive [n] *)
Definition last_n {A : Type} (n : nat) (l : list A) : list A :=
  drop (length l - n) l.

(** [query]: the answer and the chat history afterwards.  The list
    [messages] that the method builds is not used by it. *)
Definition query (question : string) (n_results : Z) (include_chat_history : bool)
    (chat_history : list Message) : Answer Source * list Message :=
  let search_results := search question n_results in
  match search_results with
  | [] =>
      (mkAnswer "I couldn't find any relevant documents to answer your question." []
                (Some 0%Z),
       chat_history)
  | _ =>
      match answer_question question search_results with
      | Returned result =>
          let chat_history := chat_history ++ [mkMessage "user" question] in
          let chat_history := chat_history ++ [mkMessage "assistant" (answer result)] in
          let chat_history :=
            if decide (20 < length chat_history)%nat then last_n 20 chat_history
            else chat_history in
          (result, chat_history)
      | Raised e =>
          (mkAnswer ("Error processing query: " +:+ exn_str e) [] (Some 0%Z), chat_history)
      end
  end.

(** [chat] *)
Definition chat (message : string) (chat_history : list Message)
    : Answer Source * list Message :=
  query message 5%Z true chat_history.

(** [summary[:100] + "..." if len(summary) > 100 else summary] *)
Definition short_summary (summary : Json.pystr) : Json.pystr :=
  if decide (100 < length summary)%nat then take 100 summary ++ Json.py "..."
  else summary.

(** The accumulators of the loop of [bulk_ingest]. *)
Record Tally : Type := mkTally {
  processed : list Processed;
  failed : list Failed;
  total_processed : Z;
  total_failed : Z
}.

(** One turn of the loop over [files_to_process]. *)
Definition ingest_one (file_path : string) (acc : Tally * Stores) : Tally * Stores :=
  let '(results, stores) := acc in
  match ingest_document file_path stores with
  | (Ingested filename document_id summary, stores') =>
      (mkTally (processed results
                ++ [mkProcessed filename document_id (short_summary summary)])
               (failed results) (total_processed results + 1)%Z (total_failed results),
       stores')
  | (NotIngested error, stores') =>
      (mkTally (processed results)
               (failed results ++ [mkFailed (path_name file_path) error])
               (total_processed results) (total_failed results + 1)%Z,
       stores')
  end.

(** [bulk_ingest]; [file_extensions] is [None] or a list. *)
Definition bulk_ingest (directory_path : string) (file_extensions : option (list string))
    (stores : Stores) : BulkResult * Stores :=
  let file_extensions :=
    match file_extensions with
    | None | Some [] => supported_formats
    | Some extensions => extensions
    end in
  if negb (directory_exists directory_path) then
    (mkBulkResult false (Some "Directory not found") None None None None, stores)
  else
    let files_to_process := concat (glob directory_path <$> file_extensions) in
    let '(results, stores') :=
      foldl (fun acc file_path => ingest_one file_path acc)
            (mkTally [] [] 0%Z 0%Z, stores) files_to_process in
    (mkBulkResult (negb (bool_decide (0 < total_failed results)%Z)) None
                  (Some (processed results)) (Some (failed results))
                  (Some (total_processed results)) (Some (total_failed results)),
     stores').

End Agent.

End Rag.

(** * Properties *)

Section UtilsProperties.
Import Utils.

(** The row that every channel of the mask holds. *)
Lemma model_binary_example_rows (n_channels n_times : nat) (starts : list Z) :
  model_binary_example n_channels n_times starts
  = replicate n_channels
      (foldl (fun row start => set_slice start (start + min_run_length) row)
             (replicate n_times false) starts).
Proof.
  unfold model_binary_example, zeros.
  generalize (replicate n_times false). induction starts as [|s starts IH]; intros row.
  - reflexivity.
  - cbn [foldl]. unfold set_run at 2. rewrite fmap_replicate. apply IH.
Qed.

(** The mask has the shape of the input whatever the random draw is. *)
Lemma model_binary_example_shape (n_channels n_times : nat) (starts : list Z) :
  length (model_binary_example n_channels n_times starts) = n_channels ∧
  Forall (fun row => length row = n_times) (model_binary_example n_channels n_times starts).
Proof.
  rewrite model_binary_example_rows. split; [apply length_replicate|].
  apply Forall_replicate.
  generalize (length_replicate n_times false).
  generalize (replicate n_times false). induction starts as [|s starts IH]; intros row Hrow.
  - exact Hrow.
  - cbn [foldl]. apply IH. unfold set_slice. by rewrite length_imap.
Qed.

End UtilsProperties.

(** C1 (defect in the code).  The source comment promises starts whose runs
    do not overlap, but [replace=False] only makes the start indices
    pairwise different.  For a 21 x 400 array two runs are requested; the
    starts 0 and 5 are a possible outcome of the random choice, and the mask
    then holds, in each of the 21 channels, a single run of 15 ones instead
    of two separate runs of 10. *)
Theorem model_binary_example_runs_can_overlap :
  Utils.n_runs 400 = 2%nat /\
  Utils.choice_ok 400 [0; 5]%Z /\
  length (Utils.model_binary_example 21 400 [0; 5]%Z) = 21%nat /\
  Forall (fun row => length row = 400%nat /\ Utils.runs row = [(0, 15)]%nat)
         (Utils.model_binary_example 21 400 [0; 5]%Z).
Proof.
  split; [reflexivity|].
  split; [by apply (bool_decide_unpack _); vm_compute|].
  split; [reflexivity|].
  apply (bool_decide_unpack _). by vm_compute.
Qed.

Section ServicesProperties.
Import Services.
Context `{Externals}.

(** C2.  A request whose array is not 2-D, or whose first dimension is
    not 21, makes [ingest_data] raise a [ValueError] and leaves the
    service exactly as it was: no ingestion row is added, no patient row
    is touched (so [last_data_received] keeps its value) and the
    notification buffer is the same. *)
Theorem ingest_data_rejects_bad_shape
    (utcnow : datetime) (pid : string) (timestamp : datetime)
    (data : ndarray) (self : DataIngestionService) :
  length (shape data) ≠ 2%nat ∨ shape data !! 0%nat ≠ Some 21%Z →
  ∃ msg self',
    ingest_data utcnow pid timestamp data self = (Raised (ValueError msg), self') ∧
    self' = self ∧
    data_ingestions (db self') = data_ingestions (db self) ∧
    patients (db self') = patients (db self) ∧
    notification_accumulator self' = notification_accumulator self.
Proof.
  intros Hbad. unfold ingest_data.
  destruct (get_patient pid (db self)) as [p|]; [|by eauto 10].
  destruct (decide (length (shape data) ≠ 2%nat)) as [|H2]; [by eauto 10|].
  destruct (decide (shape data !! 0%nat ≠ Some 21%Z)) as [|H21]; [by eauto 10|].
  destruct Hbad; contradiction.
Qed.

Lemma Qgtb_true (x y : Q) : Qgtb x y = true ↔ (y < x)%Q.
Proof.
  unfold Qgtb. rewrite negb_true_iff. split.
  - intros Hb. apply Qnot_le_lt. intros Hle.
    apply Qle_bool_iff in Hle. congruence.
  - intros Hlt. destruct (Qle_bool x y) eqn:E; [|done].
    apply Qle_bool_iff in E. exfalso. by apply (Qlt_not_le y x).
Qed.

Lemma Qgtb_false (x y : Q) : Qgtb x y = false ↔ (x <= y)%Q.
Proof.
  unfold Qgtb. rewrite negb_false_iff. apply Qle_bool_iff.
Qed.

Lemma determine_health_status_window (recent : list DataIngestion) (m : option Q) :
  recent ≠ [] →
  _determine_health_status
    (mkStats (Some m) (Some (Zsum (di_anomaly_count <$> recent)))
             (Some (Z.of_nat (length recent))))
  = if Qgtb (window_rate recent) (15 # 100)%Q then "critical"
    else if Qgtb (window_rate recent) (8 # 100)%Q then "warning"
    else "normal".
Proof.
  intros Hne. unfold _determine_health_status, window_rate.
  cbn [stats_nonempty st_adr_mean st_anomaly_count st_data_points default negb orb].
  rewrite Z.max_l; [done|]. destruct recent; [done|]. cbn [length]. unfold id. lia.
Qed.


End ServicesProperties.


Lemma ingest_data_rejects_bad_shape_witness :
  Services.shape (Services.mkArray [20; 1280]%Z []) !! 0%nat ≠ Some 21%Z ∧
  ∃ msg,
    Services.ingest_data (H := sample_externals) 5%Z "P001" 5%Z
      (Services.mkArray [20; 1280]%Z []) sample_service
    = (Raised (ValueError msg), sample_service).
Proof.
  split; [discriminate|].
  destruct (ingest_data_rejects_bad_shape (H := sample_externals) 5%Z "P001" 5%Z
              (Services.mkArray [20; 1280]%Z []) sample_service)
    as (msg & self' & Heq & -> & _).
  - right. discriminate.
  - exists msg. exact Heq.
Defined.

Section StatisticsProperties.
Import Services.
Context `{Externals}.

(** C4 (as amended).  When at least one row of the patient lies in the
    range, the result of [compute_statistics] carries no message and
    echoes the range: start, end and duration in hours.  When no row lies
    in the range the result is the "no data" message alone, without the
    time range. *)
Theorem compute_statistics_time_range
    (pid : string) (start_time' end_time : datetime) (metrics : list string)
    (s : Session) :
  let result := compute_statistics pid start_time' end_time metrics s in
  (data_records pid start_time' end_time s ≠ [] →
     message result = None ∧
     time_range result =
       Some (mkTimeRange (isoformat start_time') (isoformat end_time)
                         (total_hours (end_time - start_time')))) ∧
  (data_records pid start_time' end_time s = [] →
     result = mkStatistics (Some "No data available for the specified time range")
                           None None None).
Proof.
  unfold compute_statistics.
  destruct (data_records pid start_time' end_time s) as [|r records]; cbn zeta.
  - split; [by intros []|done].
  - split; [done|discriminate].
Qed.

End StatisticsProperties.

Lemma compute_statistics_time_range_witness :
  Services.data_records "P001" 0%Z 500%Z
    (Services.mkSession [sample_patient] [sample_row 100 1; sample_row 200 0]%Z) ≠ [] ∧
  Services.time_range
    (Services.compute_statistics (H := sample_externals) "P001" 0%Z 500%Z ["anomalies"]
       (Services.mkSession [sample_patient] [sample_row 100 1; sample_row 200 0]%Z))
  = Some (Services.mkTimeRange "0" "500" (Services.total_hours 500)).
Proof.
  split; [by vm_compute|].
  apply (compute_statistics_time_range (H := sample_externals) "P001" 0%Z 500%Z ["anomalies"]
           (Services.mkSession [sample_patient] [sample_row 100 1; sample_row 200 0]%Z)).
  by vm_compute.
Defined.

(** C4 (as stated) fails: with no row in the range the result has no
    [time_range] key. *)
Lemma compute_statistics_no_data_has_no_time_range :
  Services.time_range
    (Services.compute_statistics (H := sample_externals) "P001" 0%Z 500%Z
       ["adr"; "anomalies"] (Services.mkSession [sample_patient] []))
  = None.
Proof. reflexivity. Qed.

Section StreamProperties.
Import Services.

(** C10.  [stop_mock_stream] returns normally for every id and every
    state, the id has no entry in [active_streams] afterwards, and a
    second stop changes nothing more; a second [start_mock_stream] for
    the same id, in contrast, raises a [ValueError]. *)
Theorem stop_mock_stream_idempotent (pid : string) (self : DataIngestionService) :
  ∃ self',
    stop_mock_stream pid self = (Returned (), self') ∧
    active_streams self' !! pid = None ∧
    stop_mock_stream pid self' = (Returned (), self') ∧
    ∀ utcnow time_s utcnow2 time_s2,
      (start_mock_stream utcnow2 time_s2 pid
         (start_mock_stream utcnow time_s pid self).2).1
      = Raised (ValueError ("Stream already active for patient " +:+ pid)).
Proof.
  assert (Hstart : ∀ utcnow time_s utcnow2 time_s2,
      (start_mock_stream utcnow2 time_s2 pid
         (start_mock_stream utcnow time_s pid self).2).1
      = Raised (ValueError ("Stream already active for patient " +:+ pid))).
  { intros. unfold start_mock_stream at 2.
    destruct (decide (is_Some (active_streams self !! pid))) as [Hin|Hout]; cbn [snd].
    - unfold start_mock_stream. by rewrite decide_True.
    - unfold start_mock_stream. cbn [active_streams].
      rewrite decide_True; [done|]. rewrite lookup_insert_eq. eauto. }
  unfold stop_mock_stream.
  destruct (decide (is_Some (active_streams self !! pid))) as [Hin|Hout].
  - eexists. split; [reflexivity|]. cbn [active_streams set_active_streams].
    rewrite lookup_delete_eq. split; [done|]. split; [|done].
    rewrite decide_False; [done|]. by intros [? ?].
  - exists self. split; [done|]. split.
    + destruct (active_streams self !! pid) eqn:E; [|done]. destruct Hout. eauto.
    + split; [|done]. by rewrite decide_False.
Qed.

End StreamProperties.

Section MLOpsProperties.
Import MLOps.
Context `{Project}.

Lemma count_severity_cons (sev : string) (i : Issue) (l : list Issue) :
  count_severity sev (i :: l) =
    ((if decide (severity i = sev) then 1 else 0) + count_severity sev l)%Z.
Proof.
  unfold count_severity. rewrite filter_cons.
  destruct (decide (severity i = sev)); cbn [length]; lia.
Qed.

(** The loop subtracts, from whatever score it starts with, 20 per
    critical issue, 10 per warning and 5 per info issue. *)
Lemma foldl_deduct (issues' : list Issue) (base_score : Z) :
  foldl deduct base_score issues' =
    (base_score - 20 * count_severity "critical" issues'
                - 10 * count_severity "warning" issues'
                - 5 * count_severity "info" issues')%Z.
Proof.
  revert base_score. induction issues' as [|i l IH]; intros base_score.
  - unfold count_severity. rewrite !filter_nil. cbn [foldl length]. lia.
  - cbn [foldl]. rewrite IH, !count_severity_cons. unfold deduct.
    repeat case_decide; try lia; congruence.
Qed.

(** C8.  The readiness score of an issue list is
    [max(0, 100 - 20 c - 10 w - 5 i)] for its [c] critical, [w] warning
    and [i] info issues; every completed run reports that score for the
    issues it lists, and a run with exactly one issue of each of the three
    severities reports 65. *)
Theorem readiness_score_formula :
  (∀ issues' : list Issue,
     _calculate_readiness_score issues' =
       Z.max 0 (100 - 20 * count_severity "critical" issues'
                    - 10 * count_severity "warning" issues'
                    - 5 * count_severity "info" issues')) ∧
  (∀ check_types self result self',
     run_checks check_types self = Returned (result, self') →
     deployment_readiness result =
       Z.max 0 (100 - 20 * count_severity "critical" (result_issues result)
                    - 10 * count_severity "warning" (result_issues result)
                    - 5 * count_severity "info" (result_issues result)) ∧
     (count_severity "critical" (result_issues result) = 1%Z →
      count_severity "warning" (result_issues result) = 1%Z →
      count_severity "info" (result_issues result) = 1%Z →
      deployment_readiness result = 65%Z)).
Proof.
  assert (Hscore : ∀ issues' : list Issue,
     _calculate_readiness_score issues' =
       Z.max 0 (100 - 20 * count_severity "critical" issues'
                    - 10 * count_severity "warning" issues'
                    - 5 * count_severity "info" issues')).
  { intros issues'. unfold _calculate_readiness_score. by rewrite foldl_deduct. }
  split; [exact Hscore|].
  intros check_types self result self' Hrun.
  assert (Hres : deployment_readiness result =
                 _calculate_readiness_score (result_issues result)).
  { unfold run_checks in Hrun.
    destruct (run_each _ _) as [self1|e]; cbn in Hrun; [|discriminate].
    injection Hrun as <- _. reflexivity. }
  rewrite Hres, Hscore. split; [done|]. intros -> -> ->. reflexivity.
Qed.

End MLOpsProperties.

Lemma readiness_score_formula_witness :
  ∃ result self',
    MLOps.run_checks (H := sample_project) ["all"] sample_checker = Returned (result, self') ∧
    MLOps.count_severity "critical" (MLOps.result_issues result) = 1%Z ∧
    MLOps.count_severity "warning" (MLOps.result_issues result) = 1%Z ∧
    MLOps.count_severity "info" (MLOps.result_issues result) = 1%Z ∧
    MLOps.deployment_readiness result = 65%Z.
Proof.
  eexists _, _. split; [by vm_compute|].
  split; [by vm_compute|]. split; [by vm_compute|]. split; [by vm_compute|].
  eapply (proj2 (readiness_score_formula (H := sample_project)) ["all"] sample_checker);
    by vm_compute.
Defined.

Section MNISTProperties.
Import MNIST.
Context `{FileSystem}.

Lemma float_le_unit_interval (x : pyfloat) :
  float_le (Finite 0) x && float_le x (Finite 1) = true ↔ in_unit_interval x.
Proof.
  destruct x as [q|[]|]; cbn [float_le in_unit_interval andb].
  - rewrite andb_true_iff, !Qle_bool_iff. reflexivity.
  - split; [discriminate|done].
  - split; [discriminate|done].
  - split; [discriminate|done].
Qed.

(** C9.  A non-positive batch size, a validation split outside [0, 1]
    (NaN and the infinities included) or a negative worker count makes the
    constructor raise a [ValidationError] with no effect performed: the
    data directory is not created and nothing else is touched.  Parameters
    with a positive batch size, a split in [0, 1] and a non-negative worker
    count pass [_validate_parameters]. *)
Theorem init_validates_parameters_first
    (data_dir' : string) (batch_size' : Z) (validation_split' : pyfloat)
    (num_workers' : Z) (pin_memory' download' : bool)
    (transform_config : option TransformConfig) :
  ((batch_size' <= 0)%Z ∨ ¬ in_unit_interval validation_split' ∨ (num_workers' < 0)%Z →
     ∃ msg,
       __init__ data_dir' batch_size' validation_split' num_workers'
                pin_memory' download' transform_config
       = (Raised (ValidationError msg), [])) ∧
  ((0 < batch_size')%Z → in_unit_interval validation_split' → (0 <= num_workers')%Z →
     _validate_parameters batch_size' validation_split' num_workers' = Returned ()).
Proof.
  split.
  - intros Hbad. unfold __init__, _validate_parameters.
    destruct (decide (batch_size' <= 0)%Z) as [|Hb]; [by eauto|].
    destruct (float_le (Finite 0) validation_split' && float_le validation_split' (Finite 1))
      eqn:Hv; cbn [negb]; [|by eauto].
    destruct (decide (num_workers' < 0)%Z) as [|Hn]; [by eauto|].
    apply float_le_unit_interval in Hv.
    destruct Hbad as [?|[?|?]]; contradiction.
  - intros Hb Hv Hn. unfold _validate_parameters.
    rewrite decide_False by lia.
    apply float_le_unit_interval in Hv. rewrite Hv. cbn [negb].
    by rewrite decide_False by lia.
Qed.

End MNISTProperties.

Lemma init_validates_parameters_first_witness :
  ¬ MNIST.in_unit_interval (MNIST.Finite (15 # 10)) ∧
  ∃ msg,
    MNIST.__init__ (H := sample_file_system) "./data" 64%Z (MNIST.Finite (15 # 10)) 4%Z
                   true true None
    = (Raised (ValidationError msg), []).
Proof.
  split.
  - intros [_ Hle]. by vm_compute in Hle.
  - apply (proj1 (init_validates_parameters_first (H := sample_file_system)
                    "./data" 64%Z (MNIST.Finite (15 # 10)) 4%Z true true None)).
    right. left. intros [_ Hle]. by vm_compute in Hle.
Defined.

Section MCPProperties.
Import MCP.
Context {Kwargs Value : Type}.

Lemma execute_in_cases (values : list (Server Kwargs Value)) (tool_name' : string)
    (kwargs : Kwargs) :
  (∃ s, s ∈ values ∧ is_Some (tools s !! tool_name') ∧
        MCPRegistry.execute_in values tool_name' kwargs
        = MCPServer.execute_tool s tool_name' kwargs) ∨
  ((∀ s, s ∈ values → tools s !! tool_name' = None) ∧
   MCPRegistry.execute_in values tool_name' kwargs
   = Returned (mkToolResult false None
                 (Some ("Tool '" +:+ tool_name' +:+ "' not found in any registered server"))
                 None None)).
Proof.
  induction values as [|s rest IH]; cbn [MCPRegistry.execute_in].
  - right. split; [|done]. intros s Hs. by apply elem_of_nil in Hs.
  - destruct (decide (is_Some (tools s !! tool_name'))) as [Hin|Hout].
    + left. exists s. split; [by left|done].
    + destruct IH as [(s' & Hs' & Hhas & Heq)|[Hnone Heq]].
      * left. exists s'. split; [by right|done].
      * right. split; [|done]. intros s' Hs'.
        apply elem_of_cons in Hs' as [->|Hs']; [|by apply Hnone].
        destruct (tools s !! tool_name') eqn:E; [|done]. destruct Hout. eauto.
Qed.


End MCPProperties.


Section WorkflowProperties.
Import PyStr Workflow.
Context `{Runtime}.

Lemma analyze_ticket_urgency (state : WorkflowState) :
  urgency (analyze_ticket state) = "critical" ∨ urgency (analyze_ticket state) = "high" ∨
  urgency (analyze_ticket state) = "medium" ∨ urgency (analyze_ticket state) = "low".
Proof.
  unfold analyze_ticket. cbn [urgency log set_category set_urgency].
  repeat match goal with |- context [if ?b then _ else _] => destruct b end; auto.
Qed.

(** The flag written by [check_escalation]. *)
Lemma check_escalation_escalated (state : WorkflowState) :
  escalated (check_escalation state) = true ↔
    (urgency state = "high" ∧ customer_tier state = "enterprise") ∨
    (category state = "complaint" ∧ contains "angry" (lower (ticket_content state)) = true).
Proof.
  unfold check_escalation. cbn [escalated log set_escalated].
  destruct (decide (urgency state = "high" ∧ customer_tier state = "enterprise")) as [Hh|Hh].
  - split; [by left|].
    by destruct (bool_decide (category state = "complaint")
                 && contains "angry" (lower (ticket_content state))).
  - destruct (bool_decide (category state = "complaint")) eqn:Hc; cbn [andb].
    + apply bool_decide_eq_true in Hc.
      destruct (contains "angry" (lower (ticket_content state))) eqn:Ha.
      * split; [by right|done].
      * split; [done|]. intros [?|[_ ?]]; [contradiction|done].
    + apply bool_decide_eq_false in Hc.
      split; [done|]. intros [?|[? _]]; contradiction.
Qed.

Lemma run_from_step (k : nat) (n : Node) (state : WorkflowState) :
  n ≠ END →
  run_from (S k) n state
  = (next ← successor n (node_action n state);
     '(final, path) ← run_from k next (node_action n state);
     mret (final, n :: path)).
Proof. by destruct n. Qed.

Lemma run_from_last (k : nat) (n : Node) (state : WorkflowState) :
  n ≠ END → successor n (node_action n state) = Returned END →
  run_from (S k) n state = Returned (node_action n state, [n]).
Proof.
  intros Hn Hsucc. rewrite run_from_step, Hsucc by done. by destruct k.
Qed.

Lemma run_from_next (k : nat) (n next : Node) (state final : WorkflowState)
    (path : list Node) :
  n ≠ END → successor n (node_action n state) = Returned next →
  run_from k next (node_action n state) = Returned (final, path) →
  run_from (S k) n state = Returned (final, n :: path).
Proof.
  intros Hn Hsucc Hrest. rewrite run_from_step, Hsucc by done.
  unfold mbind, outcome_bind. by rewrite Hrest.
Qed.

(** What the nodes leave unchanged. *)
Lemma node_action_ticket_content (n : Node) (state : WorkflowState) :
  ticket_content (node_action n state) = ticket_content state.
Proof. by destruct n. Qed.

Lemma node_action_category (n : Node) (state : WorkflowState) :
  n ≠ N_analyze_ticket → category (node_action n state) = category state.
Proof. by destruct n. Qed.

Lemma node_action_urgency (n : Node) (state : WorkflowState) :
  n ≠ N_analyze_ticket → urgency (node_action n state) = urgency state.
Proof. by destruct n. Qed.

Lemma node_action_escalated (n : Node) (state : WorkflowState) :
  n ≠ N_check_escalation → escalated (node_action n state) = escalated state.
Proof. by destruct n. Qed.

Lemma run_from_assign_team (k : nat) (state : WorkflowState) :
  category state = "complaint" →
  contains "angry" (lower (ticket_content state)) = true →
  escalated (node_action N_check_escalation (node_action N_assign_team state)) = true ∧
  run_from (S (S (S k))) N_assign_team state
  = Returned (node_action N_escalate_to_human
                (node_action N_check_escalation (node_action N_assign_team state)),
              [N_assign_team; N_check_escalation; N_escalate_to_human]).
Proof.
  intros Hcat Hangry.
  assert (Hcat4 : category (node_action N_assign_team state) = "complaint")
    by (by rewrite node_action_category).
  assert (Hangry4 :
      contains "angry" (lower (ticket_content (node_action N_assign_team state))) = true)
    by (by rewrite node_action_ticket_content).
  remember (node_action N_assign_team state) as s4 eqn:Hs4.
  assert (Hesc : escalated (node_action N_check_escalation s4) = true).
  { apply (proj2 (check_escalation_escalated s4)). right. by split. }
  split; [exact Hesc|].
  apply (run_from_next _ N_assign_team N_check_escalation); [done|reflexivity|].
  rewrite <- Hs4.
  apply (run_from_next _ N_check_escalation N_escalate_to_human); [done| |].
  - cbn [successor]. unfold escalation_condition. by rewrite Hesc.
  - exact (run_from_last _ N_escalate_to_human _ ltac:(done) eq_refl).
Qed.


End WorkflowProperties.



Section JsonProperties.
Import Json.

Lemma to_uint_leading_nonzero (p : positive) : leading_nonzero (Pos.to_uint p).
Proof.
  pose proof (DecimalPos.Unsigned.to_of (Pos.to_uint p)) as Hnorm.
  rewrite DecimalPos.Unsigned.of_to in Hnorm. cbn [N.to_uint] in Hnorm.
  pose proof (DecimalPos.Unsigned.to_uint_nonzero p) as Hnz.
  pose proof (DecimalFacts.nzhead_nonzero (Pos.to_uint p)) as Hhead.
  unfold Decimal.unorm in Hnorm.
  destruct (Decimal.nzhead (Pos.to_uint p)) eqn:E;
    rewrite Hnorm in *; try exact I.
  - by destruct Hnz.
  - by destruct (Hhead u).
Qed.

Lemma span_digits_uint (u : Decimal.uint) :
  span_digits (uint_codes u) = (uint_codes u, []).
Proof.
  induction u; cbn [uint_codes span_digits]; [done|..];
    (change (is_digit _) with true; cbn iota; by rewrite IHu).
Qed.

Lemma codes_uint_uint (u : Decimal.uint) : codes_uint (uint_codes u) = u.
Proof.
  induction u; cbn [uint_codes codes_uint]; [done|..];
    (rewrite IHu; reflexivity).
Qed.

Lemma scan_number_uint (negative : bool) (u : Decimal.uint) :
  leading_nonzero u →
  scan_number ((if negative then [45%N] else []) ++ uint_codes u)
  = Some (PInt (if negative then - Z.of_uint u else Z.of_uint u)%Z, []).
Proof.
  intros Hu.
  destruct u; try done; destruct negative;
    cbn; rewrite span_digits_uint; cbn; rewrite codes_uint_uint; reflexivity.
Qed.

Lemma scan_once_uint (fuel : nat) (negative : bool) (u : Decimal.uint) :
  leading_nonzero u →
  scan_once (S fuel) (skip_ws ((if negative then [45%N] else []) ++ uint_codes u))
  = Some (PInt (if negative then - Z.of_uint u else Z.of_uint u)%Z, []).
Proof.
  intros Hu. rewrite <- (scan_number_uint negative u Hu).
  destruct u; try done; destruct negative; reflexivity.
Qed.

(** An integer written by [str] is read back by [json.loads]. *)
Lemma json_loads_int (z : Z) : json_loads (int_codes z) = Some (PInt z).
Proof.
  unfold json_loads.
  replace (2 * length (int_codes z) + 2)%nat
    with (S (2 * length (int_codes z) + 1)) by lia.
  pose proof (DecimalZ.of_to z) as Hz.
  unfold int_codes. destruct z as [|p|p]; cbn [Z.to_int Z.of_int] in *.
  - reflexivity.
  - rewrite (scan_once_uint _ false _ (to_uint_leading_nonzero p)).
    cbn [skip_ws]. by rewrite Hz.
  - rewrite (scan_once_uint _ true _ (to_uint_leading_nonzero p)).
    cbn [skip_ws]. by rewrite Hz.
Qed.

End JsonProperties.

Section VectorStoreProperties.
Import Json VectorStore.

Lemma collection_get_app (id : pystr) (d : Stored) (c : list (pystr * Stored)) :
  collection_get id (c ++ [(id, d)]) =
    match collection_get id c with
    | Some d' => Some d'
    | None => Some d
    end.
Proof.
  induction c as [|[k d'] c IH]; cbn [collection_get app].
  - by rewrite decide_True.
  - by destruct (decide (k = id)).
Qed.

Lemma collection_get_add_fresh (id : pystr) (d : Stored) (c : list (pystr * Stored)) :
  collection_get id c = None → collection_get id (collection_add id d c) = Some d.
Proof.
  intros Hfresh. unfold collection_add. rewrite Hfresh.
  by rewrite collection_get_app, Hfresh.
Qed.

Lemma collection_get_delete (id : pystr) (c : list (pystr * Stored)) :
  collection_get id (collection_delete id c) = None.
Proof.
  unfold collection_delete. induction c as [|[k d] c IH]; [done|].
  rewrite filter_cons. cbn [fst]. destruct (decide (k ≠ id)) as [Hne|Heq]; [|done].
  cbn [collection_get]. by rewrite decide_False.
Qed.

Lemma list_documents_delete (limit : nat) (id : pystr) (self : Store) :
  id ∉ r_id <$> list_documents limit (delete_document id self).2.
Proof.
  unfold list_documents, delete_document. cbn [snd collection].
  rewrite <- list_fmap_compose. intros Hin.
  apply list_elem_of_fmap in Hin as ([k d] & Hk & Hin). cbn in Hk. subst k.
  apply subseteq_take in Hin.
  apply list_elem_of_filter in Hin as [Hne _]. by apply Hne.
Qed.

Lemma round_trip_int (z : Z) : round_trip (PInt z) = PInt z.
Proof.
  unfold round_trip, chroma_value, parsed_value. cbn [is_primitive py_str].
  by rewrite json_loads_int.
Qed.

Lemma round_trip_str (s : pystr) : json_loads s = None → round_trip (PStr s) = PStr s.
Proof.
  intros Hs. unfold round_trip, chroma_value, parsed_value. cbn [is_primitive py_str].
  by rewrite Hs.
Qed.


End VectorStoreProperties.



Section MaskProperties.
Import Utils Mask.

Lemma set_slice_cons (a b : Z) (x : bool) (row : list bool) :
  set_slice a b (x :: row)
  = (if decide (a <= 0 < b)%Z then true else x) :: set_slice (a - 1) (b - 1) row.
Proof.
  unfold set_slice. rewrite imap_cons. f_equal. apply imap_ext. intros i y _. cbn.
  destruct (decide (a <= Z.of_nat (S i) < b)%Z), (decide (a - 1 <= Z.of_nat i < b - 1)%Z);
    try done; lia.
Qed.

Lemma ones_cons (x : bool) (row : list bool) :
  ones (x :: row) = ((if x then 1 else 0) + ones row)%nat.
Proof. unfold ones. rewrite filter_cons. by destruct x. Qed.

Lemma ones_set_slice_upper (a b : Z) (row : list bool) :
  (ones (set_slice a b row) <= ones row + Z.to_nat (b - Z.max a 0))%nat.
Proof.
  revert a b. induction row as [|x row IH]; intros a b; [cbn; lia|].
  rewrite set_slice_cons, !ones_cons. specialize (IH (a - 1)%Z (b - 1)%Z).
  destruct (decide (a <= 0 < b)%Z); destruct x; lia.
Qed.

Lemma ones_set_slice_lower (a b : Z) (row : list bool) :
  (Z.to_nat (Z.min b (Z.of_nat (length row)) - Z.max a 0) <= ones (set_slice a b row))%nat.
Proof.
  revert a b. induction row as [|x row IH]; intros a b; [cbn; lia|].
  rewrite set_slice_cons, !ones_cons. specialize (IH (a - 1)%Z (b - 1)%Z).
  cbn [length]. destruct (decide (a <= 0 < b)%Z); destruct x; lia.
Qed.

Lemma length_set_slice (a b : Z) (row : list bool) :
  length (set_slice a b row) = length row.
Proof. unfold set_slice. apply length_imap. Qed.

Lemma length_foldl_set_slice (starts : list Z) (row : list bool) :
  length (foldl (fun row start => set_slice start (start + min_run_length) row) row starts)
  = length row.
Proof.
  revert row. induction starts as [|s starts IH]; intros row; [done|].
  cbn [foldl]. by rewrite IH, length_set_slice.
Qed.

Lemma ones_foldl_set_slice_upper (starts : list Z) (row : list bool) :
  (ones (foldl (fun row start => set_slice start (start + min_run_length) row) row starts)
   <= ones row + 10 * length starts)%nat.
Proof.
  revert row. induction starts as [|s starts IH]; intros row; [cbn [foldl length]; lia|].
  cbn [foldl length]. etrans; [apply IH|].
  pose proof (ones_set_slice_upper s (s + min_run_length) row). unfold min_run_length in *. lia.
Qed.

Lemma ones_replicate_false (n : nat) : ones (replicate n false) = 0%nat.
Proof. induction n as [|n IH]; [done|]. cbn [replicate]. by rewrite ones_cons, IH. Qed.

Lemma count_ones_replicate (n : nat) (row : list bool) :
  count_ones (replicate n row) = (n * ones row)%nat.
Proof.
  unfold count_ones. rewrite fmap_replicate, sum_list_replicate. unfold ones. lia.
Qed.

Lemma elem_of_arange (lo hi x : Z) : x ∈ arange lo hi ↔ (lo <= x < hi)%Z.
Proof.
  unfold arange. rewrite list_elem_of_fmap. split.
  - intros (i & -> & Hi). apply elem_of_seq in Hi. lia.
  - intros Hx. exists (Z.to_nat (x - lo)). split; [lia|]. apply elem_of_seq. lia.
Qed.

Lemma length_arange (lo hi : Z) : length (arange lo hi) = Z.to_nat (hi - lo).
Proof. unfold arange. by rewrite length_fmap, length_seq. Qed.

(** X1.  For every draw of the run starts, the mask returned by
    [model_binary_example] has one row per channel, every row has
    [n_times] entries, and all rows are the same row: a run marks the same
    samples on every channel. *)
Theorem model_binary_example_rows_alike (n_channels n_times : nat) (starts : list Z) :
  length (model_binary_example n_channels n_times starts) = n_channels ∧
  ∃ row, length row = n_times ∧
         model_binary_example n_channels n_times starts = replicate n_channels row.
Proof.
  split; [apply model_binary_example_shape|].
  eexists. split; [|apply model_binary_example_rows].
  by rewrite length_foldl_set_slice, length_replicate.
Qed.

(** X2.  On a recording shorter than the minimum run length of 10
    samples no run is drawn, there is no possible start, and the mask
    holds no one at all. *)
Theorem model_binary_example_short_input (n_channels n_times : nat) (starts : list Z) :
  (n_times < 10)%nat → choice_ok (Z.of_nat n_times) starts →
  n_runs (Z.of_nat n_times) = 0%nat ∧ starts = [] ∧
  count_ones (model_binary_example n_channels n_times starts) = 0%nat.
Proof.
  intros Hshort (Hlen & _ & _).
  assert (Hruns : n_runs (Z.of_nat n_times) = 0%nat).
  { unfold n_runs, possible_starts. rewrite length_arange. unfold min_run_length.
    case_decide; lia. }
  rewrite Hruns in Hlen. apply nil_length_inv in Hlen as ->.
  split; [done|]. split; [done|].
  rewrite model_binary_example_rows, count_ones_replicate. cbn [foldl].
  rewrite ones_replicate_false. lia.
Qed.

(** X3.  On a recording of at least 10 samples the number of ones of the
    mask is the number of channels times a per-row count that lies between
    10, one full run, and 10 times the number of runs: runs may overlap,
    so the count can fall short of 10 per run, but one run is always
    whole. *)
Theorem model_binary_example_count (n_channels n_times : nat) (starts : list Z) :
  (10 <= n_times)%nat → choice_ok (Z.of_nat n_times) starts →
  ∃ k, count_ones (model_binary_example n_channels n_times starts) = (n_channels * k)%nat ∧
       (10 <= k <= 10 * n_runs (Z.of_nat n_times))%nat.
Proof.
  intros Hlong (Hlen & _ & Hin).
  rewrite model_binary_example_rows, count_ones_replicate.
  eexists. split; [reflexivity|]. split.
  - assert (Hruns : (1 <= n_runs (Z.of_nat n_times))%nat).
    { unfold n_runs, possible_starts. rewrite length_arange. unfold min_run_length.
      case_decide; lia. }
    destruct (decide (starts = [])) as [->|Hne]; [cbn in Hlen; lia|].
    destruct (exists_last Hne) as (init & s & ->).
    rewrite foldl_app. cbn [foldl].
    apply Forall_app in Hin as [_ Hs]. rewrite Forall_singleton in Hs.
    unfold possible_starts in Hs. apply elem_of_arange in Hs. unfold min_run_length in *.
    etrans; [|apply ones_set_slice_lower].
    rewrite length_foldl_set_slice, length_replicate. lia.
  - rewrite <- Hlen. etrans; [apply ones_foldl_set_slice_upper|].
    rewrite ones_replicate_false. lia.
Qed.

End MaskProperties.

Lemma model_binary_example_short_input_witness :
  (5 < 10)%nat ∧ Utils.choice_ok 5 [] ∧
  Utils.count_ones (Utils.model_binary_example 21 5 []) = 0%nat.
Proof.
  split; [lia|]. split; [by apply (bool_decide_unpack _); vm_compute|].
  apply (model_binary_example_short_input 21 5 []); [lia|].
  by apply (bool_decide_unpack _); vm_compute.
Defined.

Lemma model_binary_example_count_witness :
  (10 <= 400)%nat ∧ Utils.choice_ok 400 [0; 5]%Z ∧
  ∃ k, Utils.count_ones (Utils.model_binary_example 21 400 [0; 5]%Z) = (21 * k)%nat ∧
       (10 <= k <= 10 * Utils.n_runs 400)%nat.
Proof.
  split; [lia|]. split; [by apply (bool_decide_unpack _); vm_compute|].
  apply (model_binary_example_count 21 400 [0; 5]%Z); [lia|].
  by apply (bool_decide_unpack _); vm_compute.
Defined.

Section PatientProperties.
Import Services ServicesMore.

Lemma get_patient_app (id : string) (ps : list Patient) (p : Patient)
    (rows : list DataIngestion) :
  get_patient id (mkSession (ps ++ [p]) rows) =
    match get_patient id (mkSession ps rows) with
    | Some q => Some q
    | None => if decide (patient_id p = id) then Some p else None
    end.
Proof.
  unfold get_patient. cbn [patients]. rewrite filter_app.
  destruct (filter (λ p0, patient_id p0 = id) ps) as [|q qs]; [|done].
  cbn [app head]. rewrite filter_cons, filter_nil. by destruct (decide (patient_id p = id)).
Qed.

Lemma get_patient_None (id : string) (db : Session) :
  get_patient id db = None ↔ id ∉ patient_id <$> patients db.
Proof.
  unfold get_patient. destruct db as [ps rows]. cbn [patients].
  induction ps as [|p ps IH]; [by split; [intros _ ?%elem_of_nil|]|].
  rewrite filter_cons, fmap_cons, not_elem_of_cons.
  destruct (decide (patient_id p = id)) as [Heq|Hne].
  - split; [done|]. by intros [? _].
  - rewrite IH. split; [by split|by intros [_ ?]].
Qed.

Lemma get_patient_Some_id (id : string) (db : Session) (p : Patient) :
  get_patient id db = Some p → patient_id p = id.
Proof.
  unfold get_patient. intros Hp. apply head_Some_elem_of in Hp.
  by apply list_elem_of_filter in Hp as [? _].
Qed.

Lemma update_first_ids (id : string) (f : Patient → Patient) (ps : list Patient) :
  (∀ p, patient_id (f p) = patient_id p) →
  patient_id <$> update_first id f ps = patient_id <$> ps.
Proof.
  intros Hf. induction ps as [|p ps IH]; [done|]. cbn [update_first].
  destruct (decide (patient_id p = id)); cbn [fmap list_fmap]; by rewrite ?Hf, ?IH.
Qed.

Lemma get_patient_update_first (id id' : string) (f : Patient → Patient)
    (ps : list Patient) (rows rows' : list DataIngestion) :
  (∀ p, patient_id (f p) = patient_id p) →
  get_patient id' (mkSession (update_first id f ps) rows')
  = if decide (id' = id) then f <$> get_patient id' (mkSession ps rows)
    else get_patient id' (mkSession ps rows).
Proof.
  intros Hf. unfold get_patient. cbn [patients].
  induction ps as [|p ps IH]; [by destruct (decide (id' = id))|].
  cbn [update_first]. destruct (decide (patient_id p = id)) as [Hp|Hp].
  - rewrite !filter_cons, Hf. destruct (decide (id' = id)) as [->|Hne].
    + by rewrite !decide_True.
    + rewrite !decide_False by congruence. done.
  - rewrite !filter_cons. destruct (decide (patient_id p = id')) as [Hp'|Hp'].
    + rewrite decide_False by congruence. done.
    + exact IH.
Qed.

(** X4.  [create_patient] registers an id once: whatever the database held,
    creating the same patient a second time raises [ValueError] and leaves
    the database as the first call left it; an id that is already present
    leaves the database unchanged; for a new id the returned patient can be
    looked up, is active, has no data received yet, and no other patient
    and no ingestion row is touched. *)
Theorem create_patient_once (patient_data : PatientCreate) (db : Session) :
  let id := pc_patient_id patient_data in
  let first := create_patient patient_data db in
  let second := create_patient patient_data first.2 in
  (∃ msg, second.1 = Raised (ValueError msg)) ∧ second.2 = first.2 ∧
  (is_Some (get_patient id db) → first.2 = db) ∧
  (get_patient id db = None →
     ∃ p, first.1 = Returned p ∧ get_patient id first.2 = Some p ∧
          patient_id p = id ∧ is_active p = true ∧ last_data_received p = None ∧
          data_ingestions first.2 = data_ingestions db ∧
          ∀ id', id' ≠ id → get_patient id' first.2 = get_patient id' db).
Proof.
  intros id first second.
  assert (Hfirst : is_Some (get_patient id first.2)).
  { subst first. unfold create_patient. fold id.
    destruct (get_patient id db) as [q|] eqn:Hq; cbn [snd]; [by rewrite Hq|].
    destruct db as [ps rows]. cbn [patients data_ingestions] in *.
    rewrite get_patient_app, Hq. cbn [patient_id].
    rewrite decide_True by done. eauto. }
  assert (Hsecond : (∃ msg, second.1 = Raised (ValueError msg)) ∧ second.2 = first.2).
  { subst second. unfold create_patient. fold id. destruct Hfirst as [q ->].
    split; [by eexists|done]. }
  destruct Hsecond as [Hmsg Hsame]. split; [exact Hmsg|]. split; [exact Hsame|].
  subst first. unfold create_patient. fold id. split.
  - intros [q ->]. done.
  - intros Hnone. rewrite Hnone. cbn [fst snd]. eexists. split; [reflexivity|].
    destruct db as [ps rows]. cbn [patients data_ingestions] in *.
    rewrite get_patient_app, Hnone. cbn [patient_id].
    rewrite decide_True by done. repeat split; try done.
    intros id' Hne. rewrite get_patient_app. cbn [patient_id].
    destruct (get_patient id' _); [done|]. by rewrite decide_False.
Qed.

End PatientProperties.

Lemma create_patient_once_witness :
  Services.get_patient "P002" (Services.mkSession [sample_patient] []) = None ∧
  ∃ p,
    (ServicesMore.create_patient
       (ServicesMore.mkPatientCreate "P002" "Grace" 35%Z "POD-2" "M-1" 0%Z)
       (Services.mkSession [sample_patient] [])).1 = Returned p ∧
    Services.patient_id p = "P002".
Proof.
  split; [reflexivity|].
  destruct (create_patient_once
              (ServicesMore.mkPatientCreate "P002" "Grace" 35%Z "POD-2" "M-1" 0%Z)
              (Services.mkSession [sample_patient] []))
    as (_ & _ & _ & Hnew).
  destruct (Hnew eq_refl) as (p & Hp & _ & Hid & _). by exists p.
Defined.

Section IngestProperties.
Import Services ServicesMore.
Context `{Externals}.

Lemma set_last_data_received_id (timestamp : datetime) (p : Patient) :
  patient_id (set_last_data_received timestamp p) = patient_id p.
Proof. reflexivity. Qed.

(** What [ingest_data] does to the service, in each of its outcomes. *)
Lemma ingest_data_effect (utcnow : datetime) (pid : string) (timestamp : datetime)
    (data : ndarray) (self : DataIngestionService) :
  let after := ingest_data utcnow pid timestamp data self in
  ((∃ e, after.1 = Raised e) ∧ after.2 = self) ∨
  (∃ p n r,
     get_patient pid (db self) = Some p ∧ shape data = [21%Z; n] ∧
     _process_eeg_data data = Returned r ∧
     after.1 = Returned (mkIngestResult "success" (pr_anomaly_count r) (pr_adr_mean r) n) ∧
     patients (db after.2)
       = update_first pid (set_last_data_received timestamp) (patients (db self)) ∧
     data_ingestions (db after.2)
       = data_ingestions (db self)
         ++ [mkDataIngestion pid timestamp 21 n (pr_anomaly_count r) (Some (pr_adr_mean r))] ∧
     notification_accumulator after.2
       = <[pid := default [] (notification_accumulator self !! pid)
                  ++ [mkNotification utcnow (pr_anomaly_count r) (pr_adr_mean r)
                                     (pr_total_samples r)]]>
           (notification_accumulator self) ∧
     active_streams after.2 = active_streams self ∧ threads after.2 = threads self).
Proof.
  intros after. subst after. unfold ingest_data.
  destruct (get_patient pid (db self)) as [p|] eqn:Hp; [|left; by eauto].
  destruct (decide (length (shape data) ≠ 2%nat)) as [|Hlen]; [left; by eauto|].
  destruct (decide (shape data !! 0%nat ≠ Some 21%Z)) as [|Hch]; [left; by eauto|].
  destruct (_process_eeg_data data) as [r|e] eqn:Hr; [|left; by eauto].
  right. destruct (shape data) as [|c [|n [|? ?]]] eqn:Hshape; cbn in Hlen; try lia.
  assert (c = 21%Z) as ->.
  { cbn in Hch. destruct (decide (c = 21%Z)); [done|]. destruct Hch. congruence. }
  exists p, n, r. cbn [fst snd lookup list_lookup default from_option id].
  split; [done|]. split; [done|]. split; [done|]. split; [done|].
  unfold _add_to_notification_buffer, set_db, update_last_data_received, db_add.
  cbn [db patients data_ingestions notification_accumulator active_streams threads].
  assert (Hp' : get_patient pid
                  (mkSession (patients (db self))
                     (data_ingestions (db self)
                      ++ [mkDataIngestion pid timestamp 21 n (pr_anomaly_count r)
                            (Some (pr_adr_mean r))])) = Some p) by exact Hp.
  rewrite Hp'. cbn [patients data_ingestions].
  split; [done|]. split; [done|]. split; [|done].
  destruct (notification_accumulator self !! pid) as [l|] eqn:Hacc.
  - rewrite decide_True by eauto. cbn [default from_option id].
    apply map_eq. intros k. destruct (decide (k = pid)) as [->|Hk].
    + by rewrite lookup_alter_eq, lookup_insert_eq, Hacc.
    + by rewrite lookup_alter_ne, lookup_insert_ne.
  - rewrite decide_False by (by intros [? ?]). cbn [default from_option id].
    apply map_eq. intros k. destruct (decide (k = pid)) as [->|Hk].
    + by rewrite lookup_alter_eq, !lookup_insert_eq.
    + by rewrite lookup_alter_ne, !lookup_insert_ne.
Qed.

Lemma get_patient_session (id : string) (db : Session) (rows : list DataIngestion) :
  get_patient id db = get_patient id (mkSession (patients db) rows).
Proof. reflexivity. Qed.

(** X5.  A successful [ingest_data], for a known patient and
    21-channel data that the processing pipeline accepts, returns the
    success dict with the anomaly count, the ADR mean and the number of
    samples, appends exactly one ingestion row with those values, stamps
    the patient with the timestamp, and appends one notification to the
    patient's buffer. *)
Theorem ingest_data_success (utcnow : datetime) (pid : string) (timestamp : datetime)
    (data : ndarray) (self : DataIngestionService) (p : Patient) (n : Z)
    (r : ProcessingResults) :
  get_patient pid (db self) = Some p → shape data = [21%Z; n] →
  _process_eeg_data data = Returned r →
  let after := ingest_data utcnow pid timestamp data self in
  after.1 = Returned (mkIngestResult "success" (pr_anomaly_count r) (pr_adr_mean r) n) ∧
  data_ingestions (db after.2)
    = data_ingestions (db self)
      ++ [mkDataIngestion pid timestamp 21 n (pr_anomaly_count r) (Some (pr_adr_mean r))] ∧
  get_patient pid (db after.2) = Some (set_last_data_received timestamp p) ∧
  (get_accumulated_notifications pid true after.2).1
    = (get_accumulated_notifications pid false self).1
      ++ [mkNotification utcnow (pr_anomaly_count r) (pr_adr_mean r) (pr_total_samples r)].
Proof.
  intros Hp Hshape Hr after.
  destruct (ingest_data_effect utcnow pid timestamp data self)
    as [[[e He] _]|(p' & n' & r' & Hp' & Hshape' & Hr' & Hres & Hps & Hrows & Hacc & _)];
    subst after; set (after := ingest_data utcnow pid timestamp data self) in *.
  { exfalso. subst after. unfold ingest_data in He.
    rewrite Hp, Hshape in He. cbn in He. rewrite Hr in He. discriminate. }
  assert (p' = p) as -> by congruence. assert (n' = n) as -> by congruence.
  assert (r' = r) as -> by congruence.
  split; [exact Hres|]. split; [exact Hrows|]. split.
  - rewrite (get_patient_session pid (db after.2) []), Hps.
    rewrite (get_patient_update_first pid pid _ _ (data_ingestions (db self)))
      by apply set_last_data_received_id.
    rewrite decide_True by done. rewrite <- get_patient_session, Hp. done.
  - unfold get_accumulated_notifications. rewrite Hacc, lookup_insert_eq.
    cbn [andb]. rewrite bool_decide_eq_true_2 by eauto. done.
Qed.

(** X6.  Whatever [ingest_data] does for one patient, failed or not, it
    leaves every other patient as it was: the patient row, the summary
    computed at any time, the notification buffer, and the table of active
    streams. *)
Theorem ingest_data_other_patient (utcnow : datetime) (pid pid' : string)
    (timestamp : datetime) (data : ndarray) (self : DataIngestionService) :
  pid' ≠ pid →
  let after := ingest_data utcnow pid timestamp data self in
  get_patient pid' (db after.2) = get_patient pid' (db self) ∧
  (∀ now, get_patient_summary now pid' (db after.2)
          = get_patient_summary now pid' (db self)) ∧
  notification_accumulator after.2 !! pid' = notification_accumulator self !! pid' ∧
  active_streams after.2 = active_streams self.
Proof.
  intros Hne after.
  destruct (ingest_data_effect utcnow pid timestamp data self)
    as [[_ Hsame]|(p & n & r & _ & _ & _ & _ & Hps & Hrows & Hacc & Hstreams & _)];
    subst after; set (after := ingest_data utcnow pid timestamp data self) in *.
  { by rewrite Hsame. }
  assert (Hget : get_patient pid' (db after.2) = get_patient pid' (db self)).
  { rewrite (get_patient_session pid' (db after.2) []), Hps.
    rewrite (get_patient_update_first pid pid' _ _ (data_ingestions (db self)))
      by apply set_last_data_received_id.
    rewrite decide_False by done. by rewrite <- get_patient_session. }
  assert (Hrecent : ∀ cutoff, recent_data cutoff pid' (db after.2)
                              = recent_data cutoff pid' (db self)).
  { intros cutoff. unfold recent_data. rewrite Hrows, filter_app, filter_cons, filter_nil.
    cbn [di_patient_id]. rewrite decide_False by (intros [? _]; congruence).
    by rewrite app_nil_r. }
  split; [exact Hget|]. split.
  - intros now. unfold get_patient_summary, _get_recent_statistics.
    by rewrite Hget, Hrecent.
  - split; [|exact Hstreams]. by rewrite Hacc, lookup_insert_ne.
Qed.

(** X7.  Patient ids stay unique: if no two patients of the database
    share an id, that is still so after [create_patient] and after
    [ingest_data], whatever their arguments and outcome. *)
Theorem patient_ids_stay_unique :
  (∀ (patient_data : PatientCreate) (db : Session),
     NoDup (patient_id <$> patients db) →
     NoDup (patient_id <$> patients (create_patient patient_data db).2)) ∧
  (∀ utcnow pid timestamp data (self : DataIngestionService),
     NoDup (patient_id <$> patients (db self)) →
     NoDup (patient_id <$> patients (db (ingest_data utcnow pid timestamp data self).2))).
Proof.
  split.
  - intros patient_data db Hnd. unfold create_patient.
    destruct (get_patient (pc_patient_id patient_data) db) as [q|] eqn:Hq; [done|].
    cbn [snd patients]. rewrite fmap_app. apply NoDup_app. split; [done|]. split.
    + intros x Hx Hx'. cbn in Hx'. apply list_elem_of_singleton in Hx' as ->.
      by apply get_patient_None in Hq.
    + cbn. apply NoDup_singleton.
  - intros utcnow pid timestamp data self Hnd.
    destruct (ingest_data_effect utcnow pid timestamp data self)
      as [[_ ->]|(p & n & r & _ & _ & _ & _ & -> & _)]; [done|].
    by rewrite update_first_ids by apply set_last_data_received_id.
Qed.

End IngestProperties.

Lemma ingest_data_success_witness :
  Services.get_patient "P001" (Services.db sample_service) = Some sample_patient ∧
  (Services.ingest_data (H := sample_externals) 7%Z "P001" 5%Z sample_array sample_service).1
  = Returned (Services.mkIngestResult "success" 0 1 1280).
Proof.
  split; [reflexivity|].
  apply (ingest_data_success (H := sample_externals) 7%Z "P001" 5%Z sample_array
           sample_service sample_patient 1280%Z
           (Services.mkProcessingResults 1 0
              (Utils.model_binary_example 21 1280 []) 1280)); reflexivity.
Defined.

Lemma ingest_data_other_patient_witness :
  "P002" ≠ "P001" ∧
  Services.get_patient "P002"
    (Services.db
       (Services.ingest_data (H := sample_externals) 7%Z "P001" 5%Z sample_array
          sample_service).2)
  = Services.get_patient "P002" (Services.db sample_service).
Proof.
  split; [discriminate|].
  apply (ingest_data_other_patient (H := sample_externals) 7%Z "P001" "P002" 5%Z
           sample_array sample_service). discriminate.
Defined.

Lemma patient_ids_stay_unique_witness :
  NoDup (Services.patient_id <$> Services.patients (Services.db sample_service)) ∧
  NoDup (Services.patient_id <$>
           Services.patients
             (Services.db
                (Services.ingest_data (H := sample_externals) 7%Z "P001" 5%Z sample_array
                   sample_service).2)).
Proof.
  assert (Hnd : NoDup (Services.patient_id <$>
                         Services.patients (Services.db sample_service))).
  { cbn. apply NoDup_singleton. }
  split; [exact Hnd|].
  apply (proj2 (patient_ids_stay_unique (H := sample_externals))). exact Hnd.
Defined.

Section BufferAndStreamProperties.
Import Services ServicesMore.

(** X8.  [get_accumulated_notifications] with [clear_buffer=True] returns
    the buffered notifications of the patient, the empty list for a patient
    without buffer, and empties that buffer, so the next read returns
    nothing; with [clear_buffer=False] it returns the same list and changes
    nothing.  A patient without buffer gets none by reading, and no other
    patient's buffer is touched. *)
Theorem get_accumulated_notifications_clears (pid : string) (self : DataIngestionService) :
  let read := get_accumulated_notifications pid true self in
  read.1 = default [] (notification_accumulator self !! pid) ∧
  (∀ clear_buffer, (get_accumulated_notifications pid clear_buffer read.2).1 = []) ∧
  get_accumulated_notifications pid false self = (read.1, self) ∧
  (notification_accumulator self !! pid = None → read.2 = self) ∧
  (∀ pid', pid' ≠ pid →
     notification_accumulator read.2 !! pid' = notification_accumulator self !! pid').
Proof.
  intros read. subst read. unfold get_accumulated_notifications. cbn [andb].
  destruct (notification_accumulator self !! pid) as [l|] eqn:Hl.
  - rewrite bool_decide_eq_true_2 by eauto. cbn [fst snd notification_accumulator].
    split; [done|]. split.
    + intros clear_buffer. rewrite lookup_insert_eq.
      by destruct (clear_buffer && _).
    + split; [done|]. split; [done|]. intros pid' Hne. by rewrite lookup_insert_ne.
  - rewrite bool_decide_eq_false_2 by (by intros [? ?]). cbn [fst snd].
    split; [done|]. split.
    + intros clear_buffer. rewrite Hl. by destruct (clear_buffer && _).
    + done.
Qed.


End BufferAndStreamProperties.


Section StatisticsMoreProperties.
Import Services ServicesMore.
Context `{Externals}.

Lemma Zsum_Permutation (l1 l2 : list Z) : l1 ≡ₚ l2 → Zsum l1 = Zsum l2.
Proof.
  induction 1 as [|x l1 l2 _ IH|x y l|l1 l2 l3 _ IH1 _ IH2]; cbn [Zsum foldr] in *;
    unfold Zsum in *; lia.
Qed.

Lemma data_records_Permutation (pid : string) (a b : datetime) (s : Session) :
  data_records pid a b s ≡ₚ rows_in_range pid a b s.
Proof. unfold data_records, rows_in_range. apply merge_sort_Permutation. Qed.

Lemma rows_in_range_backwards (pid : string) (a b : datetime) (s : Session) :
  (b < a)%Z → rows_in_range pid a b s = [].
Proof.
  intros Hlt. unfold rows_in_range. induction (data_ingestions s) as [|d l IH]; [done|].
  rewrite filter_cons, decide_False by lia. exact IH.
Qed.

Lemma compute_statistics_no_rows (pid : string) (a b : datetime) (metrics : list string)
    (s : Session) :
  rows_in_range pid a b s = [] →
  compute_statistics pid a b metrics s
  = mkStatistics (Some "No data available for the specified time range") None None None.
Proof.
  intros Hrows. unfold compute_statistics.
  pose proof (data_records_Permutation pid a b s) as Hperm. rewrite Hrows in Hperm.
  apply Permutation_nil_r in Hperm. by rewrite Hperm.
Qed.

(** X10.  When the time range holds rows of the patient,
    [compute_statistics] reports under ["anomalies"], if asked for, the
    sum of the anomaly counts, the sum of the sample counts, their quotient
    as rate (0 when there is no sample) and the number of rows; a metric
    that was not asked for is absent from the answer. *)
Theorem compute_statistics_anomalies (pid : string) (a b : datetime)
    (metrics : list string) (s : Session) :
  let rows := rows_in_range pid a b s in
  let total_anomalies' := Zsum (di_anomaly_count <$> rows) in
  let total_samples' := Zsum (di_samples <$> rows) in
  rows ≠ [] →
  ("anomalies" ∈ metrics →
     anomalies (compute_statistics pid a b metrics s)
     = Some (mkAnomalyStats total_anomalies' total_samples'
               (if decide (0 < total_samples')%Z
                then (inject_Z total_anomalies' / inject_Z total_samples')%Q else 0%Q)
               (length rows))) ∧
  ("anomalies" ∉ metrics → anomalies (compute_statistics pid a b metrics s) = None) ∧
  ("adr" ∉ metrics → adr (compute_statistics pid a b metrics s) = None).
Proof.
  intros rows total_anomalies' total_samples' Hne.
  pose proof (data_records_Permutation pid a b s) as Hperm. fold rows in Hperm.
  unfold compute_statistics.
  destruct (data_records pid a b s) as [|d l] eqn:Hrec.
  { apply Permutation_nil_l in Hperm. by destruct Hne. }
  cbn [anomalies adr]. split; [|split].
  - intros Hin. rewrite decide_True by done.
    subst total_anomalies' total_samples'.
    rewrite <- (Zsum_Permutation _ _ (fmap_Permutation di_anomaly_count _ _ Hperm)).
    rewrite <- (Zsum_Permutation _ _ (fmap_Permutation di_samples _ _ Hperm)).
    by rewrite <- (Permutation_length Hperm).
  - intros Hout. by rewrite decide_False.
  - intros Hout. by rewrite decide_False.
Qed.

End StatisticsMoreProperties.

Lemma compute_statistics_anomalies_witness :
  ServicesMore.rows_in_range "P001" 0%Z 500%Z
    (Services.mkSession [sample_patient] [sample_row 200 3; sample_row 100 1]%Z) ≠ [] ∧
  Services.anomalies
    (Services.compute_statistics (H := sample_externals) "P001" 0%Z 500%Z ["anomalies"]
       (Services.mkSession [sample_patient] [sample_row 200 3; sample_row 100 1]%Z))
  = Some (Services.mkAnomalyStats 4 2560 (inject_Z 4 / inject_Z 2560)%Q 2).
Proof.
  split; [by vm_compute|].
  apply (proj1 (compute_statistics_anomalies (H := sample_externals) "P001" 0%Z 500%Z
                  ["anomalies"]
                  (Services.mkSession [sample_patient] [sample_row 200 3; sample_row 100 1]%Z)
                  ltac:(by vm_compute))).
  apply (bool_decide_unpack _). by vm_compute.
Defined.

Section ApiProperties.
Import Services ServicesMore.
Context `{Externals}.

(** X11.  The statistics endpoint answers 400 exactly when the whole
    days between start and end exceed 7, that is when the range is 8 days
    or longer: a range of 7 days and 23 hours is served.  A range whose end
    lies before its start is served too, with the no-data message. *)
Theorem compute_statistics_range_limit (pid : string) (a b : datetime)
    (metrics : list string) (s : Session) :
  ((Api.eight_days <= b - a)%Z →
     Api.compute_statistics pid a b metrics s
     = Api.HTTPException 400 "Time range cannot exceed 7 days") ∧
  ((b - a < Api.eight_days)%Z →
     Api.compute_statistics pid a b metrics s
     = Api.Ok (Api.mkStatisticsResponse pid a b (compute_statistics pid a b metrics s))) ∧
  ((b < a)%Z →
     Api.compute_statistics pid a b metrics s
     = Api.Ok (Api.mkStatisticsResponse pid a b
                 (mkStatistics (Some "No data available for the specified time range")
                               None None None))).
Proof.
  unfold Api.compute_statistics, Api.days, Api.eight_days.
  assert (Hdays : ∀ d : Z, (7 < d `div` (86400 * 1000000) ↔ 8 * 86400 * 1000000 <= d)%Z).
  { intros d. pose proof (Z.div_mod d (86400 * 1000000) ltac:(lia)).
    pose proof (Z.mod_pos_bound d (86400 * 1000000) ltac:(lia)). lia. }
  split; [|split].
  - intros Hlong. by rewrite decide_True by (by apply Hdays).
  - intros Hshort. rewrite decide_False; [done|]. rewrite Hdays. lia.
  - intros Hback. rewrite decide_False by (rewrite Hdays; lia).
    by rewrite compute_statistics_no_rows by (by apply rows_in_range_backwards).
Qed.

(** X12.  The trends endpoint answers 400 for more than 168 hours.  For
    at most 168 hours it serves the ADR and anomaly statistics of the
    window that starts [hours] hours before now, provided that start is a
    datetime, and answers 500 otherwise.  A negative number of hours is
    accepted: the window is then empty and the answer carries the no-data
    message. *)
Theorem get_patient_trends_hours (utcnow : datetime) (pid : string) (hours' : Z)
    (s : Session) :
  ((168 < hours')%Z →
     Api.get_patient_trends utcnow pid hours' s
     = Api.HTTPException 400 "Hours cannot exceed 168 (7 days)") ∧
  ((hours' <= 168)%Z → Api.representable (utcnow - hours hours') →
     Api.get_patient_trends utcnow pid hours' s
     = Api.Ok (Api.mkTrendsResponse pid hours' (isoformat utcnow)
                 (compute_statistics pid (utcnow - hours hours')%Z utcnow
                    ["adr"; "anomalies"] s))) ∧
  ((hours' <= 168)%Z → ¬ Api.representable (utcnow - hours hours') →
     Api.get_patient_trends utcnow pid hours' s
     = Api.HTTPException 500 "Failed to get trends") ∧
  ((hours' < 0)%Z → Api.representable (utcnow - hours hours') →
     Api.get_patient_trends utcnow pid hours' s
     = Api.Ok (Api.mkTrendsResponse pid hours' (isoformat utcnow)
                 (mkStatistics (Some "No data available for the specified time range")
                               None None None))).
Proof.
  unfold Api.get_patient_trends, get_recent_trends. split; [|split; [|split]].
  - intros Hbig. by rewrite decide_True.
  - intros Hok Hrep. rewrite decide_False by lia. by rewrite decide_True.
  - intros Hok Hrep. rewrite decide_False by lia. by rewrite decide_False.
  - intros Hneg Hrep. rewrite decide_False by lia. rewrite decide_True by done.
    rewrite compute_statistics_no_rows; [done|].
    apply rows_in_range_backwards. unfold hours. lia.
Qed.

Lemma np_array_rectangular (rows : list (list Q)) :
  (∀ r1 r2, r1 ∈ rows → r2 ∈ rows → length r1 = length r2) →
  ∃ arr, Api.np_array rows = Returned arr ∧
         (rows = [] → shape arr = [0%Z]) ∧
         (rows ≠ [] → ∃ m, shape arr = [Z.of_nat (length rows); m]).
Proof.
  intros Hrect. destruct rows as [|row rest]; cbn [Api.np_array].
  - eexists. split; [done|]. split; [done|]. by intros [].
  - assert (Hall : forallb (λ r, Nat.eqb (length r) (length row)) rest = true).
    { apply forallb_forall. intros r Hr%list_elem_of_In.
      apply Nat.eqb_eq. apply Hrect; [by right|by left]. }
    rewrite Hall. eexists. split; [done|]. split; [done|]. intros _. by eexists.
Qed.

Lemma np_array_ragged (rows : list (list Q)) (r1 r2 : list Q) :
  r1 ∈ rows → r2 ∈ rows → length r1 ≠ length r2 →
  ∃ msg, Api.np_array rows = Raised (ValueError msg).
Proof.
  intros H1 H2 Hne. destruct rows as [|row rest]; [by apply elem_of_nil in H1|].
  cbn [Api.np_array].
  destruct (forallb (λ r, Nat.eqb (length r) (length row)) rest) eqn:Hall; [|by eexists].
  exfalso. rewrite forallb_forall in Hall.
  assert (Hlen : ∀ r, r ∈ row :: rest → length r = length row).
  { intros r [->|Hr]%elem_of_cons; [done|].
    apply Nat.eqb_eq, Hall. by apply list_elem_of_In. }
  apply Hne. by rewrite (Hlen r1), (Hlen r2).
Qed.

Lemma ingest_data_shape_error (utcnow : datetime) (pid : string) (timestamp : datetime)
    (data : ndarray) (self : DataIngestionService) :
  length (shape data) ≠ 2%nat ∨ shape data !! 0%nat ≠ Some 21%Z →
  ∃ msg, ingest_data utcnow pid timestamp data self = (Raised (ValueError msg), self).
Proof.
  intros Hbad. unfold ingest_data.
  destruct (get_patient pid (db self)); [|by eauto].
  destruct (decide (length (shape data) ≠ 2%nat)); [by eauto|].
  destruct (decide (shape data !! 0%nat ≠ Some 21%Z)); [by eauto|].
  destruct Hbad; contradiction.
Qed.

(** X13.  The ingestion endpoint answers 400 and keeps the service
    unchanged when the JSON array does not have 21 rows or its rows differ
    in length; for well-formed rows and an unknown patient the answer is
    400 with the detail [Patient <id> not found]. *)
Theorem ingest_eeg_data_bad_request (utcnow : datetime) (pid : string)
    (timestamp : datetime) (rows : list (list Q)) (service : DataIngestionService) :
  (length rows ≠ 21%nat ∨ (∃ r1 r2, r1 ∈ rows ∧ r2 ∈ rows ∧ length r1 ≠ length r2) →
     ∃ detail,
       Api.ingest_eeg_data utcnow pid timestamp rows service
       = (Api.HTTPException 400 detail, service)) ∧
  (get_patient pid (db service) = None →
     (∀ r1 r2, r1 ∈ rows → r2 ∈ rows → length r1 = length r2) →
     Api.ingest_eeg_data utcnow pid timestamp rows service
     = (Api.HTTPException 400 ("Patient " +:+ pid +:+ " not found"), service)).
Proof.
  split.
  - intros Hbad. unfold Api.ingest_eeg_data.
    destruct (Api.np_array rows) as [arr|e] eqn:Harr.
    + destruct (ingest_data_shape_error utcnow pid timestamp arr service) as [msg ->];
        [|by eexists].
      destruct Hbad as [Hlen|(r1 & r2 & H1 & H2 & Hne)].
      * destruct rows as [|row rest]; cbn [Api.np_array] in Harr.
        -- injection Harr as <-. by left.
        -- destruct (forallb _ rest); [|done]. injection Harr as <-.
           right. cbn. intros [=]. cbn in Hlen. lia.
      * destruct (np_array_ragged rows r1 r2 H1 H2 Hne) as [msg Hmsg]. congruence.
    + destruct rows as [|row rest]; cbn [Api.np_array] in Harr; [done|].
      destruct (forallb _ rest); [done|]. injection Harr as <-. by eexists.
  - intros Hnone Hrect. unfold Api.ingest_eeg_data.
    destruct (np_array_rectangular rows Hrect) as (arr & -> & _).
    unfold ingest_data. by rewrite Hnone.
Qed.

End ApiProperties.

Lemma compute_statistics_range_limit_witness :
  (Api.eight_days <= 700000000000 - 0)%Z ∧
  Api.compute_statistics (H := sample_externals) "P001" 0%Z 700000000000%Z ["adr"]
    (Services.mkSession [sample_patient] [])
  = Api.HTTPException 400 "Time range cannot exceed 7 days".
Proof.
  split; [by vm_compute|].
  apply (proj1 (compute_statistics_range_limit (H := sample_externals) "P001" 0%Z
                  700000000000%Z ["adr"] (Services.mkSession [sample_patient] []))).
  by vm_compute.
Defined.

Lemma get_patient_trends_hours_witness :
  (-3 < 0)%Z ∧
  Api.representable (63900000000000000 - Services.hours (-3)) ∧
  Api.get_patient_trends (H := sample_externals) 63900000000000000%Z "P001" (-3)%Z
    (Services.mkSession [sample_patient] [sample_row 100 1])
  = Api.Ok (Api.mkTrendsResponse "P001" (-3) "63900000000000000"
              (Services.mkStatistics (Some "No data available for the specified time range")
                                     None None None)).
Proof.
  assert (Hrep : Api.representable (63900000000000000 - Services.hours (-3))).
  { split; by vm_compute. }
  split; [lia|]. split; [exact Hrep|].
  apply (proj2 (proj2 (proj2 (get_patient_trends_hours (H := sample_externals)
                  63900000000000000%Z "P001" (-3)%Z
                  (Services.mkSession [sample_patient] [sample_row 100 1]))))).
  - lia.
  - exact Hrep.
Defined.

Lemma ingest_eeg_data_bad_request_witness :
  length [[1%Q; 2%Q]; [3%Q; 4%Q]] ≠ 21%nat ∧
  ∃ detail,
    Api.ingest_eeg_data (H := sample_externals) 7%Z "P001" 5%Z [[1%Q; 2%Q]; [3%Q; 4%Q]]
      sample_service
    = (Api.HTTPException 400 detail, sample_service).
Proof.
  split; [cbn; lia|].
  apply (proj1 (ingest_eeg_data_bad_request (H := sample_externals) 7%Z "P001" 5%Z
                  [[1%Q; 2%Q]; [3%Q; 4%Q]] sample_service)).
  left. cbn. lia.
Defined.

Section WorkflowMoreProperties.
Import PyStr Workflow.
Context `{Runtime}.

Lemma node_action_log (n : Node) (state : WorkflowState) :
  n ≠ END →
  length (processing_log (node_action n state)) = S (length (processing_log state)).
Proof.
  intros Hn. destruct n; try done; cbn [node_action];
    unfold analyze_ticket, determine_customer_tier, route_by_urgency, assign_team,
      check_escalation, generate_response, escalate_to_human, auto_resolve;
    cbn [processing_log log]; rewrite length_app; cbn [length];
    repeat match goal with |- context [if ?b then _ else _] => destruct b end;
    cbn [processing_log set_urgency set_category set_customer_tier set_assigned_team
         set_escalated set_final_response]; lia.
Qed.

Lemma node_action_assigned_team (n : Node) (state : WorkflowState) :
  n ≠ N_assign_team → n ≠ N_auto_resolve →
  assigned_team (node_action n state) = assigned_team state.
Proof. by destruct n. Qed.

(** X14.  [assign_team] always assigns one of the four teams billing,
    support_l1, support_l2 and engineering.  An enterprise customer never
    gets support_l1, a billing ticket always goes to billing, a technical
    ticket of high urgency to support_l2, and everything else outside
    those cases to support_l1. *)
Theorem assign_team_rules (state : WorkflowState) :
  let team := assigned_team (assign_team state) in
  team ∈ ["billing"; "support_l1"; "support_l2"; "engineering"] ∧
  (customer_tier state = "enterprise" → team ≠ "support_l1") ∧
  (category state = "billing" → team = "billing") ∧
  (category state = "technical" → urgency state = "high" → team = "support_l2") ∧
  (customer_tier state ≠ "enterprise" → category state ≠ "billing" →
   ¬ (category state = "technical" ∧ urgency state = "high") → team = "support_l1").
Proof.
  unfold assign_team. cbn [assigned_team log set_assigned_team].
  repeat case_decide; repeat split; intros; rewrite ?elem_of_cons;
    try (intuition congruence); auto 10.
Qed.

(** X15.  [determine_customer_tier] looks only at the lower-cased
    ticket text: an enterprise keyword makes the tier enterprise whatever
    else the text contains; without one, a pro keyword makes it pro; in all
    other cases it is basic, so the basic keywords never change the result.
    The ticket text and the urgency are left alone. *)
Theorem determine_customer_tier_rules (state : WorkflowState) :
  let text := lower (ticket_content state) in
  let has := fun keywords => existsb (fun keyword => contains keyword text) keywords in
  let tier := customer_tier (determine_customer_tier state) in
  (has ["enterprise"; "business"; "company"; "organization"] = true → tier = "enterprise") ∧
  (has ["enterprise"; "business"; "company"; "organization"] = false →
   has ["pro"; "professional"; "premium"] = true → tier = "pro") ∧
  (has ["enterprise"; "business"; "company"; "organization"] = false →
   has ["pro"; "professional"; "premium"] = false → tier = "basic") ∧
  ticket_content (determine_customer_tier state) = ticket_content state ∧
  urgency (determine_customer_tier state) = urgency state.
Proof.
  intros text has tier. subst tier has. unfold determine_customer_tier.
  cbn [customer_tier log set_customer_tier ticket_content urgency].
  fold text. unfold tier_keywords. cbn [find_tier].
  split; [by intros ->|]. split; [by intros -> ->|]. split; [|done].
  intros -> ->. by destruct (existsb _ ["basic"; "free"; "trial"]).
Qed.

(** Every run of the graph from the initial state of a ticket ends, along
    one of four paths. *)
Lemma workflow_ainvoke_routes (ticket : string) :
  ∃ final path,
    workflow_ainvoke (initial_state ticket) = Returned (final, path) ∧
    length (processing_log final) = length path ∧
    ticket_content final = ticket ∧
    ((urgency final = "critical" ∧ escalated final = false ∧
      assigned_team final = EmptyString ∧
      path = [N_analyze_ticket; N_determine_customer_tier; N_route_by_urgency;
              N_escalate_to_human]) ∨
     (urgency final = "low" ∧ escalated final = false ∧
      assigned_team final = "auto_resolved" ∧
      final_response final = auto_responses (category final) ∧
      path = [N_analyze_ticket; N_determine_customer_tier; N_route_by_urgency;
              N_auto_resolve]) ∨
     ((urgency final = "high" ∨ urgency final = "medium") ∧ escalated final = true ∧
      path = [N_analyze_ticket; N_determine_customer_tier; N_route_by_urgency;
              N_assign_team; N_check_escalation; N_escalate_to_human]) ∨
     ((urgency final = "high" ∨ urgency final = "medium") ∧ escalated final = false ∧
      path = [N_analyze_ticket; N_determine_customer_tier; N_route_by_urgency;
              N_assign_team; N_check_escalation; N_generate_response])).
Proof.
  unfold workflow_ainvoke, recursion_limit.
  pose proof (analyze_ticket_urgency (initial_state ticket)) as Hurg.
  assert (Hesc1 : escalated (analyze_ticket (initial_state ticket)) = false) by reflexivity.
  assert (Htc1 : ticket_content (analyze_ticket (initial_state ticket)) = ticket)
    by reflexivity.
  assert (Hteam1 : assigned_team (analyze_ticket (initial_state ticket)) = EmptyString)
    by reflexivity.
  assert (Hlog1 : length (processing_log (analyze_ticket (initial_state ticket))) = 1%nat)
    by reflexivity.
  change (analyze_ticket (initial_state ticket))
    with (node_action N_analyze_ticket (initial_state ticket)) in *.
  set (s0 := initial_state ticket) in *.
  set (s1 := node_action N_analyze_ticket s0) in *.
  set (s3 := node_action N_route_by_urgency (node_action N_determine_customer_tier s1)).
  assert (Hu3 : urgency s3 = urgency s1).
  { unfold s3. by rewrite !node_action_urgency. }
  assert (Ht3 : ticket_content s3 = ticket).
  { unfold s3. by rewrite !node_action_ticket_content. }
  assert (He3 : escalated s3 = false).
  { unfold s3. by rewrite !node_action_escalated. }
  assert (Hteam3 : assigned_team s3 = EmptyString).
  { unfold s3. by rewrite !node_action_assigned_team. }
  assert (Hlog3 : length (processing_log s3) = 3%nat).
  { unfold s3. by rewrite !node_action_log, Hlog1. }
  assert (Hprefix : ∀ next final path,
    urgency_targets (urgency s1) = Returned next →
    run_from 22 next s3 = Returned (final, path) →
    run_from 25 N_analyze_ticket s0
    = Returned (final, N_analyze_ticket :: N_determine_customer_tier
                         :: N_route_by_urgency :: path)).
  { intros next final path Hnext Hrest.
    apply (run_from_next _ N_analyze_ticket N_determine_customer_tier); [done|reflexivity|].
    apply (run_from_next _ N_determine_customer_tier N_route_by_urgency);
      [done|reflexivity|].
    apply (run_from_next _ N_route_by_urgency next); [done| |exact Hrest].
    cbn [successor]. unfold route_urgency_condition. fold s1 s3. by rewrite Hu3. }
  clearbody s3 s1 s0.
  assert (Hlast : ∀ n, n ≠ END → successor n (node_action n s3) = Returned END →
    run_from 22 n s3 = Returned (node_action n s3, [n])).
  { intros n Hn Hsucc. by apply run_from_last. }
  set (s4 := node_action N_assign_team s3).
  set (s5 := node_action N_check_escalation s4).
  assert (Hu5 : urgency s5 = urgency s1).
  { unfold s5, s4. by rewrite !node_action_urgency, Hu3. }
  assert (Ht5 : ticket_content s5 = ticket).
  { unfold s5, s4. by rewrite !node_action_ticket_content. }
  assert (Hlog5 : length (processing_log s5) = 5%nat).
  { unfold s5, s4. by rewrite !node_action_log, Hlog3. }
  assert (Hteams : ∀ next,
    successor N_check_escalation s5 = Returned next → next ≠ END →
    successor next (node_action next s5) = Returned END →
    run_from 22 N_assign_team s3
    = Returned (node_action next s5, [N_assign_team; N_check_escalation; next])).
  { intros next Hnext Hne Hend.
    apply (run_from_next _ N_assign_team N_check_escalation); [done|reflexivity|].
    apply (run_from_next _ N_check_escalation next); [done|exact Hnext|].
    by apply run_from_last. }
  clearbody s5.
  destruct Hurg as [Hu|[Hu|[Hu|Hu]]].
  - exists (node_action N_escalate_to_human s3). eexists. split.
    { apply (Hprefix N_escalate_to_human); [by rewrite Hu|]. by apply Hlast. }
    rewrite node_action_log, node_action_ticket_content, node_action_urgency,
      node_action_escalated, node_action_assigned_team by done.
    split; [by rewrite Hlog3|]. split; [done|]. left. by rewrite Hu3, Hu.
  - destruct (escalated s5) eqn:He5.
    + exists (node_action N_escalate_to_human s5). eexists. split.
      { apply (Hprefix N_assign_team); [by rewrite Hu|].
        apply (Hteams N_escalate_to_human); [|done|done].
        cbn [successor]. unfold escalation_condition. by rewrite He5. }
      rewrite node_action_log, node_action_ticket_content, node_action_urgency,
        node_action_escalated by done.
      split; [by rewrite Hlog5|]. split; [done|]. right. right. left.
      rewrite Hu5, Hu. by eauto.
    + exists (node_action N_generate_response s5). eexists. split.
      { apply (Hprefix N_assign_team); [by rewrite Hu|].
        apply (Hteams N_generate_response); [|done|done].
        cbn [successor]. unfold escalation_condition. by rewrite He5. }
      rewrite node_action_log, node_action_ticket_content, node_action_urgency,
        node_action_escalated by done.
      split; [by rewrite Hlog5|]. split; [done|]. right. right. right.
      rewrite Hu5, Hu. by eauto.
  - destruct (escalated s5) eqn:He5.
    + exists (node_action N_escalate_to_human s5). eexists. split.
      { apply (Hprefix N_assign_team); [by rewrite Hu|].
        apply (Hteams N_escalate_to_human); [|done|done].
        cbn [successor]. unfold escalation_condition. by rewrite He5. }
      rewrite node_action_log, node_action_ticket_content, node_action_urgency,
        node_action_escalated by done.
      split; [by rewrite Hlog5|]. split; [done|]. right. right. left.
      rewrite Hu5, Hu. by eauto.
    + exists (node_action N_generate_response s5). eexists. split.
      { apply (Hprefix N_assign_team); [by rewrite Hu|].
        apply (Hteams N_generate_response); [|done|done].
        cbn [successor]. unfold escalation_condition. by rewrite He5. }
      rewrite node_action_log, node_action_ticket_content, node_action_urgency,
        node_action_escalated by done.
      split; [by rewrite Hlog5|]. split; [done|]. right. right. right.
      rewrite Hu5, Hu. by eauto.
  - exists (node_action N_auto_resolve s3). eexists. split.
    { apply (Hprefix N_auto_resolve); [by rewrite Hu|]. by apply Hlast. }
    rewrite node_action_log, node_action_ticket_content, node_action_urgency,
      node_action_escalated by done.
    split; [by rewrite Hlog3|]. split; [done|]. right. left.
    rewrite Hu3, Hu. by eauto.
Qed.

(** X16.  Every ticket is processed to the end, within the recursion
    limit, along one of four paths, and [process_ticket] returns the fields
    of the final state.  A critical ticket goes straight to
    [escalate_to_human], with no team assigned and the [escalated] flag
    still false; a low one is auto-resolved with the canned response of
    its category; a high or medium one passes [assign_team] and
    [check_escalation] and ends in [escalate_to_human] or
    [generate_response] according to the flag.  The processing log has one
    line per node visited. *)
Theorem workflow_routes (ticket : string) :
  ∃ final path,
    workflow_ainvoke (initial_state ticket) = Returned (final, path) ∧
    process_ticket ticket
    = Returned (mkTicketResult ticket (urgency final) (category final)
                  (customer_tier final) (assigned_team final) (escalated final)
                  (final_response final) (processing_log final)) ∧
    length (processing_log final) = length path ∧
    ticket_content final = ticket ∧
    ((urgency final = "critical" ∧ escalated final = false ∧
      assigned_team final = EmptyString ∧
      path = [N_analyze_ticket; N_determine_customer_tier; N_route_by_urgency;
              N_escalate_to_human]) ∨
     (urgency final = "low" ∧ escalated final = false ∧
      assigned_team final = "auto_resolved" ∧
      final_response final = auto_responses (category final) ∧
      path = [N_analyze_ticket; N_determine_customer_tier; N_route_by_urgency;
              N_auto_resolve]) ∨
     ((urgency final = "high" ∨ urgency final = "medium") ∧ escalated final = true ∧
      path = [N_analyze_ticket; N_determine_customer_tier; N_route_by_urgency;
              N_assign_team; N_check_escalation; N_escalate_to_human]) ∨
     ((urgency final = "high" ∨ urgency final = "medium") ∧ escalated final = false ∧
      path = [N_analyze_ticket; N_determine_customer_tier; N_route_by_urgency;
              N_assign_team; N_check_escalation; N_generate_response])).
Proof.
  destruct (workflow_ainvoke_routes ticket) as (final & path & Hrun & Hrest).
  exists final, path. split; [exact Hrun|]. split; [|exact Hrest].
  unfold process_ticket. by rewrite Hrun.
Qed.

End WorkflowMoreProperties.

Section McpMoreProperties.
Import MCP.
Context {Kwargs Value : Type}.

Lemma elem_of_dict_set {V : Type} (key : string) (v : V) (d : list (string * V))
    (k : string) (w : V) :
  NoDup (fst <$> d) →
  (k, w) ∈ dict_set key v d ↔ (k = key ∧ w = v) ∨ (k ≠ key ∧ (k, w) ∈ d).
Proof.
  induction d as [|[k0 w0] d IH]; cbn [dict_set]; intros Hnd.
  - rewrite list_elem_of_singleton. split.
    + intros [= -> ->]. by left.
    + intros [[-> ->]|[_ Hin]]; [done|]. by apply elem_of_nil in Hin.
  - apply NoDup_cons in Hnd as [Hk0 Hnd]. specialize (IH Hnd).
    case_decide as Hk; subst; rewrite !elem_of_cons.
    + split.
      * intros [[= -> ->]|Hin]; [by left|]. right. split; [|by right].
        intros ->. apply Hk0. apply list_elem_of_fmap. by exists (key, w).
      * intros [[-> ->]|[Hne [[= -> ->]|Hin]]]; [by left|done|by right].
    + rewrite IH. split.
      * intros [[= -> ->]|[[-> ->]|[Hne Hin]]].
        -- right. split; [done|by left].
        -- by left.
        -- right. split; [done|by right].
      * intros [[-> ->]|[Hne [[= -> ->]|Hin]]].
        -- right. by left.
        -- by left.
        -- right. right. by split.
Qed.

Lemma dict_set_keys {V : Type} (key : string) (v : V) (d : list (string * V)) :
  (key ∈ (fst <$> d) ∧ (fst <$> dict_set key v d) = (fst <$> d)) ∨
  ((key ∉ fst <$> d) ∧ (fst <$> dict_set key v d) = (fst <$> d) ++ [key]).
Proof.
  induction d as [|[k0 w0] d IH]; cbn [dict_set].
  - right. split; [apply not_elem_of_nil|done].
  - case_decide as Hk; subst.
    + left. split; [by left|done].
    + cbn [fmap list_fmap fst]. destruct IH as [[Hin Heq]|[Hout Heq]].
      * left. split; [by right|]. by f_equal.
      * right. split; [|cbn; by f_equal].
        rewrite elem_of_cons. by intros [->|?].
Qed.

(** X17.  After [add_tool], [execute_tool] on that name runs the new
    handler: its value comes back in a success dict, its exception as a
    failure dict naming tool and server.  Every other tool name behaves as
    before, the server keeps its name, and adding a tool under a name
    twice leaves only the second registration. *)
Theorem add_tool_then_execute_tool (self : Server Kwargs Value)
    (tool_name' description' : string) (handler' : Kwargs -> outcome Value)
    (kwargs : Kwargs) :
  let self' := MCPServer.add_tool tool_name' description' handler' self in
  name self' = name self ∧
  (∀ r, handler' kwargs = Returned r →
     MCPServer.execute_tool self' tool_name' kwargs
     = Returned (mkToolResult true (Some r) None (Some tool_name') (Some (name self)))) ∧
  (∀ e, handler' kwargs = Raised e →
     MCPServer.execute_tool self' tool_name' kwargs
     = Returned (mkToolResult false None
                   (Some ("Error executing " +:+ tool_name' +:+ ": " +:+ exn_str e))
                   (Some tool_name') (Some (name self)))) ∧
  (∀ other, other ≠ tool_name' →
     MCPServer.execute_tool self' other kwargs = MCPServer.execute_tool self other kwargs) ∧
  (∀ description2 handler2,
     MCPServer.add_tool tool_name' description2 handler2 self'
     = MCPServer.add_tool tool_name' description2 handler2 self).
Proof.
  cbn zeta. unfold MCPServer.add_tool, MCPServer.execute_tool. cbn [tools name description].
  split; [done|]. rewrite lookup_insert_eq. cbn [handler].
  split; [by intros r ->|]. split; [by intros e ->|]. split.
  - intros other Hne. by rewrite lookup_insert_ne.
  - intros. by rewrite insert_insert_eq.
Qed.

(** X18.  [register_server] keeps server names unique: the registry
    then holds the given server under its name and, under every other
    name, what it held before.  Registering under a name that is already
    present replaces that server in place; a new name is listed last by
    [list_servers]. *)
Theorem register_server_names (server' : Server Kwargs Value)
    (self : Registry Kwargs Value) :
  NoDup (fst <$> servers self) →
  let self' := MCPRegistry.register_server server' self in
  NoDup (fst <$> servers self') ∧
  (∀ k s, (k, s) ∈ servers self' ↔
          (k = name server' ∧ s = server') ∨ (k ≠ name server' ∧ (k, s) ∈ servers self)) ∧
  (name server' ∈ (fst <$> servers self) →
   (fst <$> Agent.list_servers self') = (fst <$> Agent.list_servers self)) ∧
  (name server' ∉ (fst <$> servers self) →
   (fst <$> Agent.list_servers self') = (fst <$> Agent.list_servers self) ++ [name server']).
Proof.
  intros Hnd. cbn zeta. unfold MCPRegistry.register_server, Agent.list_servers.
  cbn [servers].
  assert (Hfst : ∀ d : list (string * Server Kwargs Value),
    fst <$> ((λ entry, (entry.1, description entry.2)) <$> d) = fst <$> d).
  { intros d. rewrite <- list_fmap_compose. by apply list_fmap_ext. }
  rewrite !Hfst.
  destruct (dict_set_keys (name server') server' (servers self)) as [[Hin Heq]|[Hout Heq]];
    rewrite Heq.
  - split; [done|]. split; [intros; by apply elem_of_dict_set|]. split; [done|].
    by intros [].
  - split; [|split; [intros; by apply elem_of_dict_set|split; [by intros|done]]].
    apply NoDup_app. split; [done|]. split; [|apply NoDup_singleton].
    intros k Hk ->%list_elem_of_singleton. by apply Hout.
Qed.

(** X19.  The agent's [_execute_function_call] passes its arguments on as
    keyword arguments, so a key [self] or [tool_name] among them makes it
    raise a [TypeError].  For all other arguments it returns a text and
    never raises: the value of the handler of a registered server that has
    the tool, or [Error: Error executing <tool>: <message>] when that
    handler raises, or [Error: Tool '<tool>' not found in any registered
    server] when no registered server has the tool. *)
Theorem execute_function_call_text {Arg : Type}
    (mcp_registry : Registry (gmap string Arg) string)
    (function_name : string) (arguments : gmap string Arg) :
  (is_Some (arguments !! "self") ∨ is_Some (arguments !! "tool_name") →
     ∃ msg, Agent._execute_function_call mcp_registry function_name arguments
            = Raised (OtherException msg)) ∧
  (arguments !! "self" = None → arguments !! "tool_name" = None →
   (∃ s t r, (s ∈ (snd <$> servers mcp_registry)) ∧ tools s !! function_name = Some t ∧
             handler t arguments = Returned r ∧
             Agent._execute_function_call mcp_registry function_name arguments
             = Returned r) ∨
   (∃ s t e, (s ∈ (snd <$> servers mcp_registry)) ∧ tools s !! function_name = Some t ∧
             handler t arguments = Raised e ∧
             Agent._execute_function_call mcp_registry function_name arguments
             = Returned ("Error: Error executing " +:+ function_name +:+ ": "
                         +:+ exn_str e)) ∨
   ((∀ s, s ∈ (snd <$> servers mcp_registry) → tools s !! function_name = None) ∧
    Agent._execute_function_call mcp_registry function_name arguments
    = Returned ("Error: Tool '" +:+ function_name
                +:+ "' not found in any registered server"))).
Proof.
  unfold Agent._execute_function_call, MCPRegistry.execute_tool. split.
  - intros Hkey. destruct (decide (is_Some (arguments !! "self"))); [by eauto|].
    destruct (decide (is_Some (arguments !! "tool_name"))); [by eauto|].
    by destruct Hkey.
  - intros Hself Htool. rewrite Hself, Htool.
    rewrite !decide_False by (by intros [? [=]]).
    destruct (execute_in_cases (snd <$> servers mcp_registry) function_name arguments)
      as [(s & Hs & [t Ht] & ->)|[Hnone ->]].
    + unfold MCPServer.execute_tool. rewrite Ht.
      destruct (handler t arguments) as [r|e] eqn:Hh; cbn.
      * left. by exists s, t, r.
      * right. left. by exists s, t, e.
    + right. right. by split.
Qed.

End McpMoreProperties.

Lemma register_server_names_witness :
  NoDup (fst <$> MCP.servers sample_registry) ∧
  NoDup (fst <$> MCP.servers (MCP.MCPRegistry.register_server sample_server sample_registry)).
Proof.
  assert (Hnd : NoDup (fst <$> MCP.servers sample_registry)).
  { vm_compute. apply NoDup_cons. split; [apply not_elem_of_nil|apply NoDup_nil_2]. }
  split; [exact Hnd|].
  exact (proj1 (register_server_names sample_server sample_registry Hnd)).
Defined.

Section MLOpsMoreProperties.
Import MLOps MLOpsMore.

Lemma count_severity_nonneg (sev : string) (issues' : list Issue) :
  (0 <= count_severity sev issues')%Z.
Proof. unfold count_severity. lia. Qed.

Lemma count_severity_app (sev : string) (l1 l2 : list Issue) :
  count_severity sev (l1 ++ l2) = (count_severity sev l1 + count_severity sev l2)%Z.
Proof. unfold count_severity. rewrite filter_app, length_app. lia. Qed.

Lemma count_severity_Permutation (sev : string) (l1 l2 : list Issue) :
  l1 ≡ₚ l2 → count_severity sev l1 = count_severity sev l2.
Proof. intros Hp. unfold count_severity. by rewrite Hp. Qed.

Lemma count_severity_zero (sev : string) (issues' : list Issue) :
  count_severity sev issues' = 0%Z ↔ ∀ i, i ∈ issues' → severity i ≠ sev.
Proof.
  induction issues' as [|i l IH].
  - split; [intros _ i Hi; by apply elem_of_nil in Hi|done].
  - rewrite count_severity_cons. pose proof (count_severity_nonneg sev l).
    case_decide as Hs.
    + split; [lia|]. intros Hall. destruct (Hall i); [by left|done].
    + rewrite Z.add_0_l, IH. split.
      * intros Hall j [->|Hj]%elem_of_cons; [done|by apply Hall].
      * intros Hall j Hj. apply Hall. by right.
Qed.

(** X20.  The readiness score lies between 0 and 100, never rises when
    issues are added, and does not depend on the order of the issues.  It
    is 100 exactly when no issue is critical, a warning or an info, and 0
    as soon as there are five critical issues. *)
Theorem readiness_score_bounds (issues' more : list Issue) :
  (0 <= _calculate_readiness_score issues' <= 100)%Z ∧
  (_calculate_readiness_score (issues' ++ more) <= _calculate_readiness_score issues')%Z ∧
  (∀ reordered, issues' ≡ₚ reordered →
     _calculate_readiness_score reordered = _calculate_readiness_score issues') ∧
  (_calculate_readiness_score issues' = 100%Z ↔
   ∀ i, i ∈ issues' →
        severity i ≠ "critical" ∧ severity i ≠ "warning" ∧ severity i ≠ "info") ∧
  (5 <= count_severity "critical" issues' → _calculate_readiness_score issues' = 0)%Z.
Proof.
  unfold _calculate_readiness_score. rewrite !foldl_deduct, !count_severity_app.
  pose proof (count_severity_nonneg "critical" issues').
  pose proof (count_severity_nonneg "warning" issues').
  pose proof (count_severity_nonneg "info" issues').
  pose proof (count_severity_nonneg "critical" more).
  pose proof (count_severity_nonneg "warning" more).
  pose proof (count_severity_nonneg "info" more).
  split; [lia|]. split; [lia|]. split; [|split; [|lia]].
  - intros reordered Hp. rewrite foldl_deduct.
    by rewrite !(count_severity_Permutation _ _ _ Hp).
  - split.
    + intros Hscore i Hi.
      assert (count_severity "critical" issues' = 0%Z) as Hc by lia.
      assert (count_severity "warning" issues' = 0%Z) as Hw by lia.
      assert (count_severity "info" issues' = 0%Z) as Hinf by lia.
      rewrite count_severity_zero in Hc, Hw, Hinf. auto.
    + intros Hall.
      assert (count_severity "critical" issues' = 0%Z) as ->.
      { apply count_severity_zero. intros i Hi. by apply Hall. }
      assert (count_severity "warning" issues' = 0%Z) as ->.
      { apply count_severity_zero. intros i Hi. by apply Hall. }
      assert (count_severity "info" issues' = 0%Z) as ->.
      { apply count_severity_zero. intros i Hi. by apply Hall. }
      lia.
Qed.

Lemma readiness_score_bounds_witness :
  (5 <= count_severity "critical"
          (replicate 5 (mkIssue "critical" "security" "Hardcoded password" None None)))%Z ∧
  _calculate_readiness_score
    (replicate 5 (mkIssue "critical" "security" "Hardcoded password" None None)) = 0%Z.
Proof.
  split; [by vm_compute|].
  apply (proj2 (proj2 (proj2 (proj2 (readiness_score_bounds
    (replicate 5 (mkIssue "critical" "security" "Hardcoded password" None None)) []))))).
  by vm_compute.
Defined.

Section RunProperties.
Context `{Project}.

Lemma run_check_unknown (check_type : string) (self : MLOpsChecker) :
  ¬ known_check check_type → run_check check_type self = Returned self.
Proof.
  unfold known_check, run_check. rewrite !elem_of_cons. intros Hn.
  repeat case_decide; try done; subst; exfalso; apply Hn; auto 10.
Qed.

Lemma run_each_filter (check_types : list string) (self : MLOpsChecker) :
  run_each (filter known_check check_types) self = run_each check_types self.
Proof.
  revert self. induction check_types as [|c l IH]; intros self; [done|].
  rewrite filter_cons. case_decide as Hk.
  - cbn [run_each]. destruct (run_check c self); cbn; [apply IH|done].
  - cbn [run_each]. rewrite run_check_unknown by done. cbn. apply IH.
Qed.

Lemma run_check_keeps (check_type : string) (self self' : MLOpsChecker) :
  run_check check_type self = Returned self' →
  directory_path self' = directory_path self ∧ use_ai self' = use_ai self ∧
  ai_insights self' = ai_insights self ∧ fix_plan self' = fix_plan self ∧
  ∃ new_issues new_recs, issues self' = issues self ++ new_issues ∧
                         recommendations self' = recommendations self ++ new_recs.
Proof.
  unfold run_check.
  assert (Happend : ∀ found : outcome (list Issue * list string),
    ('(new_issues, new_recs) ← found;
     mret (mkChecker (directory_path self) (issues self ++ new_issues)
             (recommendations self ++ new_recs) (use_ai self) (ai_insights self)
             (fix_plan self))) = Returned self' →
    directory_path self' = directory_path self ∧ use_ai self' = use_ai self ∧
    ai_insights self' = ai_insights self ∧ fix_plan self' = fix_plan self ∧
    ∃ new_issues new_recs, issues self' = issues self ++ new_issues ∧
                           recommendations self' = recommendations self ++ new_recs).
  { intros [[ni nr]|e]; cbn; [|done]. intros [= <-]. cbn. eauto 10. }
  repeat case_decide; try apply Happend.
  intros [= <-]. repeat split; try done. exists [], []. by rewrite !app_nil_r.
Qed.

Lemma run_each_keeps (check_types : list string) (self self' : MLOpsChecker) :
  run_each check_types self = Returned self' →
  directory_path self' = directory_path self ∧ use_ai self' = use_ai self ∧
  ai_insights self' = ai_insights self ∧ fix_plan self' = fix_plan self.
Proof.
  revert self. induction check_types as [|c l IH]; intros self; cbn [run_each].
  - by intros [= <-].
  - destruct (run_check c self) as [s1|e] eqn:E; cbn; [|done]. intros Hrest.
    apply run_check_keeps in E as (Hd & Hu & Hi & Hf & _).
    destruct (IH _ Hrest) as (-> & -> & -> & ->). done.
Qed.

(** X21.  [run_checks] starts from empty issue and recommendation lists,
    so findings of an earlier run never enter the result.  A list that
    contains ["all"] runs exactly the four checks, and otherwise unknown
    check types are skipped.  A completed run reports the issues it found
    and their readiness score; without AI the two AI keys are absent and
    the insights untouched, with AI the insights of earlier runs are kept
    and new ones appended after them. *)
Theorem run_checks_fresh_start (check_types : list string) (self : MLOpsChecker)
    (old_issues : list Issue) (old_recommendations : list string) :
  let used := mkChecker (directory_path self) old_issues old_recommendations
                        (use_ai self) (ai_insights self) (fix_plan self) in
  run_checks check_types used = run_checks check_types self ∧
  ("all" ∈ check_types →
   run_checks check_types self
   = run_checks ["dependencies"; "security"; "structure"; "deployment"] self) ∧
  ("all" ∉ check_types →
   run_checks (filter known_check check_types) self = run_checks check_types self) ∧
  (∀ result' self', run_checks check_types self = Returned (result', self') →
     status result' = "completed" ∧
     result_issues result' = issues self' ∧
     deployment_readiness result' = _calculate_readiness_score (issues self') ∧
     (use_ai self = false →
        result_ai_insights result' = None ∧ result_fix_plan result' = None ∧
        ai_insights self' = ai_insights self) ∧
     (use_ai self = true →
        ∃ new_insights, ai_insights self' = ai_insights self ++ new_insights ∧
                        result_ai_insights result' = Some (ai_insights self'))).
Proof.
  cbn zeta. split; [done|]. split; [|split].
  - intros Hall. unfold run_checks. rewrite decide_True by done.
    by rewrite decide_False by (rewrite !elem_of_cons, elem_of_nil; intuition congruence).
  - intros Hall. unfold run_checks. rewrite (decide_False (P := "all" ∈ check_types)) by done.
    rewrite decide_False.
    2:{ intros [_ ?]%list_elem_of_filter. done. }
    by rewrite run_each_filter.
  - intros result' self'. unfold run_checks.
    set (self0 := mkChecker _ [] [] _ _ _).
    destruct (run_each _ self0) as [self1|e] eqn:E; cbn [mbind outcome_bind mret outcome_ret];
      [|done].
    apply run_each_keeps in E as (Hd & Hu & Hi & Hf). cbn in Hd, Hu, Hi, Hf.
    rewrite Hu. destruct (use_ai self) eqn:Huse.
    + cbn. intros [= <- <-]. cbn. rewrite Hi. repeat split; try done. eauto.
    + cbn. intros [= <- <-]. rewrite Hu. cbn. rewrite Hi. repeat split; try done.
Qed.

End RunProperties.
End MLOpsMoreProperties.

Section MNISTMoreProperties.
Import MNIST MNISTMore.

Lemma build_transform_complete (config : TransformSpec) :
  normalize_complete config = true →
  ∃ rest, _build_transform config = Returned (ToTensor :: rest).
Proof.
  unfold normalize_complete, _build_transform.
  destruct (ts_normalize config) as [[[m|] [s|]]|]; cbn; try done; intros _;
    destruct (ts_rotation config), (ts_affine config); cbn; eauto.
Qed.

Lemma build_transform_incomplete (config : TransformSpec) :
  normalize_complete config = false →
  ∃ key, _build_transform config = Raised (OtherException key).
Proof.
  unfold normalize_complete, _build_transform.
  destruct (ts_normalize config) as [[[m|] [s|]]|]; cbn; try done; eauto.
Qed.

Section Init.
Context `{FileSystem}.


End Init.

Lemma total_count_insert (class_counts : gmap Z Z) (label count : Z) :
  total_count (<[label := count]> class_counts)
  = (total_count class_counts - default 0 (class_counts !! label) + count)%Z.
Proof.
  assert (Hfresh : ∀ (m : gmap Z Z) (k v : Z), m !! k = None →
    total_count (<[k := v]> m) = (v + total_count m)%Z).
  { intros m k v Hk. unfold total_count.
    rewrite (map_fold_insert_L _ _ _ _ m); [done| |done]. intros. cbn beta. lia. }
  destruct (class_counts !! label) as [old|] eqn:Hl; cbn [default].
  - assert (Hd : delete label class_counts !! label = None) by apply lookup_delete_eq.
    rewrite <- (insert_delete_eq class_counts label count), (Hfresh _ _ _ Hd).
    assert (total_count class_counts = (old + total_count (delete label class_counts))%Z)
      as ->; [|unfold id; lia].
    rewrite <- (Hfresh _ _ _ Hd). by rewrite insert_delete_id.
  - rewrite Hfresh by done. lia.
Qed.

Lemma count_labels_spec {Sample : Type} (dataset : list (Sample * Label))
    (labels : list Z) (class_counts : gmap Z Z) :
  (label_value ∘ snd) <$> dataset = Some <$> labels →
  ∃ class_counts',
    count_labels class_counts dataset = Returned class_counts' ∧
    total_count class_counts' = (total_count class_counts + Z.of_nat (length dataset))%Z ∧
    ∀ c, default 0%Z (class_counts' !! c)
         = (default 0 (class_counts !! c)
            + Z.of_nat (length (filter (λ label, label = c) labels)))%Z.
Proof.
  revert labels class_counts.
  induction dataset as [|[x label] rest IH]; intros labels class_counts Hl.
  - destruct labels; [|done]. exists class_counts. split; [done|].
    split; [cbn [length]; lia|]. intros c. rewrite filter_nil. cbn [length]. lia.
  - destruct labels as [|n labels]; [done|]. cbn in Hl. injection Hl as Hn Hl.
    cbn [count_labels].
    assert (count_label class_counts label
            = Returned (<[n := (default 0 (class_counts !! n) + 1)%Z]> class_counts)) as ->.
    { unfold count_label. destruct label as [m|[|m [|]]]; cbn in Hn; try done;
        by injection Hn as ->. }
    cbn [mbind outcome_bind].
    destruct (IH labels (<[n := (default 0 (class_counts !! n) + 1)%Z]> class_counts) Hl)
      as (cc & -> & Htotal & Hc).
    exists cc. split; [done|]. split.
    + rewrite Htotal, total_count_insert. cbn [length]. unfold id. lia.
    + intros c. rewrite Hc, filter_cons. destruct (decide (n = c)) as [->|Hne].
      * rewrite lookup_insert_eq. cbn [default length]. unfold id. lia.
      * rewrite lookup_insert_ne by done. unfold id. lia.
Qed.

Lemma count_labels_failure {Sample : Type} (dataset : list (Sample * Label))
    (class_counts : gmap Z Z) :
  (∃ sample, sample ∈ dataset ∧ label_value sample.2 = None) →
  ∃ e, count_labels class_counts dataset = Raised e.
Proof.
  revert class_counts. induction dataset as [|[x label] rest IH]; intros class_counts.
  - intros (s & Hs & _). by apply elem_of_nil in Hs.
  - intros (s & Hs & Hnone). cbn [count_labels].
    destruct (count_label class_counts label) as [cc|e] eqn:E; cbn; [|by eauto].
    apply IH. apply elem_of_cons in Hs as [->|Hs]; [|by eauto].
    unfold count_label in E. destruct label as [m|[|m [|]]]; cbn in *; done.
Qed.

(** X23.  For a dataset whose labels are integers or one-element
    tensors, [get_class_counts] maps every label that occurs to the number
    of samples that carry it and no other key, so the counts add up to the
    size of the dataset.  If some label is a tensor without exactly one
    element, the result is the empty dict and no exception escapes. *)
Theorem get_class_counts_counts {Sample : Type} (dataset : list (Sample * Label)) :
  (∀ labels, (label_value ∘ snd) <$> dataset = Some <$> labels →
     total_count (get_class_counts dataset) = Z.of_nat (length dataset) ∧
     ∀ c, get_class_counts dataset !! c
          = if decide (c ∈ labels)
            then Some (Z.of_nat (length (filter (λ label, label = c) labels)))
            else None) ∧
  ((∃ sample, sample ∈ dataset ∧ label_value sample.2 = None) →
     get_class_counts dataset = ∅).
Proof.
  unfold get_class_counts. split.
  - intros labels Hl.
    assert (Hkeys : ∀ (data : list (Sample * Label)) (ls : list Z) (cc cc' : gmap Z Z),
      (label_value ∘ snd) <$> data = Some <$> ls →
      count_labels cc data = Returned cc' →
      ∀ c, is_Some (cc' !! c) ↔ is_Some (cc !! c) ∨ c ∈ ls).
    { induction data as [|[x label] rest IH]; intros ls cc cc' Hls Hrun c.
      - destruct ls; [|done]. cbn in Hrun. injection Hrun as ->.
        rewrite elem_of_nil. tauto.
      - destruct ls as [|n ls]; [done|]. cbn in Hls. injection Hls as Hn Hls.
        cbn [count_labels] in Hrun.
        assert (count_label cc label
                = Returned (<[n := (default 0 (cc !! n) + 1)%Z]> cc)) as Hstep.
        { unfold count_label. destruct label as [m|[|m [|]]]; cbn in Hn; try done;
            by injection Hn as ->. }
        rewrite Hstep in Hrun. cbn [mbind outcome_bind] in Hrun.
        rewrite (IH ls _ _ Hls Hrun c), elem_of_cons.
        destruct (decide (c = n)) as [->|Hne].
        + rewrite lookup_insert_eq. split; [auto|]. intros _. left. eauto.
        + rewrite lookup_insert_ne by done. split; [tauto|]. intros [?|[?|?]]; tauto. }
    destruct (count_labels_spec dataset labels ∅ Hl) as (cc & Hrun & Htotal & Hc).
    rewrite Hrun. split.
    + rewrite Htotal. change (total_count ∅) with 0%Z. lia.
    + intros c. specialize (Hc c). rewrite lookup_empty in Hc. cbn [default] in Hc.
      pose proof (Hkeys dataset labels ∅ cc Hl Hrun c) as Hk.
      rewrite lookup_empty in Hk. case_decide as Hin.
      * destruct (cc !! c) as [n|] eqn:E.
        -- cbn in Hc. unfold id in Hc. f_equal. lia.
        -- destruct (proj2 Hk) as [? [=]]. by right.
      * destruct (cc !! c) as [n|] eqn:E; [|done].
        destruct (proj1 Hk) as [[? [=]]|?]; by eauto.
  - intros Hbad. by destruct (count_labels_failure dataset ∅ Hbad) as [e ->].
Qed.

Lemma foldl_min_le (labels : list Z) (n bound : Z) :
  (bound <= foldl Z.min n labels)%Z ↔ (bound <= n)%Z ∧ Forall (λ label, bound <= label)%Z labels.
Proof.
  revert n. induction labels as [|m l IH]; intros n; cbn [foldl].
  - rewrite Forall_nil. tauto.
  - rewrite IH, Forall_cons. intuition lia.
Qed.

Lemma foldl_max_le (labels : list Z) (n bound : Z) :
  (foldl Z.max n labels <= bound)%Z ↔ (n <= bound)%Z ∧ Forall (λ label, label <= bound)%Z labels.
Proof.
  revert n. induction labels as [|m l IH]; intros n; cbn [foldl].
  - rewrite Forall_nil. tauto.
  - rewrite IH, Forall_cons. intuition lia.
Qed.

(** X24.  [validate_data_integrity] returns [True] exactly when the
    loader yields a first batch whose data has shape [(batch, 1, 28, 28)]
    and only finite elements and whose labels are not empty and all lie
    between 0 and 9.  An empty loader or a batch without labels gives
    [False], and later batches are never looked at. *)
Theorem validate_data_integrity_true (dataloader : list (Tensor * list Z)) :
  validate_data_integrity dataloader = true ↔
  ∃ batch_data batch_labels later batch,
    dataloader = (batch_data, batch_labels) :: later ∧
    shape batch_data = [batch; 1; 28; 28]%Z ∧
    Forall (λ x, ∃ q, x = Finite q) (elements batch_data) ∧
    batch_labels ≠ [] ∧
    Forall (λ label, 0 <= label <= 9)%Z batch_labels.
Proof.
  unfold validate_data_integrity.
  destruct dataloader as [|[batch_data batch_labels] later]; cbn [next mbind outcome_bind].
  { split; [done|]. by intros (? & ? & ? & ? & [=] & _). }
  assert (Hfinite : existsb isnan (elements batch_data) || existsb isinf (elements batch_data)
                    = false ↔ Forall (λ x, ∃ q, x = Finite q) (elements batch_data)).
  { induction (elements batch_data) as [|x l IH]; cbn [existsb].
    - split; [by constructor|done].
    - rewrite Forall_cons, <- IH. destruct x as [q|neg|]; cbn.
      + split; [by eauto|]. by intros [_ ?].
      + rewrite orb_true_r.
        split; [by destruct (existsb isnan l)|]. by intros [[? [=]] _].
      + split; [done|]. by intros [[? [=]] _]. }
  assert (Hlabels : (match batch_labels with
                     | [] => false
                     | n :: rest =>
                         bool_decide (0 <= foldl Z.min n rest)%Z
                         && bool_decide (foldl Z.max n rest <= 9)%Z
                     end) = true ↔
                    batch_labels ≠ [] ∧ Forall (λ label, 0 <= label <= 9)%Z batch_labels).
  { destruct batch_labels as [|n rest]; [split; [done|by intros [? _]]|].
    rewrite andb_true_iff, !bool_decide_eq_true, foldl_min_le, foldl_max_le, Forall_cons.
    split.
    - intros [[? Hlo] [? Hhi]]. split; [done|]. split; [lia|].
      rewrite Forall_forall in Hlo, Hhi. apply Forall_forall. intros x Hx.
      specialize (Hlo x Hx). specialize (Hhi x Hx). lia.
    - intros [_ [? Hall]]. rewrite Forall_forall in Hall.
      repeat split; try lia; apply Forall_forall; intros x Hx; specialize (Hall x Hx); lia. }
  destruct batch_data as [sh els]. cbn [shape elements] in *.
  split.
  - intros Hok. exists (mkTensor sh els), batch_labels, later.
    destruct sh as [|b [|c [|h [|w [|]]]]]; cbn in Hok; try done.
    unfold shape_at in Hok. cbn [shape lookup list_lookup mbind outcome_bind] in Hok.
    destruct (decide (4 ≠ 4)%nat) as [?|_]; [done|].
    destruct (decide (c ≠ 1%Z)) as [?|Hc]; [done|].
    destruct (decide (h ≠ 28%Z)) as [?|Hh]; [done|].
    cbn [mbind outcome_bind mret outcome_ret] in Hok.
    destruct (bool_decide (w ≠ 28%Z)) eqn:Hw; [done|].
    apply bool_decide_eq_false in Hw.
    destruct (existsb isnan els || existsb isinf els) eqn:Hf; [done|].
    exists b. split; [done|]. split.
    { cbn [shape]. assert (c = 1%Z) as -> by lia. assert (h = 28%Z) as -> by lia.
      by assert (w = 28%Z) as -> by lia. }
    split; [by apply Hfinite|]. apply Hlabels.
    destruct batch_labels as [|n rest]; [done|].
    cbn [tensor_min tensor_max mbind outcome_bind mret outcome_ret] in Hok.
    destruct (decide (foldl Z.min n rest < 0)%Z) as [?|Hlo]; [done|].
    destruct (decide (foldl Z.max n rest > 9)%Z) as [?|Hhi]; [done|].
    rewrite andb_true_iff, !bool_decide_eq_true. lia.
  - intros (bd & bl & lt & b & [= <- <- <-] & [= ->] & Hf & Hne & Hl).
    cbn. unfold shape_at. cbn. rewrite !decide_False by (intros ?; done).
    cbn. rewrite bool_decide_eq_false_2 by (intros ?; done).
    apply Hfinite in Hf. rewrite Hf.
    assert (Hlab := proj2 Hlabels (conj Hne Hl)).
    destruct batch_labels as [|n rest]; [done|]. cbn.
    apply andb_true_iff in Hlab as [Hlo%bool_decide_eq_true Hhi%bool_decide_eq_true].
    rewrite !decide_False by lia. done.
Qed.

End MNISTMoreProperties.


Section VectorStoreMoreProperties.
Import Json VectorStore VectorStoreMore.

Lemma collection_get_None (id : pystr) (c : list (pystr * Stored)) :
  collection_get id c = None ↔ id ∉ fst <$> c.
Proof.
  induction c as [|[k d] c IH]; cbn [collection_get fmap list_fmap fst].
  - split; [intros _; apply not_elem_of_nil|done].
  - rewrite not_elem_of_cons. case_decide as Hk.
    + split; [done|]. by intros [? _].
    + rewrite IH. split; [|by intros [_ ?]]. intros ?. split; [congruence|done].
Qed.

Lemma collection_get_Some_elem (id : pystr) (d : Stored) (c : list (pystr * Stored)) :
  collection_get id c = Some d → (id, d) ∈ c.
Proof.
  induction c as [|[k d'] c IH]; cbn [collection_get]; [done|].
  case_decide as Hk; [intros [= ->]; subst; by left|]. intros ?. right. by apply IH.
Qed.

Lemma collection_get_NoDup (id : pystr) (d : Stored) (c : list (pystr * Stored)) :
  NoDup (fst <$> c) → (id, d) ∈ c → collection_get id c = Some d.
Proof.
  induction c as [|[k d'] c IH]; cbn [collection_get fmap list_fmap fst];
    intros Hnd Hin; [by apply elem_of_nil in Hin|].
  apply NoDup_cons in Hnd as [Hk Hnd].
  apply elem_of_cons in Hin as [[= -> ->]|Hin].
  - by rewrite decide_True.
  - rewrite decide_False; [by apply IH|]. intros ->. apply Hk.
    apply list_elem_of_fmap. by exists (id, d).
Qed.

Lemma collection_get_add_other (id other : pystr) (d : Stored)
    (c : list (pystr * Stored)) :
  other ≠ id → collection_get other (collection_add id d c) = collection_get other c.
Proof.
  intros Hne. unfold collection_add. destruct (collection_get id c); [done|].
  induction c as [|[k d'] c IH]; cbn [collection_get app].
  - by rewrite decide_False.
  - by case_decide.
Qed.

Lemma collection_get_delete_other (id other : pystr) (c : list (pystr * Stored)) :
  other ≠ id → collection_get other (collection_delete id c) = collection_get other c.
Proof.
  intros Hne. unfold collection_delete.
  induction c as [|[k d'] c IH]; [done|]. rewrite filter_cons. cbn [fst collection_get].
  destruct (decide (k ≠ id)) as [Hk|Hk].
  - cbn [collection_get]. by case_decide.
  - rewrite decide_False; [done|]. intros ->. by apply Hk.
Qed.

Lemma collection_add_ids (id : pystr) (d : Stored) (c : list (pystr * Stored)) :
  NoDup (fst <$> c) → NoDup (fst <$> collection_add id d c).
Proof.
  intros Hnd. unfold collection_add. destruct (collection_get id c) eqn:E; [done|].
  rewrite fmap_app. apply NoDup_app. split; [done|]. split; [|apply NoDup_singleton].
  intros k Hk ->%list_elem_of_singleton. by apply collection_get_None in E.
Qed.

Lemma collection_delete_ids (id : pystr) (c : list (pystr * Stored)) :
  NoDup (fst <$> c) → NoDup (fst <$> collection_delete id c).
Proof.
  unfold collection_delete. induction c as [|[k d] c IH]; [done|].
  cbn [fmap list_fmap fst]. intros [Hk Hnd]%NoDup_cons. rewrite filter_cons.
  case_decide; [|by apply IH]. cbn [fmap list_fmap fst]. apply NoDup_cons.
  split; [|by apply IH]. intros (p & -> & [_ Hp]%list_elem_of_filter)%list_elem_of_fmap.
  apply Hk. apply list_elem_of_fmap. by exists p.
Qed.

(** X25.  Adding or deleting a document leaves all documents under other
    ids as they were.  [delete_document] reports [True] also for an id that
    is not stored and then changes nothing; deleting twice is the same as
    deleting once.  Both operations keep the ids of the collection
    unique. *)
Theorem documents_of_other_ids_are_kept
    (self : Store) (content : pystr) (metadata' : gmap pystr pyvalue)
    (doc_id : option pystr) (uuid4 id other : pystr) :
  let added := add_document content metadata' doc_id uuid4 self in
  let deleted := delete_document id self in
  (added.1 = Returned other ∨
   get_document other added.2 = get_document other self) ∧
  (other ≠ id → get_document other deleted.2 = get_document other self) ∧
  (get_document id self = None → deleted = (true, self)) ∧
  delete_document id deleted.2 = (true, deleted.2) ∧
  (NoDup (fst <$> collection self) →
   NoDup (fst <$> collection added.2) ∧ NoDup (fst <$> collection deleted.2)).
Proof.
  cbn zeta. unfold add_document, delete_document, get_document. cbn [fst snd collection].
  split; [|split; [|split; [|split]]].
  - set (id' := match doc_id with None | Some [] => uuid4 | Some i => i end).
    destruct (decide (id' = other)) as [->|Hne]; [by left|]. right.
    by rewrite collection_get_add_other.
  - intros Hne. by rewrite collection_get_delete_other.
  - intros Hnone. f_equal. destruct self as [c]. cbn [collection] in *. f_equal.
    assert (Hc : collection_get id c = None) by by destruct (collection_get id c).
    apply collection_get_None in Hc. unfold collection_delete.
    clear Hnone. induction c as [|[k d] c IH]; [done|].
    cbn [fmap list_fmap fst] in Hc. apply not_elem_of_cons in Hc as [Hk Hc].
    rewrite filter_cons. cbn [fst]. rewrite decide_True by done. f_equal. by apply IH.
  - f_equal. f_equal. unfold collection_delete.
    induction (collection self) as [|[k d] c IH]; [done|].
    rewrite filter_cons. cbn [fst]. case_decide as Hk; [|done].
    rewrite filter_cons. cbn [fst]. rewrite decide_True by done. by f_equal.
  - intros Hnd. split; [by apply collection_add_ids|by apply collection_delete_ids].
Qed.


(** X27.  [clear_all] returns [True] and leaves an empty collection:
    the count is 0, [get_document] finds nothing and [list_documents] lists
    nothing. *)
Theorem clear_all_empties (self : Store) (id : pystr) (limit : nat) :
  (clear_all self).1 = true ∧
  collection (clear_all self).2 = [] ∧
  total_documents (clear_all self).2 = 0%nat ∧
  get_document id (clear_all self).2 = None ∧
  list_documents limit (clear_all self).2 = [].
Proof.
  assert (Hall : ∀ (ids : list pystr) (c : list (pystr * Stored)),
    (∀ p, p ∈ c → p.1 ∈ ids) → collection_delete_all ids c = []).
  { intros ids c. unfold collection_delete_all.
    induction c as [|p c IH]; intros Hin; [done|].
    rewrite filter_cons. rewrite decide_False.
    - apply IH. intros q Hq. apply Hin. by right.
    - intros Hn. apply Hn, Hin. by left. }
  assert (Hc : collection (clear_all self).2 = []).
  { unfold clear_all. cbn [snd]. destruct self as [c]. cbn [collection].
    destruct (fst <$> c) as [|first ids] eqn:E.
    - by destruct c.
    - cbn [collection]. apply Hall. intros q Hq. rewrite <- E.
      apply list_elem_of_fmap. by exists q. }
  split; [done|]. split; [done|]. unfold total_documents, get_document, list_documents.
  rewrite Hc. cbn. by rewrite take_nil.
Qed.


End VectorStoreMoreProperties.


Section RagProperties.
Import Rag.
Context {Stores Chunk Source : Type} `{Components Stores Chunk Source}.

Lemma length_last_n {A : Type} (n : nat) (l : list A) :
  length (last_n n l) = (n `min` length l)%nat.
Proof. unfold last_n. rewrite length_drop. lia. Qed.

(** X28.  [query] never raises.  Without search results it returns the
    fixed no-documents answer and leaves the chat history alone; when the
    language model fails it returns an error answer and leaves the history
    alone; otherwise it returns the model's answer and the history becomes
    the last 20 entries of the old history followed by the question and
    the answer.  A history of at most 20 entries stays so, and the flag
    [include_chat_history] does not change the outcome. *)
Theorem query_chat_history (question : string) (n_results : Z)
    (include_chat_history : bool) (chat_history : list Message) :
  let run := query question n_results include_chat_history chat_history in
  (search question n_results = [] →
     run = (mkAnswer "I couldn't find any relevant documents to answer your question."
                     [] (Some 0%Z), chat_history)) ∧
  (∀ e, search question n_results ≠ [] →
     answer_question question (search question n_results) = Raised e →
     run = (mkAnswer ("Error processing query: " +:+ exn_str e) [] (Some 0%Z),
            chat_history)) ∧
  (∀ result, search question n_results ≠ [] →
     answer_question question (search question n_results) = Returned result →
     run.1 = result ∧
     run.2 = last_n 20 (chat_history ++ [mkMessage "user" question;
                                         mkMessage "assistant" (answer result)]) ∧
     length run.2 = (20 `min` (length chat_history + 2))%nat ∧
     last run.2 = Some (mkMessage "assistant" (answer result))) ∧
  (length chat_history <= 20 → length run.2 <= 20)%nat ∧
  query question n_results (negb include_chat_history) chat_history = run.
Proof.
  cbn zeta. unfold query.
  destruct (search question n_results) as [|first rest] eqn:Hs.
  { split; [done|]. split; [by intros|]. split; [by intros|]. by split. }
  split; [done|].
  destruct (answer_question question (first :: rest)) as [result|e] eqn:Ha.
  - split; [done|]. cbn [fst snd].
    assert (Hhist :
      (if decide (20 < length ((chat_history ++ [mkMessage "user" question])
                               ++ [mkMessage "assistant" (answer result)]))%nat
       then last_n 20 ((chat_history ++ [mkMessage "user" question])
                       ++ [mkMessage "assistant" (answer result)])
       else (chat_history ++ [mkMessage "user" question])
            ++ [mkMessage "assistant" (answer result)])
      = last_n 20 (chat_history ++ [mkMessage "user" question;
                                    mkMessage "assistant" (answer result)])).
    { rewrite <- app_assoc. cbn [app]. case_decide as Hlen; [done|].
      unfold last_n. replace (_ - 20)%nat with 0%nat by lia. done. }
    rewrite Hhist. split; [|split; [|done]].
    + intros r _ [= <-]. split; [done|]. split; [done|]. split.
      * rewrite length_last_n, length_app. cbn [length]. lia.
      * unfold last_n. rewrite last_lookup, lookup_drop, length_drop, length_app.
        cbn [length].
        replace (_ + pred _)%nat with (length chat_history + 1)%nat by lia.
        rewrite lookup_app_r by lia.
        by replace (_ - _)%nat with 1%nat by lia.
    + intros _. rewrite length_last_n. lia.
  - split; [by intros ? _ [= <-]|]. split; [done|]. by split.
Qed.

Lemma length_short_summary (summary : Json.pystr) :
  (length (short_summary summary) <= 103)%nat ∧
  (length summary <= 100 → short_summary summary = summary)%nat.
Proof.
  unfold short_summary. case_decide; [|split; [lia|done]]. split; [|lia].
  rewrite length_app, length_take.
  assert (length (Json.py "...") = 3%nat) as -> by by vm_compute. lia.
Qed.

(** What one turn of the loop of [bulk_ingest] keeps true of its
    accumulators. *)
Lemma ingest_one_totals (file : string) (results : Tally) (stores : Stores) :
  total_processed results = Z.of_nat (length (processed results)) →
  total_failed results = Z.of_nat (length (failed results)) →
  Forall (λ p, length (p_summary p) <= 103)%nat (processed results) →
  let results' := (ingest_one file (results, stores)).1 in
  total_processed results' = Z.of_nat (length (processed results')) ∧
  total_failed results' = Z.of_nat (length (failed results')) ∧
  (length (processed results') + length (failed results')
   = S (length (processed results) + length (failed results)))%nat ∧
  Forall (λ p, length (p_summary p) <= 103)%nat (processed results').
Proof.
  intros Hp Hf Hs. cbn zeta. unfold ingest_one.
  destruct (ingest_document file stores) as [[filename document_id summary|error] stores'];
    cbn [fst processed failed total_processed total_failed];
    rewrite ?length_app; cbn [length].
  - split; [lia|]. split; [lia|]. split; [lia|].
    apply Forall_app. split; [done|]. apply Forall_singleton. apply length_short_summary.
  - split; [lia|]. split; [lia|]. split; [lia|done].
Qed.

Lemma ingest_loop_totals (files : list string) (results : Tally) (stores : Stores) :
  total_processed results = Z.of_nat (length (processed results)) →
  total_failed results = Z.of_nat (length (failed results)) →
  Forall (λ p, length (p_summary p) <= 103)%nat (processed results) →
  let results' :=
    (foldl (fun acc file_path => ingest_one file_path acc) (results, stores) files).1 in
  total_processed results' = Z.of_nat (length (processed results')) ∧
  total_failed results' = Z.of_nat (length (failed results')) ∧
  (length (processed results') + length (failed results')
   = length (processed results) + length (failed results) + length files)%nat ∧
  Forall (λ p, length (p_summary p) <= 103)%nat (processed results').
Proof.
  revert results stores. induction files as [|file files IH]; intros results stores Hp Hf Hs.
  - cbn. repeat split; try done; lia.
  - cbn [foldl]. pose proof (ingest_one_totals file results stores Hp Hf Hs) as Hone.
    cbn zeta in Hone. destruct (ingest_one file (results, stores)) as [t s'].
    cbn [fst] in Hone. destruct Hone as (Hp' & Hf' & Hlen & Hs').
    destruct (IH t s' Hp' Hf' Hs') as (? & ? & ? & ?).
    cbn zeta. split; [done|]. split; [done|]. split; [|done]. cbn [length]. lia.
Qed.


End RagProperties.
